(** * Lottery predictor: validation, import and statistics pipeline

    A shallow embedding of the validator, the cleaner and the deduplicator
    ([src/utils/validation.ts]), of the game catalog and the data manager that
    come with them, and of the batch importer ([src/lib/dataImport.ts]),
    followed by the properties of the pipeline.  The pattern analysis of the
    data manager, the mock scraper ([src/utils/scraper.ts]) and the historical
    and CSV imports come after them, with properties of their own.

    Conventions of the embedding.
    - A lottery number (an element of [numbers]) is only ever compared, tested
      for integrality and tested for equality; none of these rounds, so such a
      number is modelled by the exact rational it denotes ([Q]).  NaN and the
      infinities are not represented there.
    - A jackpot and a percentage are computed with (multiplied, divided,
      rounded), so they are IEEE-754 binary64 values, modelled with the
      specification floats of the Standard Library ([SpecFloat]).
    - Persisted draws hold integers (an INTEGER[] column), modelled by [Z].
    - Error and warning messages are modelled by one constructor per message
      template, carrying the values interpolated into the text.
    - The persistent store and the host's date functions are interfaces. *)

From Stdlib Require Import ZArith QArith Qround List String Ascii Bool Arith Lia.
From Stdlib Require Import Sorted Permutation SetoidList SetoidPermutation SpecFloat.
Import ListNotations.

Local Open Scope Z_scope.

(** ** JavaScript numbers that are computed with: binary64 *)

Module JsNumber.

Definition prec : Z := 53.
Definition emax : Z := 1024.

Definition float64 : Type := spec_float.

Definition mul : float64 -> float64 -> float64 := SFmul prec emax.
Definition div : float64 -> float64 -> float64 := SFdiv prec emax.
Definition ltb : float64 -> float64 -> bool := SFltb.

(** The Number nearest to an integer (exact below 2^53). *)
Definition of_Z (z : Z) : float64 := binary_normalize prec emax z 0 false.

(** ToBoolean on a Number: false for +0, -0 and NaN. *)
Definition truthy (x : float64) : bool :=
  match x with
  | S754_zero _ => false
  | S754_nan => false
  | _ => true
  end.

(** [Math.round]: the nearest integer, a tie going towards +infinity.
    A finite value is [(-1)^s * m * 2^e]; with [e >= 0] it is an integer
    already. *)
Definition Math_round (x : float64) : float64 :=
  match x with
  | S754_finite s m (Zneg k) =>
      let d := Z.pow_pos 2 k in
      let v := if s then Z.neg m else Z.pos m in
      let n := (2 * v + d) / (2 * d) in
      if n =? 0 then S754_zero s else of_Z n
  | _ => x
  end.

(** Decimal digits of a natural number, most significant first. *)
Definition digit (d : Z) : ascii := ascii_of_nat (48 + Z.to_nat d).

Fixpoint digits_aux (fuel : nat) (n : Z) (acc : string) : string :=
  match fuel with
  | O => acc
  | S fuel' =>
      let acc' := String (digit (n mod 10)) acc in
      if n / 10 =? 0 then acc' else digits_aux fuel' (n / 10) acc'
  end.

Definition digits (n : Z) : string :=
  digits_aux (S (Z.to_nat (Z.log2 n))) n EmptyString.

(** For a finite value [m * 2^e], the integer [n] for which [n / 10] is
    closest to it, the larger one on a tie. *)
Definition tenths (m : positive) (e : Z) : Z :=
  match e with
  | Zneg k => (20 * Z.pos m + Z.pow_pos 2 k) / (2 * Z.pow_pos 2 k)
  | _ => 10 * Z.pos m * 2 ^ e
  end.

(** [x.toFixed(1)]: for a finite [x] below 1e21 in magnitude, the digits of
    [tenths] with a point before the last one, after the sign.  For a finite
    value of 1e21 and above the method hands over to Number::toString, which
    is not modelled: [None]. *)
Definition toFixed1 (x : float64) : option string :=
  match x with
  | S754_nan => Some "NaN"%string
  | S754_infinity s => Some (if s then "-Infinity" else "Infinity")%string
  | S754_zero _ => Some "0.0"%string
  | S754_finite s m e =>
      let n := tenths m e in
      if 10 ^ 22 <=? n then None
      else
        let body := (digits (n / 10) ++ "." ++ digits (n mod 10))%string in
        Some (if s then ("-" ++ body)%string else body)
  end.

End JsNumber.

(** ** [Array.prototype.sort] with a comparator

    The method is stable, and for a consistent comparator its result is the
    one stable sorted arrangement; insertion from the right computes it.
    [cmp a b] is the sign of the comparator's result. *)

Module JsArray.
Section Sort.
Context {A : Type} (cmp : A -> A -> comparison).

Fixpoint insert (x : A) (l : list A) : list A :=
  match l with
  | [] => [x]
  | y :: l' =>
      match cmp x y with
      | Gt => y :: insert x l'
      | _ => x :: l
      end
  end.

Definition sort (l : list A) : list A := fold_right insert [] l.
End Sort.

(** [arr.slice(-n)] for [n >= 0]: the last [n] elements. *)
Definition slice_last {A : Type} (n : nat) (l : list A) : list A :=
  skipn (List.length l - n) l.
End JsArray.

(** ** Strings *)

Module JsString.
(** White space and line terminators among the code units below 256. *)
Definition isWhiteSpace (c : ascii) : bool :=
  let n := nat_of_ascii c in
  ((9 <=? n) && (n <=? 13) || (n =? 32) || (n =? 160))%nat.

Fixpoint trimStart (s : string) : string :=
  match s with
  | EmptyString => EmptyString
  | String c s' => if isWhiteSpace c then trimStart s' else s
  end.

Fixpoint trimEnd (s : string) : string :=
  match s with
  | EmptyString => EmptyString
  | String c s' =>
      match trimEnd s' with
      | EmptyString => if isWhiteSpace c then EmptyString else String c EmptyString
      | t => String c t
      end
  end.

Definition trim (s : string) : string := trimEnd (trimStart s).
End JsString.

(** ** The host's date functions

    A Date is its time value in milliseconds, [None] for an Invalid Date.
    Parsing a string, the clock and the local calendar rendering belong to
    the host. *)

Class JsHost : Type := {
  Date_parse : string -> option Z;
  Date_now : Z;
  Date_toDateString : option Z -> string
}.

Inductive DateInput : Type :=
| DateText (s : string)
| DateObject (time : option Z).

Definition new_Date `{JsHost} (d : DateInput) : option Z :=
  match d with
  | DateText s => Date_parse s
  | DateObject t => t
  end.

(** ** The game catalog ([LOTTERY_GAMES]) *)

Module Constants.

Record GameConfig : Type := {
  name : string;
  description : string;
  maxNumber : Z;
  numberCount : nat;
  drawDays : list string
}.

Definition LOTTERY_GAMES : list (string * GameConfig) :=
  [ ("6/42", {| name := "6/42"; description := "Lotto 6/42";
                maxNumber := 42; numberCount := 6;
                drawDays := ["Tuesday"; "Thursday"; "Saturday"] |});
    ("6/45", {| name := "6/45"; description := "Mega Lotto 6/45";
                maxNumber := 45; numberCount := 6;
                drawDays := ["Monday"; "Wednesday"; "Friday"] |});
    ("6/49", {| name := "6/49"; description := "Super Lotto 6/49";
                maxNumber := 49; numberCount := 6;
                drawDays := ["Tuesday"; "Thursday"; "Sunday"] |});
    ("6/55", {| name := "6/55"; description := "Grand Lotto 6/55";
                maxNumber := 55; numberCount := 6;
                drawDays := ["Monday"; "Wednesday"; "Saturday"] |});
    ("6/58", {| name := "6/58"; description := "Ultra Lotto 6/58";
                maxNumber := 58; numberCount := 6;
                drawDays := ["Tuesday"; "Friday"; "Sunday"] |}) ]%string.

(** [Object.keys(LOTTERY_GAMES)]. *)
Definition keys : list string := map fst LOTTERY_GAMES.

(** The game stored under an own key. *)
Fixpoint assoc {V : Type} (k : string) (l : list (string * V)) : option V :=
  match l with
  | [] => None
  | (k', v) :: l' => if String.eqb k k' then Some v else assoc k l'
  end.

Definition own (k : string) : option GameConfig := assoc k LOTTERY_GAMES.

(** [LOTTERY_GAMES] is an object literal, so its prototype is
    [Object.prototype]; these are the properties it inherits. *)
Definition Object_prototype_keys : list string :=
  [ "constructor"; "hasOwnProperty"; "isPrototypeOf"; "propertyIsEnumerable";
    "toLocaleString"; "toString"; "valueOf"; "__proto__";
    "__defineGetter__"; "__defineSetter__"; "__lookupGetter__";
    "__lookupSetter__" ]%string.

Definition inherited (k : string) : bool :=
  existsb (String.eqb k) Object_prototype_keys.

(** [k in LOTTERY_GAMES]: own and inherited properties alike. *)
Definition has (k : string) : bool :=
  match own k with
  | Some _ => true
  | None => inherited k
  end.

(** What the validator reads off [LOTTERY_GAMES[k]]: nothing when the value
    is undefined; otherwise its [numberCount] and [maxNumber], which are
    undefined on an inherited function or object. *)
Record ConfigView : Type := {
  view_numberCount : option nat;
  view_maxNumber : option Z
}.

Definition get (k : string) : option ConfigView :=
  match own k with
  | Some g => Some {| view_numberCount := Some (numberCount g);
                      view_maxNumber := Some (maxNumber g) |}
  | None =>
      if inherited k
      then Some {| view_numberCount := None; view_maxNumber := None |}
      else None
  end.

End Constants.

(** ** The validator, the cleaner and the deduplicator *)

Module Validation.
Import Constants.

Record LotteryResultData : Type := {
  gameName : string;
  drawDate : DateInput;
  numbers : list Q;
  jackpot : option JsNumber.float64
}.

(** One constructor per message pushed onto [errors].  The two messages a
    well-typed record cannot trigger ('Invalid draw date', from the handler
    around [new Date], which does not throw, and 'Numbers must be an array')
    are listed for completeness. *)
Inductive ValidationError : Type :=
| GameNameRequired
| InvalidGameName (given : string) (allowed : list string)
| InvalidDrawDateFormat
| InvalidDrawDate
| NumbersMustBeArray
| ExpectedNumbers (expected : option nat) (got : nat)
| NotAnInteger (index : nat) (num : Q)
| OutOfRange (num : Q) (index : nat) (max : option Z)
| DuplicateNumbers
| JackpotMustBePositive.

Inductive ValidationWarning : Type :=
| DateInFuture
| DateBeforeHistory
| NotAscending.

Record ValidationResult : Type := {
  isValid : bool;
  errors : list ValidationError;
  warnings : list ValidationWarning
}.

(** [Number.isInteger]. *)
Definition Number_isInteger (q : Q) : bool := Qeq_bool q (inject_Z (Qfloor q)).

Definition Qltb (a b : Q) : bool := negb (Qle_bool b a).

(** [new Set(arr)]: the distinct values in order of first occurrence
    (SameValueZero is equality of values here). *)
Definition Set_add (s : list Q) (x : Q) : list Q :=
  if existsb (Qeq_bool x) s then s else s ++ [x].

Definition new_Set (l : list Q) : list Q := fold_left Set_add l [].

(** [JSON.stringify(a) === JSON.stringify(b)] on arrays of finite numbers:
    same length and the same values. *)
Fixpoint same_json (a b : list Q) : bool :=
  match a, b with
  | [], [] => true
  | x :: a', y :: b' => Qeq_bool x y && same_json a' b'
  | _, _ => false
  end.

(** The comparator [(a, b) => a - b]: the sign of the difference. *)
Definition ascending (a b : Q) : comparison := Qcompare a b.

Definition gameNameErrors (data : LotteryResultData) : list ValidationError :=
  if String.eqb (gameName data) ""
  then [GameNameRequired]
  else if negb (has (gameName data))
       then [InvalidGameName (gameName data) keys]
       else [].

Section WithHost.
Context `{JsHost}.

Definition drawDateErrors (data : LotteryResultData) : list ValidationError :=
  match new_Date (drawDate data) with
  | None => [InvalidDrawDateFormat]
  | Some _ => []
  end.

Definition drawDateWarnings (data : LotteryResultData) : list ValidationWarning :=
  match new_Date (drawDate data) with
  | None => []
  | Some t =>
      (if Date_now <? t then [DateInFuture] else []) ++
      (match Date_parse "1995-01-01" with
       | Some start => if t <? start then [DateBeforeHistory] else []
       | None => []
       end)
  end.
End WithHost.

(** The body of [data.numbers.forEach((num, index) => ...)]. *)
Definition checkNumber (max : option Z) (index : nat) (num : Q)
  : list ValidationError :=
  if negb (Number_isInteger num)
  then [NotAnInteger index num]
  else if Qltb num 1 ||
          match max with
          | Some m => Qltb (inject_Z m) num
          | None => false
          end
       then [OutOfRange num index max]
       else [].

Fixpoint checkNumbers (max : option Z) (index : nat) (nums : list Q)
  : list ValidationError :=
  match nums with
  | [] => []
  | num :: rest => checkNumber max index num ++ checkNumbers max (S index) rest
  end.

Definition lengthErrors (cfg : ConfigView) (nums : list Q) : list ValidationError :=
  match view_numberCount cfg with
  | Some n =>
      if (List.length nums =? n)%nat then []
      else [ExpectedNumbers (Some n) (List.length nums)]
  | None => [ExpectedNumbers None (List.length nums)]
  end.

Definition duplicateErrors (nums : list Q) : list ValidationError :=
  if (List.length (new_Set nums) =? List.length nums)%nat then []
  else [DuplicateNumbers].

Definition numbersErrors (data : LotteryResultData) : list ValidationError :=
  match get (gameName data) with
  | Some cfg =>
      lengthErrors cfg (numbers data) ++
      checkNumbers (view_maxNumber cfg) 0 (numbers data) ++
      duplicateErrors (numbers data)
  | None => []
  end.

Definition numbersWarnings (data : LotteryResultData) : list ValidationWarning :=
  match get (gameName data) with
  | Some _ =>
      if same_json (numbers data) (JsArray.sort ascending (numbers data))
      then [] else [NotAscending]
  | None => []
  end.

Definition jackpotErrors (data : LotteryResultData) : list ValidationError :=
  match jackpot data with
  | Some j => if JsNumber.ltb j (JsNumber.of_Z 0) then [JackpotMustBePositive] else []
  | None => []
  end.

Definition validateLotteryResult `{JsHost} (data : LotteryResultData)
  : ValidationResult :=
  let errors := gameNameErrors data ++ drawDateErrors data ++
                numbersErrors data ++ jackpotErrors data in
  let warnings := drawDateWarnings data ++ numbersWarnings data in
  {| isValid := (List.length errors =? 0)%nat;
     errors := errors;
     warnings := warnings |}.

(** [Math.round(jackpot * 100) / 100]. *)
Definition round2 (j : JsNumber.float64) : JsNumber.float64 :=
  JsNumber.div (JsNumber.Math_round (JsNumber.mul j (JsNumber.of_Z 100)))
               (JsNumber.of_Z 100).

Definition cleanLotteryResult `{JsHost} (data : LotteryResultData)
  : LotteryResultData :=
  {| gameName := JsString.trim (gameName data);
     drawDate := DateObject (new_Date (drawDate data));
     numbers := JsArray.sort ascending (numbers data);
     jackpot := match jackpot data with
                | Some j => if JsNumber.truthy j then Some (round2 j) else None
                | None => None
                end |}.

Record ValidationSummary : Type := {
  total : nat;
  valid : nat;
  invalid : nat;
  warningCount : nat
}.

Record BatchValidation : Type := {
  validResults : list LotteryResultData;
  invalidResults : list (LotteryResultData * ValidationResult);
  summary : ValidationSummary
}.

Section WithHost.
Context `{JsHost}.

(** One turn of [results.forEach]: the state is
    [(validResults, invalidResults, totalWarnings)]. *)
Definition validateStep
    (st : list LotteryResultData * list (LotteryResultData * ValidationResult) * nat)
    (result : LotteryResultData) :=
  let '(validResults, invalidResults, totalWarnings) := st in
  let validation := validateLotteryResult result in
  if isValid validation
  then (validResults ++ [cleanLotteryResult result], invalidResults,
        (totalWarnings + List.length (warnings validation))%nat)
  else (validResults, invalidResults ++ [(result, validation)], totalWarnings).

Definition validateLotteryResults (results : list LotteryResultData)
  : BatchValidation :=
  let '(validResults, invalidResults, totalWarnings) :=
    fold_left validateStep results ([], [], 0%nat) in
  {| validResults := validResults;
     invalidResults := invalidResults;
     summary := {| total := List.length results;
                   valid := List.length validResults;
                   invalid := List.length invalidResults;
                   warningCount := totalWarnings |} |}.

(** The key [`${gameName}-${new Date(drawDate).toDateString()}`]. *)
Definition calendarDate (result : LotteryResultData) : string :=
  Date_toDateString (new_Date (drawDate result)).

Definition duplicateKey (result : LotteryResultData) : string :=
  (gameName result ++ "-" ++ calendarDate result)%string.
End WithHost.

(** A [Map] with string keys: entries in insertion order; [set] on a key
    already present keeps its position. *)
Section JsMap.
Context {V : Type}.

Fixpoint Map_has (k : string) (m : list (string * V)) : bool :=
  match m with
  | [] => false
  | (k', _) :: m' => String.eqb k' k || Map_has k m'
  end.

Fixpoint Map_get (k : string) (m : list (string * V)) : option V :=
  match m with
  | [] => None
  | (k', v) :: m' => if String.eqb k' k then Some v else Map_get k m'
  end.

Fixpoint Map_set (k : string) (v : V) (m : list (string * V))
  : list (string * V) :=
  match m with
  | [] => [(k, v)]
  | (k', v') :: m' =>
      if String.eqb k' k then (k', v) :: m' else (k', v') :: Map_set k v m'
  end.
End JsMap.

Section WithHost.
Context `{JsHost}.

(** One turn of [results.forEach] in [detectDuplicates]; the [push]
    changes the array that the map holds under [key]. *)
Definition seenStep (seen : list (string * list LotteryResultData))
    (result : LotteryResultData) : list (string * list LotteryResultData) :=
  let key := duplicateKey result in
  let seen1 := if Map_has key seen then seen else Map_set key [] seen in
  match Map_get key seen1 with
  | Some group => Map_set key (group ++ [result]) seen1
  | None => seen1
  end.

Definition detectDuplicates (results : list LotteryResultData)
  : list (list LotteryResultData) :=
  let seen := fold_left seenStep results [] in
  filter (fun group => (1 <? List.length group)%nat) (map snd seen).
End WithHost.

End Validation.

(** ** The data manager: statistics of a game *)

Module DataManager.

(** A row of [lottery_results] as the statistics read it.  The jackpot
    column feeds only the jackpot aggregates, which are not part of this
    development. *)
Record LotteryResult : Type := {
  drawDate : Z;
  numbers : list Z
}.

Record LotteryGame : Type := {
  name : string;
  maxNumber : Z;
  numberCount : nat;
  results : list LotteryResult
}.

(** *** A plain object with numeric keys

    A key is the canonical text of an integer, so it is modelled by that
    integer ([parseInt] of the key gives it back).  The own keys come in
    the order of [OrdinaryOwnPropertyKeys]: the array indices (0 up to
    2^32 - 2) ascending, then the other keys in order of creation. *)
Definition isArrayIndex (k : Z) : bool := (0 <=? k) && (k <? 2 ^ 32 - 1).

Fixpoint Object_get (k : Z) (o : list (Z * nat)) : option nat :=
  match o with
  | [] => None
  | (k', v) :: o' => if k' =? k then Some v else Object_get k o'
  end.

Fixpoint Object_replace (k : Z) (v : nat) (o : list (Z * nat)) : list (Z * nat) :=
  match o with
  | [] => []
  | (k', v') :: o' =>
      if k' =? k then (k', v) :: o' else (k', v') :: Object_replace k v o'
  end.

Fixpoint Object_addIndex (k : Z) (v : nat) (o : list (Z * nat)) : list (Z * nat) :=
  match o with
  | [] => [(k, v)]
  | (k', v') :: o' =>
      if isArrayIndex k' && (k' <? k)
      then (k', v') :: Object_addIndex k v o'
      else (k, v) :: o
  end.

Definition Object_set (k : Z) (v : nat) (o : list (Z * nat)) : list (Z * nat) :=
  match Object_get k o with
  | Some _ => Object_replace k v o
  | None => if isArrayIndex k then Object_addIndex k v o else o ++ [(k, v)]
  end.

(** [numberFrequency[num] = (numberFrequency[num] || 0) + 1]. *)
Definition countNumber (freq : list (Z * nat)) (num : Z) : list (Z * nat) :=
  let old := match Object_get num freq with
             | Some v => v
             | None => 0%nat
             end in
  Object_set num (old + 1)%nat freq.

Definition countResult (freq : list (Z * nat)) (result : LotteryResult)
  : list (Z * nat) :=
  fold_left countNumber (numbers result) freq.

Definition numberFrequencyOf (results : list LotteryResult) : list (Z * nat) :=
  fold_left countResult results [].

(** The comparator [([, a], [, b]) => b - a] on the entries. *)
Definition byFrequencyDesc (x y : Z * nat) : comparison :=
  Nat.compare (snd y) (snd x).

Definition sortedNumbersOf (freq : list (Z * nat)) : list Z :=
  map fst (JsArray.sort byFrequencyDesc freq).

(** The fields of [GameStatistics] other than the date range and the
    jackpot aggregates. *)
Record GameStatistics : Type := {
  gameName : string;
  totalDraws : nat;
  numberFrequency : list (Z * nat);
  hotNumbers : list Z;
  coldNumbers : list Z
}.

Definition calculateGameStatistics (game : LotteryGame) : GameStatistics :=
  match results game with
  | [] =>
      {| gameName := name game; totalDraws := 0;
         numberFrequency := []; hotNumbers := []; coldNumbers := [] |}
  | _ =>
      let numberFrequency := numberFrequencyOf (results game) in
      let sortedNumbers := sortedNumbersOf numberFrequency in
      {| gameName := name game;
         totalDraws := List.length (results game);
         numberFrequency := numberFrequency;
         hotNumbers := firstn 10 sortedNumbers;
         coldNumbers := rev (JsArray.slice_last 10 sortedNumbers) |}
  end.

(** *** Pattern analysis *)

(** A value that is a Number in one branch and a String in the other.
    [StringValue None] is a text this development does not spell out
    (see [JsNumber.toFixed1]). *)
Inductive JsValue : Type :=
| NumberValue (x : JsNumber.float64)
| StringValue (s : option string).


(** The comparator [(a, b) => a - b] on integers. *)
Definition ascending (a b : Z) : comparison := Z.compare a b.






End DataManager.

(** ** The batch importer *)

Module DataImport.
Import Validation.

Record ImportDetails : Type := {
  total : nat;
  valid : nat;
  invalid : nat;
  duplicates : nat
}.

(** One constructor per message pushed onto [errors]. *)
Inductive ImportError : Type :=
| InvalidResultsFound (count : nat)
| GameNotFound (gameName : string)
| FailedToImport (gameName : string) (drawDate : DateInput) (message : string)
| ImportFailed (message : string).

Record ImportResult : Type := {
  success : bool;
  imported : nat;
  skipped : nat;
  errors : list ImportError;
  details : ImportDetails
}.

Record ImportOptions : Type := {
  skipDuplicates : bool;
  validateData : bool;
  batchSize : nat
}.

(** [Partial<ImportOptions>]. *)
Record PartialImportOptions : Type := {
  given_skipDuplicates : option bool;
  given_validateData : option bool;
  given_batchSize : option nat
}.

Definition DEFAULT_OPTIONS : ImportOptions :=
  {| skipDuplicates := true; validateData := true; batchSize := 100 |}.

Definition no_options : PartialImportOptions :=
  {| given_skipDuplicates := None; given_validateData := None;
     given_batchSize := None |}.

(** [{ ...DEFAULT_OPTIONS, ...options }]. *)
Definition mergeOptions (options : PartialImportOptions) : ImportOptions :=
  {| skipDuplicates := match given_skipDuplicates options with
                       | Some b => b
                       | None => skipDuplicates DEFAULT_OPTIONS
                       end;
     validateData := match given_validateData options with
                     | Some b => b
                     | None => validateData DEFAULT_OPTIONS
                     end;
     batchSize := match given_batchSize options with
                  | Some n => n
                  | None => batchSize DEFAULT_OPTIONS
                  end |}.

(** *** The store

    The three Prisma calls of the importer.  Each may throw (the message of
    the error is kept) and each returns the state of the store after it. *)
Record NewLotteryResult : Type := {
  new_gameId : string;
  new_drawDate : option Z;
  new_numbers : list Q;
  new_jackpot : option JsNumber.float64
}.

Definition Async (Db A : Type) : Type := Db -> (string + A) * Db.

Class Prisma (Db : Type) : Type := {
  lotteryGame_findUnique : string -> Async Db (option string);
  lotteryResult_findUnique : string -> option Z -> Async Db (option NewLotteryResult);
  lotteryResult_create : NewLotteryResult -> Async Db unit
}.

Definition ret {Db A : Type} (a : A) : Async Db A := fun db => (inr a, db).

Definition bind {Db A B : Type} (m : Async Db A) (k : A -> Async Db B)
  : Async Db B :=
  fun db =>
    match m db with
    | (inl message, db') => (inl message, db')
    | (inr a, db') => k a db'
    end.

Notation "x <- m ;; k" := (bind m (fun x => k))
  (at level 61, m at next level, right associativity).

(** How one turn of the loop of [processBatch] ends when nothing throws. *)
Inductive Outcome : Type :=
| NoSuchGame
| Existing
| Created.

Record BatchResult : Type := {
  batch_imported : nat;
  batch_skipped : nat;
  batch_errors : list ImportError
}.

Section WithStore.
Context `{JsHost} {Db : Type} `{Prisma Db}.

(** The body of the [try] block. *)
Definition importOne (options : ImportOptions) (result : LotteryResultData)
  : Async Db Outcome :=
  game <- lotteryGame_findUnique (gameName result) ;;
  match game with
  | None => ret NoSuchGame
  | Some gameId =>
      let drawDate := new_Date (drawDate result) in
      existing <- (if skipDuplicates options
                   then lotteryResult_findUnique gameId drawDate
                   else ret None) ;;
      match existing with
      | Some _ => ret Existing
      | None =>
          _ <- lotteryResult_create
                 {| new_gameId := gameId;
                    new_drawDate := drawDate;
                    new_numbers := numbers result;
                    new_jackpot :=
                      match jackpot result with
                      | Some j => if JsNumber.truthy j then Some j else None
                      | None => None
                      end |} ;;
          ret Created
      end
  end.

(** One turn of [for (const result of batch)], with its [catch]. *)
Definition processOne (options : ImportOptions) (acc : BatchResult)
    (result : LotteryResultData) (db : Db) : BatchResult * Db :=
  match importOne options result db with
  | (inr NoSuchGame, db') =>
      ({| batch_imported := batch_imported acc;
          batch_skipped := batch_skipped acc;
          batch_errors := batch_errors acc ++ [GameNotFound (gameName result)] |},
       db')
  | (inr Existing, db') =>
      ({| batch_imported := batch_imported acc;
          batch_skipped := S (batch_skipped acc);
          batch_errors := batch_errors acc |}, db')
  | (inr Created, db') =>
      ({| batch_imported := S (batch_imported acc);
          batch_skipped := batch_skipped acc;
          batch_errors := batch_errors acc |}, db')
  | (inl message, db') =>
      ({| batch_imported := batch_imported acc;
          batch_skipped := batch_skipped acc;
          batch_errors :=
            batch_errors acc ++
            [FailedToImport (gameName result) (drawDate result) message] |},
       db')
  end.

Fixpoint processRecords (options : ImportOptions) (acc : BatchResult)
    (batch : list LotteryResultData) (db : Db) : BatchResult * Db :=
  match batch with
  | [] => (acc, db)
  | result :: rest =>
      let '(acc', db') := processOne options acc result db in
      processRecords options acc' rest db'
  end.

Definition processBatch (batch : list LotteryResultData)
    (options : ImportOptions) (db : Db) : BatchResult * Db :=
  processRecords options
    {| batch_imported := 0; batch_skipped := 0; batch_errors := [] |}
    batch db.

(** [for (let i = 0; i < validResults.length; i += opts.batchSize)].
    The loop does not end when [batchSize] is 0, so it is run on fuel;
    [None] means the fuel ran out.  The state is
    [(imported, skipped, errors)]. *)
Fixpoint batchLoop (fuel : nat) (opts : ImportOptions)
    (validResults : list LotteryResultData) (i : nat)
    (st : nat * nat * list ImportError) (db : Db)
  : option (nat * nat * list ImportError * Db) :=
  match fuel with
  | O => None
  | S fuel' =>
      if (i <? List.length validResults)%nat
      then
        let batch := firstn (batchSize opts) (skipn i validResults) in
        let '(batchResult, db') := processBatch batch opts db in
        let '(imported, skipped, errors) := st in
        batchLoop fuel' opts validResults (i + batchSize opts)
          ((imported + batch_imported batchResult)%nat,
           (skipped + batch_skipped batchResult)%nat,
           errors ++ batch_errors batchResult)
          db'
      else Some (st, db)
  end.

(** The [try] block of [importLotteryResults].  Nothing in it throws
    outside the handler of [processBatch], so the outer [catch] (which
    would build an [ImportFailed] result) is never entered. *)
Definition importLotteryResults (fuel : nat)
    (results : list LotteryResultData) (options : PartialImportOptions)
    (db : Db) : option (ImportResult * Db) :=
  let opts := mergeOptions options in
  let validation := validateLotteryResults results in
  let validResults :=
    if validateData opts then Validation.validResults validation else results in
  let errors0 :=
    if validateData opts
    then if (0 <? List.length (invalidResults validation))%nat
         then [InvalidResultsFound (List.length (invalidResults validation))]
         else []
    else [] in
  match batchLoop fuel opts validResults 0 (0%nat, 0%nat, errors0) db with
  | None => None
  | Some (imported, skipped, errors, db') =>
      Some ({| success := (List.length errors =? 0)%nat;
               imported := imported;
               skipped := skipped;
               errors := errors;
               details :=
                 {| total := List.length results;
                    valid := List.length validResults;
                    invalid := (List.length results - List.length validResults)%nat;
                    duplicates := skipped |} |},
            db')
  end.
End WithStore.

End DataImport.

(** ** An in-memory store and sample data

    The store keeps the two tables the importer touches and enforces the
    unique index on [(gameId, drawDate)]; a draw date that is an Invalid Date
    is refused by both calls that take one. *)

Module MemoryStore.
Import DataImport.

Record Db : Type := {
  games : list (string * string);
  rows : list NewLotteryResult
}.

Definition sameKey (gameId : string) (t : Z) (row : NewLotteryResult) : bool :=
  String.eqb (new_gameId row) gameId &&
  match new_drawDate row with
  | Some t' => t' =? t
  | None => false
  end.

Definition findGame (name : string) : Async Db (option string) :=
  fun db => (inr (Constants.assoc name (games db)), db).

Definition findResult (gameId : string) (date : option Z)
  : Async Db (option NewLotteryResult) :=
  fun db =>
    match date with
    | None => (inl "Invalid value for argument drawDate"%string, db)
    | Some t => (inr (find (sameKey gameId t) (rows db)), db)
    end.

Definition create (row : NewLotteryResult) : Async Db unit :=
  fun db =>
    match new_drawDate row with
    | None => (inl "Invalid value for argument drawDate"%string, db)
    | Some t =>
        if existsb (sameKey (new_gameId row) t) (rows db)
        then (inl "Unique constraint failed on the fields: (gameId, drawDate)"%string, db)
        else (inr tt, {| games := games db; rows := rows db ++ [row] |})
    end.

#[export] Instance prisma : Prisma Db := {
  lotteryGame_findUnique := findGame;
  lotteryResult_findUnique := findResult;
  lotteryResult_create := create
}.

(** The store after the seed script has created the five games. *)
Definition seeded : Db :=
  {| games := map (fun k => (k, ("id:" ++ k)%string)) Constants.keys;
     rows := [] |}.

Definition empty : Db := {| games := []; rows := [] |}.
End MemoryStore.

Module Samples.
Import Validation.

(** A host that knows the dates of the sample data: ISO dates are read as
    UTC midnight and rendered in UTC. *)
Definition parse (s : string) : option Z :=
  if String.eqb s "1995-01-01" then Some 788918400000
  else if String.eqb s "2025-09-01" then Some 1756684800000
  else if String.eqb s "2025-09-02" then Some 1756771200000
  else None.

Definition render (t : option Z) : string :=
  match t with
  | None => "Invalid Date"
  | Some t =>
      if t =? 1756684800000 then "Mon Sep 01 2025"
      else if t =? 1756771200000 then "Tue Sep 02 2025"
      else if t =? 788918400000 then "Sun Jan 01 1995"
      else "Thu Jan 01 1970"
  end.

#[export] Instance host : JsHost := {
  Date_parse := parse;
  Date_now := 1762041600000;
  Date_toDateString := render
}.

Definition ints (l : list Z) : list Q := map inject_Z l.

Definition record (game date : string) (l : list Z) (jackpot : option JsNumber.float64)
  : LotteryResultData :=
  {| gameName := game; drawDate := DateText date; numbers := ints l;
     jackpot := jackpot |}.

Definition draw642 : LotteryResultData :=
  record "6/42" "2025-09-01" [5; 12; 23; 31; 38; 42] (Some (JsNumber.of_Z 5500000)).

Definition draw642_unsorted : LotteryResultData :=
  record "6/42" "2025-09-02" [40; 14; 16; 29; 35; 18] None.

Definition draw642_again : LotteryResultData :=
  record "6/42" "2025-09-01" [1; 2; 3; 4; 5; 6] None.

Definition draw645 : LotteryResultData :=
  record "6/45" "2025-09-01" [3; 15; 22; 28; 36; 44] (Some (JsNumber.of_Z 8200000)).

Definition draw649 : LotteryResultData :=
  record "6/49" "2025-09-01" [7; 14; 21; 29; 35; 47] (Some (JsNumber.of_Z 12300000)).

Definition draw655 : LotteryResultData :=
  record "6/55" "2025-09-01" [9; 18; 27; 34; 41; 52] (Some (JsNumber.of_Z 28500000)).

Definition draw658 : LotteryResultData :=
  record "6/58" "2025-09-01" [11; 19; 26; 33; 45; 56] (Some (JsNumber.of_Z 48000000)).

(** The number 50 is out of range for 6/45. *)
Definition outOfRange : LotteryResultData :=
  record "6/45" "2025-09-02" [1; 15; 22; 28; 50; 44] (Some (JsNumber.of_Z 8500000)).

(** Too few numbers. *)
Definition tooFew : LotteryResultData :=
  record "6/42" "2025-09-02" [1; 2; 3; 4; 5] (Some (JsNumber.of_Z 6000000)).


(** A jackpot of 0.004. *)
Definition tinyJackpot : LotteryResultData :=
  record "6/42" "2025-09-01" [5; 12; 23; 31; 38; 42]
    (Some (JsNumber.div (JsNumber.of_Z 4) (JsNumber.of_Z 1000))).

(** A game name that is a property of [Object.prototype]. *)
Definition prototypeName : LotteryResultData :=
  record "toString" "2025-09-01" [0; 7] None.

(** A game name that is no property of [LOTTERY_GAMES] at all. *)
Definition unknownName : LotteryResultData :=
  record "6/99" "2025-09-01" [0; 7] None.

Definition row (l : list Z) : DataManager.LotteryResult :=
  {| DataManager.drawDate := 1756684800000; DataManager.numbers := l |}.

Definition game (results : list DataManager.LotteryResult) : DataManager.LotteryGame :=
  {| DataManager.name := "6/42"; DataManager.maxNumber := 42;
     DataManager.numberCount := 6; DataManager.results := results |}.
End Samples.

(** ** The specification's own words

    Definitions that follow the specification rather than the code, to be
    compared with the code's. *)

Module Spec.
Import DataManager.

(** All numbers of all draws, in order. *)
Definition drawn (results : list LotteryResult) : list Z :=
  List.concat (map numbers results).

(** How often a number has been drawn. *)
Definition occurrences (results : list LotteryResult) (n : Z) : nat :=
  count_occ Z.eq_dec (drawn results) n.







(** Whether an import error is about one record: a reference error or a
    persistence error. *)
Definition isRecordError (e : DataImport.ImportError) : bool :=
  match e with
  | DataImport.GameNotFound _ => true
  | DataImport.FailedToImport _ _ _ => true
  | _ => false
  end.

Definition recordErrors (errors : list DataImport.ImportError) : nat :=
  List.length (filter isRecordError errors).

(** The errors the validator reports about the numbers of a record. *)
Definition isNumberError (e : Validation.ValidationError) : bool :=
  match e with
  | Validation.ExpectedNumbers _ _ => true
  | Validation.NotAnInteger _ _ => true
  | Validation.OutOfRange _ _ _ => true
  | _ => false
  end.

Definition isUnknownGame (e : Validation.ValidationError) : bool :=
  match e with
  | Validation.InvalidGameName _ _ => true
  | _ => false
  end.

End Spec.

(** ** The data manager: pattern analysis and date range *)

Module Patterns.
Import DataManager.

(** [(count / total * 100).toFixed(1)]. *)
Definition share (count total : nat) : option string :=
  JsNumber.toFixed1
    (JsNumber.mul
       (JsNumber.div (JsNumber.of_Z (Z.of_nat count)) (JsNumber.of_Z (Z.of_nat total)))
       (JsNumber.of_Z 100)).

(** [total > 0 ? (count / total * 100).toFixed(1) : 0]. *)
Definition shareOrZero (count total : nat) : JsValue :=
  if (0 <? total)%nat then StringValue (share count total)
  else NumberValue (JsNumber.of_Z 0).

Record EvenOddRatio : Type := {
  even : JsValue;
  odd : JsValue
}.

(** [if (num % 2 === 0) evenCount++ else oddCount++]; the state is
    [(evenCount, oddCount)].  The remainder has the sign of [num]. *)
Definition evenOddStep (st : nat * nat) (num : Z) : nat * nat :=
  let '(evenCount, oddCount) := st in
  if Z.rem num 2 =? 0 then (S evenCount, oddCount) else (evenCount, S oddCount).

Definition calculateEvenOddRatio (results : list LotteryResult) : EvenOddRatio :=
  let '(evenCount, oddCount) :=
    fold_left (fun st result => fold_left evenOddStep (numbers result) st)
              results (0%nat, 0%nat) in
  let total := (evenCount + oddCount)%nat in
  {| even := shareOrZero evenCount total;
     odd := shareOrZero oddCount total |}.

(** [Math.ceil(maxNumber / 2)] for an integer [maxNumber]: halving an integer
    is exact in binary64, so the midpoint is the integer ceiling. *)
Definition midpointOf (maxNumber : Z) : Z := (maxNumber + 1) / 2.

Record HighLowRatio : Type := {
  high : JsValue;
  low : JsValue
}.

(** [if (num > midpoint) highCount++ else lowCount++]; the state is
    [(highCount, lowCount)]. *)
Definition highLowStep (midpoint : Z) (st : nat * nat) (num : Z) : nat * nat :=
  let '(highCount, lowCount) := st in
  if midpoint <? num then (S highCount, lowCount) else (highCount, S lowCount).

Definition calculateHighLowRatio (results : list LotteryResult) (maxNumber : Z)
  : HighLowRatio :=
  let midpoint := midpointOf maxNumber in
  let '(highCount, lowCount) :=
    fold_left (fun st result => fold_left (highLowStep midpoint) (numbers result) st)
              results (0%nat, 0%nat) in
  let total := (highCount + lowCount)%nat in
  {| high := shareOrZero highCount total;
     low := shareOrZero lowCount total |}.

(** [new Set()] of integers with [add]: the distinct values in order of first
    insertion. *)
Definition Set_add (s : list Z) (x : Z) : list Z :=
  if existsb (Z.eqb x) s then s else s ++ [x].

Definition Set_has (s : list Z) (x : Z) : bool := existsb (Z.eqb x) s.

Record NumberGaps : Type := {
  missingNumbers : list Z;
  missingCount : nat;
  coverage : option string
}.

(** [Array.from({ length: maxNumber }, (_, i) => i + 1)]; a length below 0
    counts as 0. *)
Definition allNumbersTo (maxNumber : Z) : list Z :=
  map (fun i => Z.of_nat i + 1) (seq 0 (Z.to_nat maxNumber)).

Definition calculateNumberGaps (results : list LotteryResult) (maxNumber : Z)
  : NumberGaps :=
  let allNumbers := allNumbersTo maxNumber in
  let drawnNumbers :=
    fold_left (fun s result => fold_left Set_add (numbers result) s) results [] in
  let gaps := filter (fun num => negb (Set_has drawnNumbers num)) allNumbers in
  {| missingNumbers := gaps;
     missingCount := List.length gaps;
     coverage :=
       JsNumber.toFixed1
         (JsNumber.mul
            (JsNumber.div
               (JsNumber.of_Z (maxNumber - Z.of_nat (List.length gaps)))
               (JsNumber.of_Z maxNumber))
            (JsNumber.of_Z 100)) |}.

(** [Math.ceil]. *)
Definition Math_ceil (x : JsNumber.float64) : JsNumber.float64 :=
  match x with
  | S754_finite s m (Zneg k) =>
      let d := Z.pow_pos 2 k in
      let v := if s then Z.neg m else Z.pos m in
      let n := - ((- v) / d) in
      if n =? 0 then S754_zero s else JsNumber.of_Z n
  | _ => x
  end.

Record DateRange : Type := {
  earliest : option Z;
  latest : option Z;
  daysCovered : JsNumber.float64
}.

(** The date range of [calculateGameStatistics]: the draw dates sorted by
    time, the first, the last, and the days between them. *)
Definition dateRangeOf (results : list LotteryResult) : DateRange :=
  match results with
  | [] => {| earliest := None; latest := None; daysCovered := JsNumber.of_Z 0 |}
  | first :: _ =>
      let dates := JsArray.sort Z.compare (map drawDate results) in
      let earliest := hd (drawDate first) dates in
      let latest := last dates (drawDate first) in
      {| earliest := Some earliest;
         latest := Some latest;
         daysCovered :=
           Math_ceil
             (JsNumber.div
                (SFsub JsNumber.prec JsNumber.emax
                   (JsNumber.of_Z latest) (JsNumber.of_Z earliest))
                (JsNumber.of_Z (1000 * 60 * 60 * 24))) |}
  end.

End Patterns.

(** ** The scraper (mock data source)

    [Math.random] is the host's: a run is given the values that its calls to
    [Math.random] return, in order, and does not return ([None]) when it asks
    for more of them than it was given.  The calendar functions of [Date]
    that the scraper uses are the host's too. *)

Class CalendarHost : Type := {
  (** [date.getDay()], the local day of the week, 0 for Sunday. *)
  Date_getDay : Z -> nat;
  (** The time value after [date.setDate(date.getDate() + 1)]. *)
  Date_addDay : Z -> option Z
}.

Module Scraper.
Import Validation.

(** What [table[key]] gives for an object literal [table]. *)
Inductive Lookup (A : Type) : Type :=
| Own (a : A)
| Inherited
| Missing.
Arguments Own {A} a.
Arguments Inherited {A}.
Arguments Missing {A}.

Definition lookup {A : Type} (table : list (string * A)) (key : string) : Lookup A :=
  match Constants.assoc key table with
  | Some a => Own a
  | None => if Constants.inherited key then Inherited else Missing
  end.

Record Config : Type := {
  numberCount : nat;
  maxNumber : Z;
  drawDays : list string
}.

Definition configs : list (string * Config) :=
  [ ("6/42", {| numberCount := 6; maxNumber := 42;
                drawDays := ["Tuesday"; "Thursday"; "Saturday"] |});
    ("6/45", {| numberCount := 6; maxNumber := 45;
                drawDays := ["Monday"; "Wednesday"; "Friday"] |});
    ("6/49", {| numberCount := 6; maxNumber := 49;
                drawDays := ["Tuesday"; "Thursday"; "Sunday"] |});
    ("6/55", {| numberCount := 6; maxNumber := 55;
                drawDays := ["Monday"; "Wednesday"; "Saturday"] |});
    ("6/58", {| numberCount := 6; maxNumber := 58;
                drawDays := ["Tuesday"; "Friday"; "Sunday"] |}) ]%string.

Definition getGameConfig (gameType : string) : Lookup Config :=
  lookup configs gameType.

Definition dayNames : list string :=
  [ "Sunday"; "Monday"; "Tuesday"; "Wednesday"; "Thursday"; "Friday";
    "Saturday" ]%string.

(** The message of the TypeError for [undefined.includes]. *)
Definition includes_of_undefined : string :=
  "Cannot read properties of undefined (reading 'includes')".

(** [isDrawDay]: a boolean, or the error thrown when the configuration found
    is an inherited property, which has no [drawDays]. *)
Definition isDrawDay `{CalendarHost} (date : option Z) (gameType : string)
  : string + bool :=
  match getGameConfig gameType with
  | Missing => inr false
  | Inherited => inl includes_of_undefined
  | Own gameConfig =>
      let dayName := match date with
                     | Some t => nth_error dayNames (Date_getDay t)
                     | None => None
                     end in
      inr match dayName with
          | Some name => existsb (String.eqb name) (drawDays gameConfig)
          | None => false
          end
  end.

(** The integer part of a finite Number, towards minus infinity. *)
Definition floorZ (x : JsNumber.float64) : Z :=
  match x with
  | S754_finite s m e =>
      let v := if s then Z.neg m else Z.pos m in
      match e with
      | Zneg k => v / Z.pow_pos 2 k
      | _ => v * 2 ^ e
      end
  | _ => 0
  end.

(** [Math.floor(Math.random() * maxNumber) + 1] for the value [r] of
    [Math.random()]: an integer, and the addition is exact as long as the
    product stays below 2^53. *)
Definition randomNumber (maxNumber : Z) (r : JsNumber.float64) : Z :=
  floorZ (JsNumber.mul r (JsNumber.of_Z maxNumber)) + 1.

(** [while (numbers.size < count) numbers.add(...)]. *)
Fixpoint fillNumbers (count : nat) (maxNumber : Z) (numbers : list Z)
    (random : list JsNumber.float64) : option (list Z * list JsNumber.float64) :=
  if (List.length numbers <? count)%nat
  then match random with
       | [] => None
       | r :: rest =>
           fillNumbers count maxNumber
             (Patterns.Set_add numbers (randomNumber maxNumber r)) rest
       end
  else Some (numbers, random).

Definition generateRandomNumbers (count : nat) (maxNumber : Z)
    (random : list JsNumber.float64) : option (list Z * list JsNumber.float64) :=
  match fillNumbers count maxNumber [] random with
  | Some (numbers, rest) => Some (JsArray.sort Z.compare numbers, rest)
  | None => None
  end.

Definition baseAmounts : list (string * Z) :=
  [ ("6/42", 5000000); ("6/45", 8000000); ("6/49", 15000000);
    ("6/55", 25000000); ("6/58", 45000000) ]%string.

Definition add : JsNumber.float64 -> JsNumber.float64 -> JsNumber.float64 :=
  SFadd JsNumber.prec JsNumber.emax.

(** The Number 0.5. *)
Definition half : JsNumber.float64 := S754_finite false 4503599627370496 (-53).

(** [baseAmounts[gameType] || 10000000]; an inherited property is a function
    or an object, which the multiplication turns into NaN. *)
Definition generateRandomJackpot (gameType : string)
    (random : list JsNumber.float64)
  : option (JsNumber.float64 * list JsNumber.float64) :=
  match random with
  | [] => None
  | r :: rest =>
      let base := match lookup baseAmounts gameType with
                  | Own amount => JsNumber.of_Z amount
                  | Inherited => S754_nan
                  | Missing => JsNumber.of_Z 10000000
                  end in
      let multiplier := add half (JsNumber.mul r (JsNumber.of_Z 2)) in
      Some (JsNumber.Math_round (JsNumber.mul base multiplier), rest)
  end.

(** [current <= endDate] on two Dates. *)
Definition notAfter (current endDate : option Z) : bool :=
  match current, endDate with
  | Some c, Some e => c <=? e
  | _, _ => false
  end.

Section WithHost.
Context `{CalendarHost}.

(** The [while] loop of [generateMockHistoricalData], on fuel.  The result is
    the list of records, or the message of an error thrown on the way. *)
Fixpoint mockLoop (fuel : nat) (gameType : string) (gameConfig : Lookup Config)
    (endDate current : option Z) (results : list LotteryResultData)
    (random : list JsNumber.float64)
  : option ((string + list LotteryResultData) * list JsNumber.float64) :=
  match fuel with
  | O => None
  | S fuel' =>
      if notAfter current endDate
      then
        let next := match current with
                    | Some t => Date_addDay t
                    | None => None
                    end in
        match isDrawDay current gameType with
        | inl message => Some (inl message, random)
        | inr false =>
            mockLoop fuel' gameType gameConfig endDate next results random
        | inr true =>
            match gameConfig with
            | Own config =>
                match generateRandomNumbers (numberCount config) (maxNumber config)
                        random with
                | None => None
                | Some (numbers, random1) =>
                    match generateRandomJackpot gameType random1 with
                    | None => None
                    | Some (jackpot, random2) =>
                        mockLoop fuel' gameType gameConfig endDate next
                          (results ++
                           [{| gameName := gameType;
                               drawDate := DateObject current;
                               numbers := map inject_Z numbers;
                               jackpot := Some jackpot |}])
                          random2
                    end
                end
            | _ =>
                (* not reached: [isDrawDay] answers only for a configuration
                   of the table *)
                mockLoop fuel' gameType gameConfig endDate next results random
            end
        end
      else Some (inr results, random)
  end.

Definition generateMockHistoricalData (fuel : nat) (gameType : string)
    (startDate endDate : option Z) (random : list JsNumber.float64)
  : option ((string + list LotteryResultData) * list JsNumber.float64) :=
  match getGameConfig gameType with
  | Missing => Some (inr [], random)
  | gameConfig => mockLoop fuel gameType gameConfig endDate startDate [] random
  end.
End WithHost.

Inductive ScrapeError : Type :=
| InvalidResult (drawDate : DateInput) (errors : list ValidationError)
| ScrapingFailed (message : string).

Record ScrapingResult : Type := {
  success : bool;
  data : list LotteryResultData;
  errors : list ScrapeError;
  source : string;
  scrapedAt : Z
}.

Section WithHosts.
Context `{JsHost} `{CalendarHost}.

(** One turn of [mockResults.forEach]; the state is
    [(validatedResults, errors)]. *)
Definition scrapeStep (st : list LotteryResultData * list ScrapeError)
    (result : LotteryResultData) : list LotteryResultData * list ScrapeError :=
  let '(validatedResults, errors) := st in
  let validation := validateLotteryResult result in
  if isValid validation
  then (validatedResults ++ [cleanLotteryResult result], errors)
  else (validatedResults,
        errors ++ [InvalidResult (drawDate result) (Validation.errors validation)]).

Definition scrapePCSOResults (fuel : nat) (gameType : string)
    (startDate endDate : option Z) (random : list JsNumber.float64)
  : option (ScrapingResult * list JsNumber.float64) :=
  match generateMockHistoricalData fuel gameType startDate endDate random with
  | None => None
  | Some (inr mockResults, random') =>
      let '(validatedResults, errors) := fold_left scrapeStep mockResults ([], []) in
      Some ({| success := true;
               data := validatedResults;
               errors := errors;
               source := "PCSO Official Website (Mock)";
               scrapedAt := Date_now |}, random')
  | Some (inl message, random') =>
      Some ({| success := false;
               data := [];
               errors := [ScrapingFailed message];
               source := "PCSO Official Website (Mock)";
               scrapedAt := Date_now |}, random')
  end.
End WithHosts.

End Scraper.

(** ** Historical import *)

Module HistoricalImport.
Import Validation DataImport.

(** The errors of a historical import: those the adapter reported, the
    message of an error it threw, and those of the import itself. *)
Inductive HistoricalError : Type :=
| FromAdapter (e : Scraper.ScrapeError)
| ScrapingFailed (message : string)
| FromImport (e : ImportError).

Record HistoricalResult : Type := {
  success : bool;
  imported : nat;
  skipped : nat;
  errors : list HistoricalError;
  details : ImportDetails
}.

(** An [ImportResult] returned as it is. *)
Definition ofImport (r : ImportResult) : HistoricalResult :=
  {| success := DataImport.success r;
     imported := DataImport.imported r;
     skipped := DataImport.skipped r;
     errors := map FromImport (DataImport.errors r);
     details := DataImport.details r |}.

Definition failed (errors : list HistoricalError) : HistoricalResult :=
  {| success := false; imported := 0; skipped := 0; errors := errors;
     details := {| total := 0; valid := 0; invalid := 0; duplicates := 0 |} |}.

(** The data source: a call returns a result or throws (the message is
    kept), and leaves the source in a new state; [None] when it does not
    return. *)
Class DataSource (W : Type) : Type := {
  scrape : string -> option Z -> option Z -> W ->
           option ((string + Scraper.ScrapingResult) * W)
}.

Section WithSource.
Context `{JsHost} {Db : Type} `{Prisma Db} {W : Type} `{DataSource W}.

Definition importHistoricalData (fuel : nat) (gameType : string)
    (startDate endDate : option Z) (w : W) (db : Db)
  : option (HistoricalResult * W * Db) :=
  match scrape gameType startDate endDate w with
  | None => None
  | Some (inl message, w') => Some (failed [ScrapingFailed message], w', db)
  | Some (inr scrapingResult, w') =>
      if negb (Scraper.success scrapingResult)
      then Some (failed (map FromAdapter (Scraper.errors scrapingResult)), w', db)
      else match importLotteryResults fuel (Scraper.data scrapingResult)
                   no_options db with
           | None => None
           | Some (r, db') => Some (ofImport r, w', db')
           end
  end.

(** The loop [for (const gameType of Object.keys(LOTTERY_GAMES))], with
    [results[gameType] = ...] as its body; the pause between two games is
    not represented. *)
Fixpoint importGames (fuel : nat) (gameTypes : list string)
    (startDate endDate : option Z)
    (results : list (string * HistoricalResult)) (w : W) (db : Db)
  : option (list (string * HistoricalResult) * W * Db) :=
  match gameTypes with
  | [] => Some (results, w, db)
  | gameType :: rest =>
      match importHistoricalData fuel gameType startDate endDate w db with
      | None => None
      | Some (r, w', db') =>
          importGames fuel rest startDate endDate (Map_set gameType r results) w' db'
      end
  end.

(** [startDate] and [endDate] are optional: [new Date('2000-01-01')] and
    [new Date()] stand in for an omitted one. *)
Definition importAllHistoricalData (fuel : nat)
    (startDate endDate : option (option Z)) (w : W) (db : Db)
  : option (list (string * HistoricalResult) * W * Db) :=
  let startDate := match startDate with
                   | Some d => d
                   | None => Date_parse "2000-01-01"
                   end in
  let endDate := match endDate with
                 | Some d => d
                 | None => Some Date_now
                 end in
  importGames fuel Constants.keys startDate endDate [] w db.
End WithSource.

(** The mock scraper as a data source; its state is the values that
    [Math.random] is still to return. *)
Definition mockSource `{JsHost} `{CalendarHost} (fuel : nat)
  : DataSource (list JsNumber.float64) :=
  {| scrape := fun gameType startDate endDate random =>
       match Scraper.scrapePCSOResults fuel gameType startDate endDate random with
       | Some (result, random') => Some (inr result, random')
       | None => None
       end |}.

End HistoricalImport.

(** ** Import from CSV

    Strings are sequences of code units below 256, as for [trim].  Reading a
    number out of a string is the host's: [parseInt] gives a finite Number or
    NaN ([None]), [parseFloat] any Number. *)

Class NumberHost : Type := {
  parseInt : string -> option Q;
  parseFloat : string -> JsNumber.float64
}.

Module CsvImport.
Import Validation DataImport.

(** [s.split(sep)] for a separator of one character. *)
Fixpoint split (sep : ascii) (s : string) : list string :=
  match s with
  | EmptyString => [EmptyString]
  | String c s' =>
      if Ascii.eqb c sep then EmptyString :: split sep s'
      else match split sep s' with
           | first :: rest => String c first :: rest
           | [] => [String c EmptyString]
           end
  end.

(** [s.replace(/[...]/g, '')]: the characters of a class removed. *)
Fixpoint remove (class : ascii -> bool) (s : string) : string :=
  match s with
  | EmptyString => EmptyString
  | String c s' => if class c then remove class s' else String c (remove class s')
  end.

(** The class of the double quote. *)
Definition isQuote (c : ascii) : bool := Ascii.eqb c (ascii_of_nat 34).

(** The class of the square brackets and the double quote. *)
Definition isBracketOrQuote (c : ascii) : bool :=
  Ascii.eqb c "["%char || Ascii.eqb c "]"%char || isQuote c.

Definition lowerChar (c : ascii) : ascii :=
  let n := nat_of_ascii c in
  if ((65 <=? n) && (n <=? 90) ||
      (192 <=? n) && (n <=? 222) && negb (n =? 215))%nat
  then ascii_of_nat (n + 32)
  else c.

Fixpoint toLowerCase (s : string) : string :=
  match s with
  | EmptyString => EmptyString
  | String c s' => String (lowerChar c) (toLowerCase s')
  end.

(** [s.includes(part)]. *)
Fixpoint includes (s part : string) : bool :=
  String.prefix part s ||
  match s with
  | EmptyString => false
  | String _ s' => includes s' part
  end.

(** [arr.findIndex(p)], [None] for -1. *)
Fixpoint findIndex {A : Type} (p : A -> bool) (l : list A) : option nat :=
  match l with
  | [] => None
  | x :: l' => if p x then Some 0%nat
               else match findIndex p l' with
                    | Some i => Some (S i)
                    | None => None
                    end
  end.

Definition expectedHeaders : list string :=
  ["gameName"; "drawDate"; "numbers"; "jackpot"]%string.

(** The index of the first header that contains the expected name, letter
    case aside. *)
Definition columnOf (headers : list string) (header : string) : option nat :=
  findIndex (fun h => includes (toLowerCase h) (toLowerCase header)) headers.

(** The [reduce] that builds [headerMap]. *)
Definition headerMapOf (headers : list string) : list (string * nat) :=
  fold_left
    (fun map header =>
       match columnOf headers header with
       | Some headerIndex => Map_set header headerIndex map
       | None => map
       end)
    expectedHeaders [].

(** [values[index]] before a method is called on it: [None] is the
    [undefined] on which the call throws. *)
Definition field (values : list string) (index : option nat) : option string :=
  match index with
  | Some i => nth_error values i
  | None => None
  end.

Inductive CsvError : Type :=
| CsvParsingFailed (message : string)
| FromImport (e : ImportError).

Record CsvResult : Type := {
  success : bool;
  imported : nat;
  skipped : nat;
  errors : list CsvError;
  details : ImportDetails
}.

(** An [ImportResult] returned as it is. *)
Definition ofImport (r : ImportResult) : CsvResult :=
  {| success := DataImport.success r;
     imported := DataImport.imported r;
     skipped := DataImport.skipped r;
     errors := map FromImport (DataImport.errors r);
     details := DataImport.details r |}.

(** The message of the TypeError for [undefined.split]. *)
Definition split_of_undefined : string :=
  "Cannot read properties of undefined (reading 'split')".

Section WithHosts.
Context `{JsHost} `{NumberHost} {Db : Type} `{Prisma Db}.

(** The numbers of a row: the parts between semicolons that [parseInt]
    reads as a number. *)
Definition parseNumbers (text : string) : list Q :=
  flat_map (fun n => match parseInt (JsString.trim n) with
                     | Some q => [q]
                     | None => []
                     end)
           (split ";" (remove isBracketOrQuote text)).

(** One turn of the loop over the rows: the record pushed, or [None] when
    the row is passed over, for having fewer values than there are headers
    or for an error thrown on a missing column. *)
Definition parseRow (headers : list string) (headerMap : list (string * nat))
    (line : string) : option LotteryResultData :=
  let values := map JsString.trim (split "," line) in
  if (List.length values <? List.length headers)%nat then None
  else
    match field values (Map_get "numbers" headerMap) with
    | None => None
    | Some numbersText =>
        match field values (Map_get "gameName" headerMap) with
        | None => None
        | Some nameText =>
            match field values (Map_get "drawDate" headerMap) with
            | None => None
            | Some dateText =>
                Some {| gameName := remove isQuote nameText;
                        drawDate := DateObject (Date_parse (remove isQuote dateText));
                        numbers := parseNumbers numbersText;
                        jackpot :=
                          match Map_get "jackpot" headerMap with
                          | Some i =>
                              Some match nth_error values i with
                                   | Some text => parseFloat text
                                   | None => S754_nan
                                   end
                          | None => None
                          end |}
            end
        end
    end.

(** The candidates read from the rows below the header line. *)
Definition parseRows (headers : list string) (rows : list string)
  : list LotteryResultData :=
  let headerMap := headerMapOf headers in
  flat_map (fun line => match parseRow headers headerMap line with
                        | Some result => [result]
                        | None => []
                        end) rows.

(** The lines that are not blank. *)
Definition linesOf (csvContent : string) : list string :=
  filter (fun line => match JsString.trim line with
                      | EmptyString => false
                      | String _ _ => true
                      end)
         (split (ascii_of_nat 10) csvContent).

Definition importFromCSV (fuel : nat) (csvContent : string) (db : Db)
  : option (CsvResult * Db) :=
  match linesOf csvContent with
  | [] =>
      Some ({| success := false; imported := 0; skipped := 0;
               errors := [CsvParsingFailed split_of_undefined];
               details := {| total := 0; valid := 0; invalid := 0;
                             duplicates := 0 |} |}, db)
  | first :: rows =>
      let headers := map JsString.trim (split "," first) in
      match importLotteryResults fuel (parseRows headers rows) no_options db with
      | None => None
      | Some (r, db') => Some (ofImport r, db')
      end
  end.
End WithHosts.

End CsvImport.

(** ** A calendar for the sample data: days of the week and day steps in UTC *)

Module UtcCalendar.

Definition day : Z := 1000 * 60 * 60 * 24.

(** 1 January 1970 was a Thursday. *)
Definition getDay (t : Z) : nat := Z.to_nat ((t / day + 4) mod 7).

(** A time value beyond 8.64e15 is no date. *)
Definition addDay (t : Z) : option Z :=
  if t + day <=? 8640000000000000 then Some (t + day) else None.

#[export] Instance calendar : CalendarHost := {
  Date_getDay := getDay;
  Date_addDay := addDay
}.

End UtcCalendar.

(** ** More sample data *)

Module MoreSamples.

(** Values of [Math.random]: 0, 1/8, 2/8, ... 5/8, and 1/2. *)
Definition randoms : list JsNumber.float64 :=
  map (fun k => JsNumber.div (JsNumber.of_Z k) (JsNumber.of_Z 8)) [0; 1; 2; 3; 4; 5]
  ++ [Scraper.half].

(** Monday 1 and Tuesday 2 September 2025, UTC. *)
Definition monday : option Z := Some 1756684800000.
Definition tuesday : option Z := Some 1756771200000.

Definition config642 : Scraper.Config :=
  {| Scraper.numberCount := 6; Scraper.maxNumber := 42;
     Scraper.drawDays := ["Tuesday"; "Thursday"; "Saturday"]%string |}.

Definition game645 : Constants.GameConfig :=
  {| Constants.name := "6/45"; Constants.description := "Mega Lotto 6/45";
     Constants.maxNumber := 45; Constants.numberCount := 6;
     Constants.drawDays := ["Monday"; "Wednesday"; "Friday"]%string |}.

(** A record without a game name. *)
Definition nameless : Validation.LotteryResultData :=
  {| Validation.gameName := EmptyString;
     Validation.drawDate := DateText "2025-09-01";
     Validation.numbers := Samples.ints [1; 2; 3; 4; 5; 6];
     Validation.jackpot := None |}.

(** A data source that delivers one draw of 1 September 2025 for whatever
    game it is asked. *)
#[export] Instance feed : HistoricalImport.DataSource unit := {
  HistoricalImport.scrape := fun gameType _ _ w =>
    Some (inr {| Scraper.success := true;
                 Scraper.data :=
                   [Samples.record gameType "2025-09-01" [1; 2; 3; 4; 5; 6] None];
                 Scraper.errors := [];
                 Scraper.source := "sample";
                 Scraper.scrapedAt := 0 |}, w)
}.

(** A host that reads unsigned decimal numerals. *)
Definition digitOf (c : ascii) : option Z :=
  let n := nat_of_ascii c in
  if ((48 <=? n) && (n <=? 57))%nat then Some (Z.of_nat (n - 48)) else None.

Fixpoint readDigits (s : string) (acc : option Z) : option Z :=
  match s with
  | EmptyString => acc
  | String c s' =>
      match digitOf c with
      | Some d =>
          readDigits s' (Some (10 * match acc with Some a => a | None => 0 end + d))
      | None => acc
      end
  end.

#[export] Instance numerals : NumberHost := {
  parseInt := fun s => option_map inject_Z (readDigits s None);
  parseFloat := fun s => match readDigits s None with
                         | Some n => JsNumber.of_Z n
                         | None => S754_nan
                         end
}.

Definition newline : string := String (ascii_of_nat 10) EmptyString.

(** A sheet with a header line, a full row and a row that is too short. *)
Definition sheet : string :=
  ("gameName,drawDate,numbers,jackpot" ++ newline ++
   "6/42,2025-09-01,5;12;23;31;38;42,5500000" ++ newline ++
   "6/42,2025-09-02" ++ newline)%string.

(** A sheet whose header line names no column of numbers. *)
Definition sheetWithoutNumbers : string :=
  ("gameName,drawDate" ++ newline ++ "6/42,2025-09-01" ++ newline)%string.

Definition history : list DataManager.LotteryResult :=
  [ {| DataManager.drawDate := 1756771200000; DataManager.numbers := [1; 2; 3] |};
    {| DataManager.drawDate := 1756684800000; DataManager.numbers := [4; 5; 6] |} ].

End MoreSamples.

(** ** Auxiliary notions for the properties *)

Module Facts.

(** A Number that is not below zero in the sense of [x < 0]: a zero, NaN, or
    a finite or infinite value of positive sign. *)
Definition notNegative (x : JsNumber.float64) : Prop :=
  match x with
  | S754_finite s _ _ => s = false
  | S754_infinity s => s = false
  | _ => True
  end.

(** The element of [numbers] triggers an error of the per-number check. *)
Definition offending (max : option Z) (q : Q) : bool :=
  negb (Validation.Number_isInteger q) ||
  (Validation.Qltb q 1 ||
   match max with
   | Some m => Validation.Qltb (inject_Z m) q
   | None => false
   end).

(** The errors that name one element of [numbers]. *)
Definition isPerNumberError (e : Validation.ValidationError) : bool :=
  match e with
  | Validation.NotAnInteger _ _ => true
  | Validation.OutOfRange _ _ _ => true
  | _ => false
  end.

(** The counters of two stretches of a batch, put together. *)
Definition mergeBatch (a b : DataImport.BatchResult) : DataImport.BatchResult :=
  {| DataImport.batch_imported :=
       (DataImport.batch_imported a + DataImport.batch_imported b)%nat;
     DataImport.batch_skipped :=
       (DataImport.batch_skipped a + DataImport.batch_skipped b)%nat;
     DataImport.batch_errors :=
       DataImport.batch_errors a ++ DataImport.batch_errors b |}.

(** A value of [Math.random] that the scraper can use for a number of a game
    with [maxNumber] numbers and for a jackpot. *)
Definition usable (maxNumber : Z) (r : JsNumber.float64) : Prop :=
  notNegative r /\ 1 <= Scraper.randomNumber maxNumber r <= maxNumber.

Definition emptyBatch : DataImport.BatchResult :=
  {| DataImport.batch_imported := 0; DataImport.batch_skipped := 0;
     DataImport.batch_errors := [] |}.

End Facts.

(** * Properties *)

(** ** Sorting *)

Section SortFacts.
Context {A : Type} (cmp : A -> A -> comparison).

Let le (a b : A) : Prop := cmp a b <> Gt.

Lemma insert_perm (x : A) (l : list A) :
  Permutation (JsArray.insert cmp x l) (x :: l).
Proof.
  induction l as [|y l IH]; simpl; [reflexivity|].
  destruct (cmp x y); try reflexivity.
  rewrite IH. apply perm_swap.
Qed.

Lemma sort_perm (l : list A) : Permutation (JsArray.sort cmp l) l.
Proof.
  induction l as [|x l IH]; simpl; [reflexivity|].
  rewrite insert_perm. now constructor.
Qed.

Lemma sort_length (l : list A) : List.length (JsArray.sort cmp l) = List.length l.
Proof. apply Permutation_length, sort_perm. Qed.

(** A list whose neighbours are in order is left alone. *)
Lemma insert_head (x : A) (l : list A) :
  HdRel le x l -> JsArray.insert cmp x l = x :: l.
Proof.
  intros [|y l' Hxy]; simpl; [reflexivity|].
  unfold le in Hxy. destruct (cmp x y); congruence.
Qed.

Lemma sort_fixed (l : list A) : Sorted le l -> JsArray.sort cmp l = l.
Proof.
  induction 1 as [|x l Hs IH Hd]; simpl; [reflexivity|].
  rewrite IH. now apply insert_head.
Qed.

Hypothesis total : forall a b, cmp a b = Gt -> cmp b a <> Gt.

Lemma insert_sorted (x : A) (l : list A) :
  Sorted le l -> Sorted le (JsArray.insert cmp x l).
Proof.
  induction 1 as [|y l Hs IH Hd]; simpl.
  - repeat constructor.
  - destruct (cmp x y) eqn:E.
    + constructor; [now constructor|]. constructor. unfold le. congruence.
    + constructor; [now constructor|]. constructor. unfold le. congruence.
    + constructor; [exact IH|].
      destruct Hd as [|z l' Hyz]; simpl.
      * constructor. now apply total.
      * destruct (cmp x z); constructor; solve [assumption | now apply total].
Qed.

Lemma sort_sorted (l : list A) : Sorted le (JsArray.sort cmp l).
Proof.
  induction l as [|x l IH]; simpl; [constructor|]. now apply insert_sorted.
Qed.

Lemma sort_idempotent (l : list A) :
  JsArray.sort cmp (JsArray.sort cmp l) = JsArray.sort cmp l.
Proof. apply sort_fixed, sort_sorted. Qed.
End SortFacts.

(** ** Strings *)

Lemma trimStart_idempotent (s : string) :
  JsString.trimStart (JsString.trimStart s) = JsString.trimStart s.
Proof.
  induction s as [|c s IH]; simpl; [reflexivity|].
  destruct (JsString.isWhiteSpace c) eqn:E; [exact IH|].
  simpl. now rewrite E.
Qed.

Lemma trimEnd_idempotent (s : string) :
  JsString.trimEnd (JsString.trimEnd s) = JsString.trimEnd s.
Proof.
  induction s as [|c s IH]; simpl; [reflexivity|].
  destruct (JsString.trimEnd s) as [|d t] eqn:E.
  - destruct (JsString.isWhiteSpace c) eqn:W; simpl; [reflexivity|].
    now rewrite W.
  - simpl in *. now rewrite IH.
Qed.

(** Trimming the end keeps a first character that is not white space. *)
Lemma trimEnd_head (c : ascii) (s : string) :
  JsString.isWhiteSpace c = false ->
  exists t, JsString.trimEnd (String c s) = String c t.
Proof.
  intros W. simpl. destruct (JsString.trimEnd s).
  - rewrite W. now exists EmptyString.
  - eexists. reflexivity.
Qed.

Lemma trimStart_head (s : string) :
  JsString.trimStart s = EmptyString \/
  exists c t, JsString.trimStart s = String c t /\ JsString.isWhiteSpace c = false.
Proof.
  induction s as [|c s IH]; simpl; [now left|].
  destruct (JsString.isWhiteSpace c) eqn:E; [exact IH|].
  right. now exists c, s.
Qed.

Lemma trim_idempotent (s : string) :
  JsString.trim (JsString.trim s) = JsString.trim s.
Proof.
  unfold JsString.trim.
  destruct (trimStart_head s) as [E | (c & t & E & W)]; rewrite E.
  - reflexivity.
  - destruct (trimEnd_head c t W) as [u Hu]. rewrite Hu.
    simpl JsString.trimStart. rewrite W. rewrite <- Hu.
    apply trimEnd_idempotent.
Qed.

(** ** The validator and the cleaner *)

Section ValidationFacts.
Import Validation.
Context `{JsHost}.

Lemma ascending_total (a b : Q) : ascending a b = Gt -> ascending b a <> Gt.
Proof.
  unfold ascending. intros Hab Hba.
  apply Qgt_alt in Hab. apply Qgt_alt in Hba.
  exact (Qlt_irrefl a (Qlt_trans _ _ _ Hba Hab)).
Qed.

Lemma sort_ascending_Sorted (l : list Q) :
  Sorted Qle (JsArray.sort ascending l).
Proof.
  pose proof (sort_sorted ascending ascending_total l) as S.
  induction S as [|x l' Hs IH Hd]; constructor; [exact IH|].
  destruct Hd as [|y l'' Hxy]; constructor.
  now apply Qle_alt.
Qed.

(** [new Set(arr).size === arr.length] means that no value occurs twice. *)
Lemma Set_add_length (s : list Q) (x : Q) :
  (List.length (Set_add s x) <= S (List.length s))%nat.
Proof.
  unfold Set_add. destruct (existsb (Qeq_bool x) s); [lia|].
  rewrite length_app. simpl. lia.
Qed.

Lemma new_Set_length_le (l s : list Q) :
  (List.length (fold_left Set_add l s) <= List.length s + List.length l)%nat.
Proof.
  revert s. induction l as [|x l IH]; intros s; simpl; [lia|].
  specialize (IH (Set_add s x)). pose proof (Set_add_length s x). lia.
Qed.

Lemma existsb_Qeq_InA (x : Q) (s : list Q) :
  existsb (Qeq_bool x) s = true <-> InA Qeq x s.
Proof.
  rewrite existsb_exists, InA_alt. split.
  - intros (y & Hy & E). exists y. split; [|exact Hy]. now apply Qeq_bool_iff.
  - intros (y & E & Hy). exists y. split; [exact Hy|]. now apply Qeq_bool_iff.
Qed.

Lemma new_Set_full (l s : list Q) :
  List.length (fold_left Set_add l s) = (List.length s + List.length l)%nat ->
  NoDupA Qeq l /\ forall x, InA Qeq x l -> ~ InA Qeq x s.
Proof.
  revert s. induction l as [|x l IH]; intros s E; simpl in *.
  - split; [constructor|]. intros x Hx. inversion Hx.
  - change (List.length (fold_left Set_add l (Set_add s x)) =
            (List.length s + S (List.length l))%nat) in E.
    unfold Set_add in E at 2. destruct (existsb (Qeq_bool x) s) eqn:Ex.
    + pose proof (new_Set_length_le l s). lia.
    + assert (Hx : ~ InA Qeq x s).
      { rewrite <- existsb_Qeq_InA. congruence. }
      destruct (IH (s ++ [x])) as [ND Hout].
      { rewrite E, length_app. simpl. lia. }
      split.
      * constructor; [|exact ND]. intros Hin.
        apply (Hout x Hin). apply InA_app_iff. right. now constructor.
      * intros y Hy. inversion Hy as [? ? Hyx | ? ? Hyl]; subst.
        -- intros Hs. apply Hx. now rewrite <- Hyx.
        -- intros Hs. apply (Hout y Hyl). apply InA_app_iff. now left.
Qed.

Lemma duplicateErrors_nil (l : list Q) :
  duplicateErrors l = [] -> NoDupA Qeq l.
Proof.
  unfold duplicateErrors, new_Set.
  destruct (Nat.eqb_spec (List.length (fold_left Set_add l [])) (List.length l)) as [E|];
    [|discriminate].
  intros _. now apply (new_Set_full l []).
Qed.

Lemma checkNumbers_nil (max : Z) (l : list Q) (index : nat) :
  checkNumbers (Some max) index l = [] ->
  Forall (fun q => Number_isInteger q = true /\ (1 <= q <= inject_Z max)%Q) l.
Proof.
  revert index. induction l as [|q l IH]; intros index E; [constructor|].
  simpl in E. apply app_eq_nil in E. destruct E as [Eq El].
  constructor; [|now apply (IH (S index))].
  unfold checkNumber, Qltb in Eq.
  destruct (Number_isInteger q); [|discriminate]. simpl in Eq.
  destruct (Qle_bool 1 q) eqn:E1; [|discriminate].
  destruct (Qle_bool q (inject_Z max)) eqn:E2; [|discriminate].
  split; [reflexivity|]. split; now apply Qle_bool_iff.
Qed.

(** What it takes for a record to be valid. *)
Lemma valid_numbers (r : LotteryResultData) :
  isValid (validateLotteryResult r) = true ->
  exists g, Constants.own (gameName r) = Some g /\
    List.length (numbers r) = Constants.numberCount g /\
    Forall (fun q => Number_isInteger q = true /\
                     (1 <= q <= inject_Z (Constants.maxNumber g))%Q) (numbers r) /\
    NoDupA Qeq (numbers r).
Proof.
  unfold validateLotteryResult. simpl. intros V.
  apply Nat.eqb_eq, length_zero_iff_nil in V.
  apply app_eq_nil in V. destruct V as [Vg V].
  apply app_eq_nil in V. destruct V as [_ V].
  apply app_eq_nil in V. destruct V as [V _].
  unfold numbersErrors, Constants.get in V.
  unfold gameNameErrors, Constants.has in Vg.
  destruct (Constants.own (gameName r)) as [g|] eqn:Eg.
  - exists g. split; [reflexivity|].
    apply app_eq_nil in V. destruct V as [Vl V].
    apply app_eq_nil in V. destruct V as [Vn Vd].
    unfold lengthErrors in Vl. simpl in Vl, Vn.
    destruct (Nat.eqb_spec (List.length (numbers r)) (Constants.numberCount g));
      [|discriminate].
    repeat split; [assumption | now apply (checkNumbers_nil _ _ 0%nat)
                  | now apply duplicateErrors_nil].
  - destruct (Constants.inherited (gameName r)).
    + apply app_eq_nil in V. destruct V as [Vl _]. discriminate.
    + destruct (String.eqb (gameName r) ""); discriminate.
Qed.
End ValidationFacts.

Section CleanerClaims.
Import Validation.
Context `{JsHost}.

(** The names of the catalog are left alone by [trim]. *)
Lemma own_trim (k : string) (g : Constants.GameConfig) :
  Constants.own k = Some g -> JsString.trim k = k.
Proof.
  unfold Constants.own, Constants.LOTTERY_GAMES, Constants.assoc.
  repeat match goal with
         | |- context [String.eqb k ?s] =>
             destruct (String.eqb_spec k s); [subst; reflexivity|]
         end.
  discriminate.
Qed.

(** C3. For every candidate record [r] that [validateLotteryResult] reports
    valid, [r.gameName] is the name of a game [g] of the catalog and the
    cleaned record keeps that name and satisfies the four invariants: its
    numbers list has length [g.numberCount], every number lies in
    [1, g.maxNumber], the numbers are pairwise distinct, and they are sorted
    in ascending order. *)
Theorem clean_record_invariants (r : LotteryResultData) :
  isValid (validateLotteryResult r) = true ->
  exists g,
    Constants.own (gameName r) = Some g /\
    Constants.own (gameName (cleanLotteryResult r)) = Some g /\
    List.length (numbers (cleanLotteryResult r)) = Constants.numberCount g /\
    Forall (fun q => (1 <= q <= inject_Z (Constants.maxNumber g))%Q)
           (numbers (cleanLotteryResult r)) /\
    NoDupA Qeq (numbers (cleanLotteryResult r)) /\
    Sorted Qle (numbers (cleanLotteryResult r)).
Proof.
  intros V. destruct (valid_numbers r V) as (g & Eg & El & Er & Ed).
  exists g. simpl.
  pose proof (sort_perm ascending (numbers r)) as P.
  split; [exact Eg|]. split; [now rewrite (own_trim _ _ Eg)|].
  split; [now rewrite sort_length|]. split; [|split].
  - apply (Permutation_Forall (Permutation_sym P)).
    eapply Forall_impl; [|exact Er]. now intros q [_ Hq].
  - eapply (PermutationA_preserves_NoDupA Q_Setoid); [|exact Ed].
    apply (Permutation_PermutationA Q_Setoid). now symmetry.
  - apply sort_ascending_Sorted.
Qed.

(** C4 (amended). Cleaning twice gives the same [gameName], [drawDate] and
    [numbers] as cleaning once, for every record.  The [jackpot] is the same
    exactly when the jackpot of the record cleaned once is undefined, or is
    neither 0 nor NaN and is left unchanged by the rounding; so it is the
    same whenever the record's own jackpot is undefined, 0 or NaN. *)
Theorem clean_twice (r : LotteryResultData) :
  let once := cleanLotteryResult r in
  let twice := cleanLotteryResult once in
  gameName twice = gameName once /\
  drawDate twice = drawDate once /\
  numbers twice = numbers once /\
  (jackpot twice = jackpot once <->
   match jackpot once with
   | None => True
   | Some y => JsNumber.truthy y = true /\ round2 y = y
   end) /\
  (match jackpot r with
   | None => True
   | Some j => JsNumber.truthy j = false
   end -> jackpot twice = jackpot once).
Proof.
  simpl. split; [apply trim_idempotent|]. split; [reflexivity|].
  split; [apply (sort_idempotent ascending ascending_total)|].
  destruct (jackpot r) as [j|]; simpl.
  - destruct (JsNumber.truthy j) eqn:T; simpl.
    + split.
      * destruct (JsNumber.truthy (round2 j)) eqn:T2.
        -- split; [intros E | intros [_ E]]; [split; congruence | congruence].
        -- split; [discriminate | intros [? _]; discriminate].
      * discriminate.
    + split; [tauto | reflexivity].
  - split; [tauto | reflexivity].
Qed.


(** A game name that is no property of [LOTTERY_GAMES], own or inherited,
    is reported, and the numbers are then not looked at. *)
Lemma unknown_game_short_circuits (r : LotteryResultData) :
  gameName r <> ""%string ->
  Constants.has (gameName r) = false ->
  In (InvalidGameName (gameName r) Constants.keys)
     (errors (validateLotteryResult r)) /\
  isValid (validateLotteryResult r) = false /\
  filter Spec.isNumberError (errors (validateLotteryResult r)) = [].
Proof.
  intros Hne Hhas.
  assert (Eg : gameNameErrors r = [InvalidGameName (gameName r) Constants.keys]).
  { unfold gameNameErrors. rewrite Hhas.
    destruct (String.eqb_spec (gameName r) ""); [contradiction | reflexivity]. }
  assert (En : numbersErrors r = []).
  { unfold numbersErrors, Constants.get. unfold Constants.has in Hhas.
    destruct (Constants.own (gameName r)); [discriminate|]. now rewrite Hhas. }
  unfold validateLotteryResult. simpl. rewrite Eg, En. simpl.
  split; [now left|]. split; [reflexivity|].
  rewrite filter_app. unfold drawDateErrors, jackpotErrors.
  destruct (new_Date (drawDate r)); destruct (jackpot r) as [j|];
    try destruct (JsNumber.ltb j (JsNumber.of_Z 0)); reflexivity.
Qed.
End CleanerClaims.

Lemma clean_record_invariants_witness :
  Validation.isValid
    (@Validation.validateLotteryResult Samples.host Samples.draw642_unsorted) = true /\
  exists g,
    Constants.own (Validation.gameName Samples.draw642_unsorted) = Some g /\
    Constants.own (Validation.gameName
      (@Validation.cleanLotteryResult Samples.host Samples.draw642_unsorted)) = Some g /\
    List.length (Validation.numbers
      (@Validation.cleanLotteryResult Samples.host Samples.draw642_unsorted))
      = Constants.numberCount g /\
    Forall (fun q => (1 <= q <= inject_Z (Constants.maxNumber g))%Q)
      (Validation.numbers
         (@Validation.cleanLotteryResult Samples.host Samples.draw642_unsorted)) /\
    NoDupA Qeq (Validation.numbers
      (@Validation.cleanLotteryResult Samples.host Samples.draw642_unsorted)) /\
    Sorted Qle (Validation.numbers
      (@Validation.cleanLotteryResult Samples.host Samples.draw642_unsorted)).
Proof.
  split; [reflexivity|].
  apply (@clean_record_invariants Samples.host Samples.draw642_unsorted).
  reflexivity.
Defined.

Lemma clean_twice_witness :
  let once := @Validation.cleanLotteryResult Samples.host Samples.draw642_unsorted in
  let twice := @Validation.cleanLotteryResult Samples.host once in
  Validation.gameName twice = Validation.gameName once /\
  Validation.drawDate twice = Validation.drawDate once /\
  Validation.numbers twice = Validation.numbers once /\
  Validation.jackpot twice = Validation.jackpot once.
Proof.
  destruct (@clean_twice Samples.host Samples.draw642_unsorted)
    as (En & Ed & Es & _ & Ej).
  split; [exact En|]. split; [exact Ed|]. split; [exact Es | exact (Ej I)].
Defined.


(** C4 (as stated) fails: a jackpot of 0.004 is rounded to 0 by the first
    cleaning and dropped by the second. *)
Lemma clean_not_idempotent :
  @Validation.cleanLotteryResult Samples.host
    (@Validation.cleanLotteryResult Samples.host Samples.tinyJackpot)
  <> @Validation.cleanLotteryResult Samples.host Samples.tinyJackpot.
Proof.
  intros E. apply (f_equal Validation.jackpot) in E. vm_compute in E. discriminate.
Qed.


Example validation_scenario_A :
  Validation.errors (@Validation.validateLotteryResult Samples.host Samples.tooFew)
  = [Validation.ExpectedNumbers (Some 6%nat) 5].
Proof. reflexivity. Qed.

Example validation_scenario_B :
  Validation.errors (@Validation.validateLotteryResult Samples.host Samples.outOfRange)
  = [Validation.OutOfRange (inject_Z 50) 4 (Some 45)].
Proof. reflexivity. Qed.

(** C9 fails on the code for a game name that [LOTTERY_GAMES] inherits from
    [Object.prototype]: "toString" is not a game, yet no unknown-game error
    is reported, and the count and range checks run against an undefined
    [numberCount] and [maxNumber]. *)
Theorem inherited_name_passes_game_check :
  Constants.own "toString" = None /\
  Validation.errors (@Validation.validateLotteryResult Samples.host Samples.prototypeName)
  = [Validation.ExpectedNumbers None 2; Validation.OutOfRange (inject_Z 0) 0 None] /\
  existsb Spec.isUnknownGame
    (Validation.errors
       (@Validation.validateLotteryResult Samples.host Samples.prototypeName)) = false /\
  filter Spec.isNumberError
    (Validation.errors
       (@Validation.validateLotteryResult Samples.host Samples.prototypeName)) <> [].
Proof. repeat split; try reflexivity. vm_compute. discriminate. Qed.

(** ** The deduplicator *)

Section MapFacts.
Import Validation.
Context {V : Type}.

Lemma Map_has_get (k : string) (m : list (string * V)) :
  Map_has k m = match Map_get k m with Some _ => true | None => false end.
Proof.
  induction m as [|[k' v] m IH]; simpl; [reflexivity|].
  destruct (String.eqb k' k); simpl; [reflexivity | exact IH].
Qed.

Lemma Map_get_set_same (k : string) (v : V) (m : list (string * V)) :
  Map_get k (Map_set k v m) = Some v.
Proof.
  induction m as [|[k' v'] m IH]; simpl.
  - now rewrite String.eqb_refl.
  - destruct (String.eqb k' k) eqn:E; simpl; rewrite E; [reflexivity | exact IH].
Qed.

Lemma Map_get_set_other (k k' : string) (v : V) (m : list (string * V)) :
  k <> k' -> Map_get k' (Map_set k v m) = Map_get k' m.
Proof.
  intros Hk. induction m as [|[k0 v0] m IH]; simpl.
  - destruct (String.eqb_spec k k'); [contradiction | reflexivity].
  - destruct (String.eqb_spec k0 k); simpl.
    + subst k0. destruct (String.eqb_spec k k'); [contradiction | reflexivity].
    + destruct (String.eqb k0 k'); [reflexivity | exact IH].
Qed.

Lemma Map_get_In (k : string) (v : V) (m : list (string * V)) :
  Map_get k m = Some v -> In (k, v) m.
Proof.
  induction m as [|[k' v'] m IH]; simpl; [discriminate|].
  destruct (String.eqb_spec k' k).
  - intros [= ->]. subst. now left.
  - intros E. right. now apply IH.
Qed.

Lemma Map_set_keys (k k0 : string) (v : V) (m : list (string * V)) :
  In k0 (map fst (Map_set k v m)) -> k0 = k \/ In k0 (map fst m).
Proof.
  induction m as [|[k1 v1] m IH]; simpl.
  - intros [<-|[]]. now left.
  - destruct (String.eqb k1 k); simpl; intros [E|Hin]; auto.
    destruct (IH Hin); auto.
Qed.

Lemma Map_set_NoDup (k : string) (v : V) (m : list (string * V)) :
  NoDup (map fst m) -> NoDup (map fst (Map_set k v m)).
Proof.
  induction m as [|[k0 v0] m IH]; simpl; intros ND.
  - repeat constructor. intros [].
  - inversion ND as [|? ? Hout ND']; subst.
    destruct (String.eqb_spec k0 k); simpl; [exact ND|].
    constructor; [|now apply IH].
    intros Hin. destruct (Map_set_keys _ _ _ _ Hin); [congruence | contradiction].
Qed.

Lemma Map_In_get (k : string) (v : V) (m : list (string * V)) :
  NoDup (map fst m) -> In (k, v) m -> Map_get k m = Some v.
Proof.
  induction m as [|[k0 v0] m IH]; simpl; intros ND Hin; [contradiction|].
  inversion ND as [|? ? Hout ND']; subst.
  destruct Hin as [[= -> ->]|Hin].
  - now rewrite String.eqb_refl.
  - destruct (String.eqb_spec k0 k).
    + subst k0. exfalso. apply Hout. now apply (in_map fst _ (k, v)).
    + now apply IH.
Qed.
End MapFacts.

Section DeduplicatorClaims.
Import Validation.
Context `{JsHost}.

(** The records of a list under one key, in the order of the list. *)
Let group (k : string) (l : list LotteryResultData) : list LotteryResultData :=
  filter (fun r => String.eqb (duplicateKey r) k) l.

Let held (k : string) (seen : list (string * list LotteryResultData)) :=
  match Map_get k seen with
  | Some g => g
  | None => []
  end.

Lemma seenStep_get (seen : list (string * list LotteryResultData))
    (r : LotteryResultData) (k : string) :
  Map_get k (seenStep seen r) =
  if String.eqb (duplicateKey r) k then Some (held k seen ++ [r])
  else Map_get k seen.
Proof.
  unfold seenStep, held. rewrite Map_has_get.
  destruct (Map_get (duplicateKey r) seen) as [g|] eqn:E.
  - rewrite E. destruct (String.eqb_spec (duplicateKey r) k) as [<-|Hne].
    + now rewrite Map_get_set_same, E.
    + now apply Map_get_set_other.
  - rewrite Map_get_set_same.
    destruct (String.eqb_spec (duplicateKey r) k) as [<-|Hne].
    + now rewrite Map_get_set_same, E.
    + now rewrite !Map_get_set_other.
Qed.

Lemma seenStep_NoDup (seen : list (string * list LotteryResultData))
    (r : LotteryResultData) :
  NoDup (map fst seen) -> NoDup (map fst (seenStep seen r)).
Proof.
  intros ND. unfold seenStep.
  assert (ND1 : NoDup (map fst (if Map_has (duplicateKey r) seen then seen
                                else Map_set (duplicateKey r) [] seen))).
  { destruct (Map_has (duplicateKey r) seen); [exact ND | now apply Map_set_NoDup]. }
  destruct (Map_get _ _); [now apply Map_set_NoDup | exact ND1].
Qed.

Lemma seen_get (l : list LotteryResultData)
    (seen : list (string * list LotteryResultData)) (k : string) :
  Map_get k (fold_left seenStep l seen) =
  match group k l with
  | [] => Map_get k seen
  | g => Some (held k seen ++ g)
  end.
Proof.
  revert seen. induction l as [|r l IH]; intros seen; simpl; [reflexivity|].
  rewrite IH. unfold held at 1. rewrite seenStep_get.
  destruct (String.eqb (duplicateKey r) k); [|reflexivity].
  destruct (group k l); [reflexivity|].
  now rewrite <- app_assoc.
Qed.

Lemma seen_NoDup (l : list LotteryResultData)
    (seen : list (string * list LotteryResultData)) :
  NoDup (map fst seen) -> NoDup (map fst (fold_left seenStep l seen)).
Proof.
  revert seen. induction l as [|r l IH]; intros seen ND; simpl; [exact ND|].
  now apply IH, seenStep_NoDup.
Qed.

(** The groups reported are the classes of the key that have two members
    or more. *)
Lemma detectDuplicates_spec (results g : list LotteryResultData) :
  In g (detectDuplicates results) <->
  (2 <= List.length g)%nat /\ exists k, g = group k results.
Proof.
  unfold detectDuplicates. rewrite filter_In, in_map_iff, Nat.ltb_lt.
  split.
  - intros [([k g'] & E & Hin) Hlen]. simpl in E. subst g'.
    split; [lia|]. exists k.
    apply Map_In_get in Hin; [|apply seen_NoDup; constructor].
    rewrite seen_get in Hin. simpl in Hin.
    destruct (group k results); [discriminate | congruence].
  - intros [Hlen [k ->]]. split; [|lia].
    exists (k, group k results). split; [reflexivity|].
    apply Map_get_In. rewrite seen_get. simpl.
    destruct (group k results); [simpl in Hlen; lia | reflexivity].
Qed.



End DeduplicatorClaims.


Example duplicates_scenario_D :
  @Validation.detectDuplicates Samples.host
    [Samples.draw642; Samples.draw645; Samples.draw642_again]
  = [[Samples.draw642; Samples.draw642_again]].
Proof. reflexivity. Qed.

(** ** The batch importer: accounting *)

Section ImporterFacts.
Import Validation DataImport.
Context `{JsHost} {Db : Type} `{Prisma Db}.

Lemma validateStep_lengths
    (st : list LotteryResultData * list (LotteryResultData * ValidationResult) * nat)
    (l : list LotteryResultData) :
  (List.length (snd (fst (fold_left validateStep l st))) +
   List.length (fst (fst (fold_left validateStep l st))) =
   List.length (snd (fst st)) + List.length (fst (fst st)) + List.length l)%nat.
Proof.
  revert st. induction l as [|r l IH]; intros [[vs ivs] w];
    cbn [fold_left fst snd List.length]; [lia|].
  rewrite IH. unfold validateStep.
  destruct (isValid (validateLotteryResult r)); cbn [fst snd];
    rewrite length_app; cbn [List.length]; lia.
Qed.

Lemma validateLotteryResults_lengths (results : list LotteryResultData) :
  (List.length (invalidResults (validateLotteryResults results)) +
   List.length (validResults (validateLotteryResults results)) =
   List.length results)%nat.
Proof.
  unfold validateLotteryResults.
  pose proof (validateStep_lengths ([], [], 0%nat) results) as L.
  destruct (fold_left validateStep results ([], [], 0%nat)) as [[vs ivs] w].
  simpl in *. lia.
Qed.

(** Every turn of the loop of [processBatch] adds one to exactly one of
    [imported], [skipped] and the number of errors, and the error it adds
    is about that record. *)
Lemma processOne_accounts (options : ImportOptions) (acc : BatchResult)
    (result : LotteryResultData) (db : Db) :
  exists ex,
    batch_errors (fst (processOne options acc result db)) = batch_errors acc ++ ex /\
    forallb Spec.isRecordError ex = true /\
    (batch_imported (fst (processOne options acc result db)) +
     batch_skipped (fst (processOne options acc result db)) + List.length ex =
     batch_imported acc + batch_skipped acc + 1)%nat.
Proof.
  unfold processOne.
  destruct (importOne options result db) as [[message|[| |]] db']; simpl.
  - eexists. split; [reflexivity|]. split; [reflexivity | simpl; lia].
  - eexists. split; [reflexivity|]. split; [reflexivity | simpl; lia].
  - exists []. rewrite app_nil_r. split; [reflexivity|]. split; [reflexivity | simpl; lia].
  - exists []. rewrite app_nil_r. split; [reflexivity|]. split; [reflexivity | simpl; lia].
Qed.

Lemma processRecords_accounts (options : ImportOptions)
    (batch : list LotteryResultData) (acc : BatchResult) (db : Db) :
  exists ex,
    batch_errors (fst (processRecords options acc batch db)) = batch_errors acc ++ ex /\
    forallb Spec.isRecordError ex = true /\
    (batch_imported (fst (processRecords options acc batch db)) +
     batch_skipped (fst (processRecords options acc batch db)) + List.length ex =
     batch_imported acc + batch_skipped acc + List.length batch)%nat.
Proof.
  revert acc db. induction batch as [|r batch IH]; intros acc db; simpl.
  - exists []. rewrite app_nil_r. split; [reflexivity|]. split; [reflexivity | simpl; lia].
  - destruct (processOne_accounts options acc r db) as (ex1 & E1 & R1 & C1).
    destruct (processOne options acc r db) as [acc' db']. simpl in *.
    destruct (IH acc' db') as (ex2 & E2 & R2 & C2).
    exists (ex1 ++ ex2). rewrite E2, E1, <- app_assoc. split; [reflexivity|].
    rewrite forallb_app, R1, R2, length_app. split; [reflexivity | lia].
Qed.

(** The loop over the chunks ends when [batchSize] is positive, and has
    then accounted for every record from index [i] on. *)
Lemma batchLoop_accounts (opts : ImportOptions)
    (validResults : list LotteryResultData) (fuel : nat) :
  (0 < batchSize opts)%nat ->
  forall (i imported skipped : nat) (errors : list ImportError) (db : Db),
    (List.length validResults - i < fuel)%nat ->
    exists imported' skipped' ex db',
      batchLoop fuel opts validResults i (imported, skipped, errors) db
      = Some (imported', skipped', errors ++ ex, db') /\
      forallb Spec.isRecordError ex = true /\
      (imported' + skipped' + List.length ex =
       imported + skipped + (List.length validResults - i))%nat.
Proof.
  intros Hbs. induction fuel as [|fuel IH]; intros i imported skipped errors db Hfuel;
    [lia|].
  simpl. destruct (Nat.ltb_spec i (List.length validResults)) as [Hi|Hi].
  - unfold processBatch.
    set (batch := firstn (batchSize opts) (skipn i validResults)).
    destruct (processRecords_accounts opts batch
                {| batch_imported := 0; batch_skipped := 0; batch_errors := [] |} db)
      as (ex1 & E1 & R1 & C1).
    destruct (processRecords opts _ batch db) as [br db1]. simpl in E1, C1.
    assert (Lb : List.length batch
                 = Nat.min (batchSize opts) (List.length validResults - i))
      by (unfold batch; now rewrite length_firstn, length_skipn).
    destruct (IH (i + batchSize opts)%nat
                 (imported + batch_imported br)%nat
                 (skipped + batch_skipped br)%nat
                 (errors ++ batch_errors br) db1) as (im & sk & ex2 & db2 & E2 & R2 & C2);
      [lia|].
    exists im, sk, (ex1 ++ ex2), db2. rewrite E2, E1, <- app_assoc.
    split; [reflexivity|]. rewrite forallb_app, R1, R2, length_app.
    split; [reflexivity | lia].
  - exists imported, skipped, [], db. rewrite app_nil_r.
    split; [reflexivity|]. split; [reflexivity | simpl; lia].
Qed.

(** What a run of the importer returns. *)
Lemma import_run (fuel : nat) (results : list LotteryResultData)
    (options : PartialImportOptions) (db : Db) :
  (0 < batchSize (mergeOptions options))%nat ->
  (List.length results < fuel)%nat ->
  exists r db' n ex,
    importLotteryResults fuel results options db = Some (r, db') /\
    success r = (List.length (errors r) =? 0)%nat /\
    errors r = (if (0 <? n)%nat then [InvalidResultsFound n] else []) ++ ex /\
    forallb Spec.isRecordError ex = true /\
    n = invalid (details r) /\
    total (details r) = List.length results /\
    (valid (details r) + invalid (details r) = total (details r))%nat /\
    (imported r + skipped r + List.length ex = valid (details r))%nat.
Proof.
  intros Hbs Hfuel. unfold importLotteryResults.
  pose proof (validateLotteryResults_lengths results) as L.
  set (opts := mergeOptions options) in *.
  set (validation := validateLotteryResults results) in *.
  set (valids := if validateData opts then validResults validation else results).
  set (errors0 := if validateData opts
                  then if (0 <? List.length (invalidResults validation))%nat
                       then [InvalidResultsFound (List.length (invalidResults validation))]
                       else []
                  else []).
  assert (Lv : (List.length valids <= List.length results)%nat)
    by (unfold valids; destruct (validateData opts); lia).
  destruct (batchLoop_accounts opts valids fuel Hbs 0%nat 0%nat 0%nat errors0 db)
    as (im & sk & ex & db' & E & R & C); [lia|].
  rewrite E.
  exists {| success := (List.length (errors0 ++ ex) =? 0)%nat;
            imported := im; skipped := sk; errors := errors0 ++ ex;
            details := {| total := List.length results;
                          valid := List.length valids;
                          invalid := (List.length results - List.length valids)%nat;
                          duplicates := sk |} |},
         db', (List.length results - List.length valids)%nat, ex.
  simpl. repeat split; try reflexivity; try assumption; try lia.
  f_equal. unfold errors0, valids. destruct (validateData opts).
  - replace (List.length results - List.length (validResults validation))%nat
      with (List.length (invalidResults validation)) by lia.
    reflexivity.
  - now rewrite Nat.sub_diag.
Qed.

Lemma recordErrors_all (ex : list ImportError) :
  forallb Spec.isRecordError ex = true -> Spec.recordErrors ex = List.length ex.
Proof.
  unfold Spec.recordErrors. induction ex as [|e ex IH]; simpl; [reflexivity|].
  intros E. apply andb_prop in E. destruct E as [-> E]. simpl. now rewrite IH.
Qed.

(** C1 (amended). A run of [importLotteryResults], with the default options
    or any others whose [batchSize] is positive, returns a result in which
    every candidate is counted exactly once: as imported, as skipped, as
    invalid, or by the reference or persistence error recorded for it; so
    [imported + skipped + details.invalid == details.total] holds exactly
    when no record met such an error. *)
Theorem import_accounting (fuel : nat) (results : list LotteryResultData)
    (options : PartialImportOptions) (db : Db) :
  (0 < batchSize (mergeOptions options))%nat ->
  (List.length results < fuel)%nat ->
  exists r db',
    importLotteryResults fuel results options db = Some (r, db') /\
    total (details r) = List.length results /\
    (imported r + skipped r + invalid (details r) + Spec.recordErrors (errors r)
     = total (details r))%nat /\
    ((imported r + skipped r + invalid (details r) = total (details r))%nat
     <-> Spec.recordErrors (errors r) = 0%nat).
Proof.
  intros Hbs Hfuel.
  destruct (import_run fuel results options db Hbs Hfuel)
    as (r & db' & n & ex & E & _ & Eerr & R & _ & T & VI & C).
  exists r, db'. split; [exact E|]. split; [exact T|].
  assert (RE : Spec.recordErrors (errors r) = List.length ex).
  { rewrite Eerr. unfold Spec.recordErrors. rewrite filter_app, length_app.
    fold (Spec.recordErrors ex). rewrite (recordErrors_all ex R).
    destruct (0 <? n)%nat; reflexivity. }
  rewrite RE. split; lia.
Qed.

(** C2 (amended). A run of [importLotteryResults] that returns has
    [success = true] exactly when its [errors] list is empty, that is,
    exactly when no candidate was invalid and no record met a reference or
    persistence error: skipped duplicates leave the run successful, while a
    validation failure adds the summary line to [errors] and makes it
    unsuccessful. *)
Theorem import_success (fuel : nat) (results : list LotteryResultData)
    (options : PartialImportOptions) (db : Db) :
  (0 < batchSize (mergeOptions options))%nat ->
  (List.length results < fuel)%nat ->
  exists r db',
    importLotteryResults fuel results options db = Some (r, db') /\
    (success r = true <-> errors r = []) /\
    (success r = true <->
     invalid (details r) = 0%nat /\ Spec.recordErrors (errors r) = 0%nat) /\
    (success r = true <->
     (imported r + skipped r = total (details r))%nat).
Proof.
  intros Hbs Hfuel.
  destruct (import_run fuel results options db Hbs Hfuel)
    as (r & db' & n & ex & E & S & Eerr & R & En & T & VI & C).
  exists r, db'. split; [exact E|].
  assert (RE : Spec.recordErrors (errors r) = List.length ex).
  { rewrite Eerr. unfold Spec.recordErrors. rewrite filter_app, length_app.
    fold (Spec.recordErrors ex). rewrite (recordErrors_all ex R).
    destruct (0 <? n)%nat; reflexivity. }
  assert (S1 : success r = true <-> errors r = []).
  { rewrite S, Nat.eqb_eq. apply length_zero_iff_nil. }
  assert (S2 : errors r = [] <-> n = 0%nat /\ List.length ex = 0%nat).
  { rewrite Eerr. destruct (Nat.ltb_spec 0 n); simpl.
    - split; [discriminate | lia].
    - rewrite length_zero_iff_nil. split; [intros ->; split; [lia | reflexivity] | tauto]. }
  split; [exact S1|]. rewrite S1, S2, RE, <- En. split; [tauto | lia].
Qed.
End ImporterFacts.

Lemma import_accounting_witness :
  exists r db',
    @DataImport.importLotteryResults Samples.host _ MemoryStore.prisma 6
      [Samples.draw642; Samples.tooFew; Samples.draw642_again; Samples.draw645;
       Samples.prototypeName]
      DataImport.no_options MemoryStore.seeded = Some (r, db') /\
    DataImport.total (DataImport.details r) = 5%nat /\
    (DataImport.imported r + DataImport.skipped r +
     DataImport.invalid (DataImport.details r) +
     Spec.recordErrors (DataImport.errors r)
     = DataImport.total (DataImport.details r))%nat /\
    ((DataImport.imported r + DataImport.skipped r +
      DataImport.invalid (DataImport.details r)
      = DataImport.total (DataImport.details r))%nat
     <-> Spec.recordErrors (DataImport.errors r) = 0%nat).
Proof.
  apply (@import_accounting Samples.host _ MemoryStore.prisma 6
           [Samples.draw642; Samples.tooFew; Samples.draw642_again; Samples.draw645;
            Samples.prototypeName]
           DataImport.no_options MemoryStore.seeded); simpl; lia.
Defined.

Lemma import_success_witness :
  exists r db',
    @DataImport.importLotteryResults Samples.host _ MemoryStore.prisma 3
      [Samples.draw642; Samples.draw642_again]
      DataImport.no_options MemoryStore.seeded = Some (r, db') /\
    (DataImport.success r = true <-> DataImport.errors r = []) /\
    (DataImport.success r = true <->
     DataImport.invalid (DataImport.details r) = 0%nat /\
     Spec.recordErrors (DataImport.errors r) = 0%nat) /\
    (DataImport.success r = true <->
     (DataImport.imported r + DataImport.skipped r
      = DataImport.total (DataImport.details r))%nat).
Proof.
  apply (@import_success Samples.host _ MemoryStore.prisma 3
           [Samples.draw642; Samples.draw642_again]
           DataImport.no_options MemoryStore.seeded); simpl; lia.
Defined.

(** C1 (as stated) fails: a valid record whose game the store does not hold
    is neither imported, nor skipped, nor invalid. *)
Lemma import_count_gap :
  exists r db',
    @DataImport.importLotteryResults Samples.host _ MemoryStore.prisma 2
      [Samples.draw642] DataImport.no_options MemoryStore.empty = Some (r, db') /\
    DataImport.errors r = [DataImport.GameNotFound "6/42"] /\
    (DataImport.imported r + DataImport.skipped r +
     DataImport.invalid (DataImport.details r))%nat
    <> DataImport.total (DataImport.details r).
Proof.
  eexists. eexists. split; [vm_compute; reflexivity|].
  split; [reflexivity | simpl; discriminate].
Qed.

(** C2 (as stated) fails: a run whose only rejection is a validation failure,
    with no reference and no persistence error, is unsuccessful. *)
Lemma invalid_record_fails_run :
  exists r db',
    @DataImport.importLotteryResults Samples.host _ MemoryStore.prisma 2
      [Samples.tooFew] DataImport.no_options MemoryStore.seeded = Some (r, db') /\
    DataImport.errors r = [DataImport.InvalidResultsFound 1] /\
    Spec.recordErrors (DataImport.errors r) = 0%nat /\
    DataImport.success r = false.
Proof.
  eexists. eexists. split; [vm_compute; reflexivity|].
  repeat split; reflexivity.
Qed.

(** The seven candidates of the demonstration script: five valid draws, one for
    each game, and the two invalid ones. *)
Example import_scenario_C :
  option_map fst
    (@DataImport.importLotteryResults Samples.host _ MemoryStore.prisma 8
       [Samples.draw642; Samples.draw645; Samples.draw649; Samples.draw655;
        Samples.draw658; Samples.tooFew; Samples.outOfRange]
       DataImport.no_options MemoryStore.seeded)
  = Some {| DataImport.success := false; DataImport.imported := 5;
            DataImport.skipped := 0;
            DataImport.errors := [DataImport.InvalidResultsFound 2];
            DataImport.details :=
              {| DataImport.total := 7; DataImport.valid := 5;
                 DataImport.invalid := 2; DataImport.duplicates := 0 |} |}.
Proof. vm_compute. reflexivity. Qed.

Example import_skips_duplicate :
  option_map fst
    (@DataImport.importLotteryResults Samples.host _ MemoryStore.prisma 3
       [Samples.draw642; Samples.draw642_again]
       DataImport.no_options MemoryStore.seeded)
  = Some {| DataImport.success := true; DataImport.imported := 1;
            DataImport.skipped := 1; DataImport.errors := [];
            DataImport.details :=
              {| DataImport.total := 2; DataImport.valid := 2;
                 DataImport.invalid := 0; DataImport.duplicates := 1 |} |}.
Proof. vm_compute. reflexivity. Qed.

(** ** Pattern analysis: consecutive numbers *)

Section ConsecutiveFacts.
Import DataManager.

(** The body of the [for] loop over a list [l]. *)
Let body (l : list Z) (count i : nat) : nat :=
  match nth_error l (i + 1), nth_error l i with
  | Some b, Some a => if b =? a + 1 then S count else count
  | _, _ => count
  end.




End ConsecutiveFacts.

(** Every game of the catalog draws six numbers, so a sorted draw has five
    pairs of neighbours. *)
Remark catalog_pairs_per_draw :
  Forall (fun g => (Constants.numberCount (snd g) - 1 = 5)%nat) Constants.LOTTERY_GAMES.
Proof. repeat constructor. Qed.


(** ** The frequency table *)

Section ObjectFacts.
Import DataManager.

Lemma Object_get_replace (k k' : Z) (v : nat) (o : list (Z * nat)) :
  Object_get k (Object_replace k' v o) =
  if k' =? k
  then match Object_get k o with Some _ => Some v | None => None end
  else Object_get k o.
Proof.
  induction o as [|[k0 v0] o IH]; simpl.
  - now destruct (k' =? k).
  - destruct (Z.eqb_spec k0 k'); simpl.
    + subst k0. destruct (Z.eqb_spec k' k); reflexivity.
    + destruct (Z.eqb_spec k0 k); [|exact IH].
      subst k0. destruct (Z.eqb_spec k' k); [congruence | reflexivity].
Qed.

Lemma Object_replace_keys (k : Z) (v : nat) (o : list (Z * nat)) :
  map fst (Object_replace k v o) = map fst o.
Proof.
  induction o as [|[k0 v0] o IH]; simpl; [reflexivity|].
  destruct (k0 =? k); simpl; [reflexivity | now rewrite IH].
Qed.

Lemma Object_get_addIndex (k k' : Z) (v : nat) (o : list (Z * nat)) :
  Object_get k' o = None ->
  Object_get k (Object_addIndex k' v o) =
  if k' =? k then Some v else Object_get k o.
Proof.
  induction o as [|[k0 v0] o IH]; simpl; intros N; [reflexivity|].
  destruct (Z.eqb_spec k0 k'); [discriminate|].
  destruct (isArrayIndex k0 && (k0 <? k')); simpl; [|reflexivity].
  rewrite (IH N).
  destruct (Z.eqb_spec k0 k); [|reflexivity].
  subst k0. destruct (Z.eqb_spec k' k); [congruence | reflexivity].
Qed.

Lemma Object_get_append (k k' : Z) (v : nat) (o : list (Z * nat)) :
  Object_get k' o = None ->
  Object_get k (o ++ [(k', v)]) = if k' =? k then Some v else Object_get k o.
Proof.
  induction o as [|[k0 v0] o IH]; simpl; intros N; [reflexivity|].
  destruct (Z.eqb_spec k0 k'); [discriminate|].
  rewrite (IH N).
  destruct (Z.eqb_spec k0 k); [|reflexivity].
  subst k0. destruct (Z.eqb_spec k' k); [congruence | reflexivity].
Qed.

Lemma Object_get_set (k k' : Z) (v : nat) (o : list (Z * nat)) :
  Object_get k (Object_set k' v o) = if k' =? k then Some v else Object_get k o.
Proof.
  unfold Object_set. destruct (Object_get k' o) eqn:E.
  - rewrite Object_get_replace. destruct (Z.eqb_spec k' k); [|reflexivity].
    subst. now rewrite E.
  - destruct (isArrayIndex k'); [now apply Object_get_addIndex
                                | now apply Object_get_append].
Qed.

Lemma Object_addIndex_perm (k : Z) (v : nat) (o : list (Z * nat)) :
  Permutation (map fst (Object_addIndex k v o)) (k :: map fst o).
Proof.
  induction o as [|[k0 v0] o IH]; simpl; [reflexivity|].
  destruct (isArrayIndex k0 && (k0 <? k)); simpl; [|reflexivity].
  rewrite IH. apply perm_swap.
Qed.

(** The keys after an assignment. *)
Lemma Object_set_keys (k : Z) (v : nat) (o : list (Z * nat)) :
  match Object_get k o with
  | Some _ => map fst (Object_set k v o) = map fst o
  | None => Permutation (map fst (Object_set k v o)) (k :: map fst o)
  end.
Proof.
  unfold Object_set. destruct (Object_get k o).
  - apply Object_replace_keys.
  - destruct (isArrayIndex k); [apply Object_addIndex_perm|].
    rewrite map_app. simpl. symmetry. apply Permutation_cons_append.
Qed.

Lemma Object_get_None (k : Z) (o : list (Z * nat)) :
  Object_get k o = None <-> ~ In k (map fst o).
Proof.
  induction o as [|[k0 v0] o IH]; simpl; [tauto|].
  destruct (Z.eqb_spec k0 k).
  - split; [discriminate | intros N; exfalso; auto].
  - rewrite IH. tauto.
Qed.

Lemma Object_set_NoDup (k : Z) (v : nat) (o : list (Z * nat)) :
  NoDup (map fst o) -> NoDup (map fst (Object_set k v o)).
Proof.
  intros ND. pose proof (Object_set_keys k v o) as K.
  destruct (Object_get k o) eqn:E.
  - now rewrite K.
  - apply (Permutation_NoDup (Permutation_sym K)).
    constructor; [now apply Object_get_None | exact ND].
Qed.




(** *** Counting *)

Let held (k : Z) (o : list (Z * nat)) : nat :=
  match Object_get k o with
  | Some v => v
  | None => 0%nat
  end.

Lemma countNumber_get (k n : Z) (o : list (Z * nat)) :
  Object_get k (countNumber o n) =
  if n =? k then Some (held k o + 1)%nat else Object_get k o.
Proof.
  unfold countNumber. rewrite Object_get_set. unfold held.
  destruct (Z.eqb_spec n k); [now subst | reflexivity].
Qed.

Lemma count_get (ns : list Z) (o : list (Z * nat)) (k : Z) :
  Object_get k (fold_left countNumber ns o) =
  match count_occ Z.eq_dec ns k with
  | O => Object_get k o
  | c => Some (held k o + c)%nat
  end.
Proof.
  revert o. induction ns as [|n ns IH]; intros o; simpl; [reflexivity|].
  rewrite IH. unfold held at 1. rewrite countNumber_get.
  destruct (Z.eq_dec n k) as [->|Hne].
  - rewrite Z.eqb_refl. destruct (count_occ Z.eq_dec ns k); f_equal; lia.
  - destruct (Z.eqb_spec n k); [contradiction | reflexivity].
Qed.

Lemma count_NoDup (ns : list Z) (o : list (Z * nat)) :
  NoDup (map fst o) -> NoDup (map fst (fold_left countNumber ns o)).
Proof.
  revert o. induction ns as [|n ns IH]; intros o ND; simpl; [exact ND|].
  apply IH. now apply Object_set_NoDup.
Qed.


Lemma numberFrequencyOf_drawn (results : list LotteryResult) (o : list (Z * nat)) :
  fold_left countResult results o = fold_left countNumber (Spec.drawn results) o.
Proof.
  unfold Spec.drawn. revert o.
  induction results as [|r results IH]; intros o; simpl; [reflexivity|].
  now rewrite fold_left_app, IH.
Qed.

End ObjectFacts.

(** ** Hot and cold numbers *)

Section RankingFacts.
Import DataManager.













End RankingFacts.



Example scenario_E_statistics :
  let s := DataManager.calculateGameStatistics
             (Samples.game [Samples.row [1; 2; 3; 4; 5; 6];
                            Samples.row [2; 4; 6; 8; 10; 12]]) in
  DataManager.hotNumbers s = [2; 4; 6; 1; 3; 5; 8; 10; 12] /\
  DataManager.coldNumbers s = [12; 10; 8; 5; 3; 1; 6; 4; 2].
Proof. split; reflexivity. Qed.

(** * Further properties *)

(** ** More on the validator and the cleaner *)

Section ValidatorMore.
Import Validation.
Context `{JsHost}.

Lemma validateStep_fold (l : list LotteryResultData)
    (vs : list LotteryResultData)
    (ivs : list (LotteryResultData * ValidationResult)) (w : nat) :
  fold_left validateStep l (vs, ivs, w) =
  (vs ++ map cleanLotteryResult
           (filter (fun r => isValid (validateLotteryResult r)) l),
   ivs ++ map (fun r => (r, validateLotteryResult r))
            (filter (fun r => negb (isValid (validateLotteryResult r))) l),
   (w + list_sum (map (fun r => List.length (warnings (validateLotteryResult r)))
                      (filter (fun r => isValid (validateLotteryResult r)) l)))%nat).
Proof.
  revert vs ivs w. induction l as [|r l IH]; intros vs ivs w; cbn [fold_left filter].
  - cbn [map list_sum]. now rewrite !app_nil_r, Nat.add_0_r.
  - unfold validateStep at 2.
    destruct (isValid (validateLotteryResult r)) eqn:V; cbn [negb]; rewrite IH.
    + cbn [map]. rewrite <- app_assoc. cbn [app].
      f_equal. unfold list_sum. cbn [fold_right]. lia.
    + cbn [map]. rewrite <- app_assoc. reflexivity.
Qed.

(** X1. The batch validator splits its input, in order, into the cleaned valid
    records and the invalid ones with their outcomes; its summary counts them
    and [total = valid + invalid]. *)
Theorem validateLotteryResults_partition (results : list LotteryResultData) :
  let v := validateLotteryResults results in
  validResults v
  = map cleanLotteryResult
        (filter (fun r => isValid (validateLotteryResult r)) results) /\
  invalidResults v
  = map (fun r => (r, validateLotteryResult r))
        (filter (fun r => negb (isValid (validateLotteryResult r))) results) /\
  total (summary v) = List.length results /\
  valid (summary v) = List.length (validResults v) /\
  invalid (summary v) = List.length (invalidResults v) /\
  (valid (summary v) + invalid (summary v) = total (summary v))%nat /\
  warningCount (summary v)
  = list_sum (map (fun r => List.length (warnings (validateLotteryResult r)))
                  (filter (fun r => isValid (validateLotteryResult r)) results)).
Proof.
  unfold validateLotteryResults. rewrite validateStep_fold. cbn [app Nat.add].
  cbn [validResults invalidResults summary total valid invalid warningCount].
  repeat split; try reflexivity.
  rewrite !length_map.
  induction results as [|r results IH]; cbn [filter List.length]; [reflexivity|].
  destruct (isValid (validateLotteryResult r)); cbn [negb List.length]; lia.
Qed.

(** *** When a record is valid *)

Lemma checkNumbers_ok (max : Z) (l : list Q) (index : nat) :
  Forall (fun q => Number_isInteger q = true /\ (1 <= q <= inject_Z max)%Q) l ->
  checkNumbers (Some max) index l = [].
Proof.
  intros F. revert index. induction F as [|q l [Hi [H1 H2]] F IH]; intros index;
    [reflexivity|].
  cbn [checkNumbers]. rewrite IH, app_nil_r.
  unfold checkNumber, Qltb. rewrite Hi.
  apply Qle_bool_iff in H1, H2. now rewrite H1, H2.
Qed.

Lemma new_Set_distinct (l s : list Q) :
  NoDupA Qeq l -> (forall x, InA Qeq x l -> ~ InA Qeq x s) ->
  List.length (fold_left Set_add l s) = (List.length s + List.length l)%nat.
Proof.
  intros ND. revert s. induction ND as [|x l Hx ND IH]; intros s Hout;
    cbn [fold_left List.length]; [lia|].
  assert (E : Set_add s x = s ++ [x]).
  { unfold Set_add. destruct (existsb (Qeq_bool x) s) eqn:Ex; [|reflexivity].
    apply existsb_Qeq_InA in Ex. exfalso. apply (Hout x); [now left | exact Ex]. }
  rewrite E, IH.
  - rewrite length_app. cbn [List.length]. lia.
  - intros y Hy Hin. apply InA_app_iff in Hin. destruct Hin as [Hin|Hin].
    + apply (Hout y); [now right | exact Hin].
    + inversion Hin as [? ? Eyx | ? ? Hnil]; subst; [|inversion Hnil].
      apply Hx. now rewrite <- Eyx.
Qed.

Lemma duplicateErrors_ok (l : list Q) : NoDupA Qeq l -> duplicateErrors l = [].
Proof.
  intros ND. unfold duplicateErrors, new_Set.
  rewrite (new_Set_distinct l [] ND); [now rewrite Nat.eqb_refl|].
  intros x _ Hin. inversion Hin.
Qed.

Lemma own_nonempty (k : string) (g : Constants.GameConfig) :
  Constants.own k = Some g -> String.eqb k "" = false.
Proof. destruct (String.eqb_spec k ""); [subst; discriminate | reflexivity]. Qed.

Lemma valid_date_jackpot (r : LotteryResultData) :
  isValid (validateLotteryResult r) = true ->
  new_Date (drawDate r) <> None /\
  (forall j, jackpot r = Some j -> JsNumber.ltb j (JsNumber.of_Z 0) = false).
Proof.
  intros V. unfold validateLotteryResult in V. cbn [isValid] in V.
  apply Nat.eqb_eq, length_zero_iff_nil in V.
  apply app_eq_nil in V. destruct V as [_ V].
  apply app_eq_nil in V. destruct V as [Vd V].
  apply app_eq_nil in V. destruct V as [_ Vj].
  unfold drawDateErrors in Vd. unfold jackpotErrors in Vj. split.
  - destruct (new_Date (drawDate r)); [discriminate | discriminate].
  - intros j Ej. rewrite Ej in Vj.
    destruct (JsNumber.ltb j (JsNumber.of_Z 0)); [discriminate | reflexivity].
Qed.

Lemma valid_intro (r : LotteryResultData) (g : Constants.GameConfig) :
  Constants.own (gameName r) = Some g ->
  List.length (numbers r) = Constants.numberCount g ->
  Forall (fun q => Number_isInteger q = true /\
                   (1 <= q <= inject_Z (Constants.maxNumber g))%Q) (numbers r) ->
  NoDupA Qeq (numbers r) ->
  new_Date (drawDate r) <> None ->
  (forall j, jackpot r = Some j -> JsNumber.ltb j (JsNumber.of_Z 0) = false) ->
  isValid (validateLotteryResult r) = true.
Proof.
  intros Eg El Er Ed Hd Hj.
  unfold validateLotteryResult. cbn [isValid].
  assert (E1 : gameNameErrors r = []).
  { unfold gameNameErrors, Constants.has. now rewrite (own_nonempty _ _ Eg), Eg. }
  assert (E2 : drawDateErrors r = []).
  { unfold drawDateErrors. destruct (new_Date (drawDate r)); [reflexivity | contradiction]. }
  assert (E3 : numbersErrors r = []).
  { unfold numbersErrors, Constants.get. rewrite Eg.
    cbn [Constants.view_maxNumber]. unfold lengthErrors.
    cbn [Constants.view_numberCount]. rewrite El, Nat.eqb_refl.
    now rewrite (checkNumbers_ok _ _ _ Er), (duplicateErrors_ok _ Ed). }
  assert (E4 : jackpotErrors r = []).
  { unfold jackpotErrors. destruct (jackpot r) as [j|]; [|reflexivity].
    now rewrite (Hj j eq_refl). }
  now rewrite E1, E2, E3, E4.
Qed.

(** X2. A record is valid exactly when its game is in the catalog, its date is a
    date, its numbers are as many as the game draws, integers in the game's
    range and pairwise distinct, and its jackpot, if any, is not below 0. *)
Theorem valid_iff (r : LotteryResultData) :
  isValid (validateLotteryResult r) = true <->
  (exists g, Constants.own (gameName r) = Some g /\
     List.length (numbers r) = Constants.numberCount g /\
     Forall (fun q => Number_isInteger q = true /\
                      (1 <= q <= inject_Z (Constants.maxNumber g))%Q) (numbers r) /\
     NoDupA Qeq (numbers r)) /\
  new_Date (drawDate r) <> None /\
  (forall j, jackpot r = Some j -> JsNumber.ltb j (JsNumber.of_Z 0) = false).
Proof.
  split.
  - intros V. split; [now apply valid_numbers | now apply valid_date_jackpot].
  - intros [(g & Eg & El & Er & Ed) [Hd Hj]]. now apply (valid_intro r g).
Qed.
End ValidatorMore.

Lemma valid_iff_witness :
  Validation.isValid (@Validation.validateLotteryResult Samples.host Samples.draw642) = true.
Proof.
  apply (proj2 (@valid_iff Samples.host Samples.draw642)).
  split; [|split].
  - exists {| Constants.name := "6/42"; Constants.description := "Lotto 6/42";
              Constants.maxNumber := 42; Constants.numberCount := 6;
              Constants.drawDays := ["Tuesday"; "Thursday"; "Saturday"]%string |}.
    split; [reflexivity|]. split; [reflexivity|]. split.
    + repeat constructor; unfold Qle; simpl; lia.
    + repeat constructor; rewrite ?InA_cons, ?InA_nil; unfold Qeq; simpl; lia.
  - discriminate.
  - intros j [= <-]. reflexivity.
Defined.

(** *** Numbers that are not negative *)

Section FloatSign.
Import JsNumber.

Lemma binary_round_aux_sign (s : bool) (m e : Z) (l : location) :
  match binary_round_aux prec emax s m e l with
  | S754_finite s' _ _ => s' = s
  | S754_infinity s' => s' = s
  | _ => True
  end.
Proof.
  unfold binary_round_aux.
  destruct (shr_fexp prec emax m e l) as [mrs' e'].
  destruct (shr_fexp prec emax _ e' loc_Exact) as [mrs'' e''].
  destruct (shr_m mrs''); [exact I | | exact I].
  destruct (Z.leb e'' (emax - prec)); reflexivity.
Qed.

Lemma binary_round_sign (s : bool) (m : positive) (e : Z) :
  match binary_round prec emax s m e with
  | S754_finite s' _ _ => s' = s
  | S754_infinity s' => s' = s
  | _ => True
  end.
Proof.
  unfold binary_round. destruct (shl_align _ _ _) as [mz ez].
  apply binary_round_aux_sign.
Qed.

Lemma of_Z_notNegative (n : Z) : 0 <= n -> Facts.notNegative (of_Z n).
Proof.
  intros Hn. unfold of_Z, binary_normalize. destruct n as [|p|p]; [exact I | | lia].
  pose proof (binary_round_sign false p 0) as S.
  unfold Facts.notNegative. destruct (binary_round prec emax false p 0); auto.
Qed.

Lemma mul_notNegative (x y : float64) :
  Facts.notNegative x -> Facts.notNegative y -> Facts.notNegative (mul x y).
Proof.
  unfold mul. destruct x as [sx|sx| |sx mx ex], y as [sy|sy| |sy my ey];
    cbn [Facts.notNegative SFmul]; intros Hx Hy; subst; cbn [xorb];
    try reflexivity; try exact I.
  pose proof (binary_round_aux_sign false (Z.pos (mx * my)) (ex + ey) loc_Exact) as S.
  unfold Facts.notNegative.
  destruct (binary_round_aux prec emax false _ _ _); auto.
Qed.

Lemma div_notNegative (x : float64) (my : positive) (ey : Z) :
  Facts.notNegative x -> Facts.notNegative (div x (S754_finite false my ey)).
Proof.
  unfold div. destruct x as [sx|sx| |sx mx ex];
    cbn [Facts.notNegative SFdiv]; intros Hx; subst; cbn [xorb];
    try reflexivity; try exact I.
  destruct (SFdiv_core_binary prec emax (Z.pos mx) ex (Z.pos my) ey) as [[mz ez] lz].
  pose proof (binary_round_aux_sign false mz ez lz) as S.
  unfold Facts.notNegative.
  destruct (binary_round_aux prec emax false _ _ _); auto.
Qed.

Lemma Math_round_notNegative (x : float64) :
  Facts.notNegative x -> Facts.notNegative (Math_round x).
Proof.
  destruct x as [s|s| |s m e]; cbn [Facts.notNegative Math_round]; auto.
  intros ->. destruct e as [|p|k]; [reflexivity | reflexivity |].
  set (n := (2 * Z.pos m + Z.pow_pos 2 k) / (2 * Z.pow_pos 2 k)).
  assert (Hn : 0 <= n).
  { assert (0 < Z.pow_pos 2 k) by (rewrite Z.pow_pos_fold; lia).
    apply Z.div_pos; lia. }
  destruct (n =? 0); [exact I | now apply of_Z_notNegative].
Qed.

Lemma notNegative_ltb (x : float64) :
  Facts.notNegative x -> ltb x (of_Z 0) = false.
Proof. destruct x as [s|s| |s m e]; simpl; intros E; subst; reflexivity. Qed.

Lemma ltb_notNegative (x : float64) :
  ltb x (of_Z 0) = false -> Facts.notNegative x.
Proof. destruct x as [s|[|]| |[|] m e]; simpl; intros E; try discriminate; auto. Qed.
End FloatSign.

Section RevalidationFacts.
Import Validation.
Context `{JsHost}.

Lemma round2_notNegative (j : JsNumber.float64) :
  Facts.notNegative j -> Facts.notNegative (round2 j).
Proof.
  intros Hj. unfold round2.
  change (JsNumber.of_Z 100) with (S754_finite false 7036874417766400 (-46)) at 2.
  apply div_notNegative.
  apply Math_round_notNegative, mul_notNegative; [exact Hj|].
  now apply of_Z_notNegative.
Qed.

Lemma same_json_refl (l : list Q) : same_json l l = true.
Proof. induction l as [|q l IH]; simpl; [reflexivity|]. now rewrite Qeq_bool_refl. Qed.

Lemma clean_jackpot_notNegative (r : LotteryResultData) :
  isValid (validateLotteryResult r) = true ->
  forall j, jackpot (cleanLotteryResult r) = Some j -> Facts.notNegative j.
Proof.
  intros V. destruct (valid_date_jackpot r V) as [_ Hj].
  cbn [cleanLotteryResult jackpot]. intros j.
  destruct (jackpot r) as [j0|]; [|discriminate].
  destruct (JsNumber.truthy j0); [|discriminate].
  intros [= <-]. apply round2_notNegative, ltb_notNegative. now apply Hj.
Qed.

Lemma clean_valid (r : LotteryResultData) :
  isValid (validateLotteryResult r) = true ->
  isValid (validateLotteryResult (cleanLotteryResult r)) = true.
Proof.
  intros V. destruct (valid_numbers r V) as (g & Eg & El & Er & Ed).
  destruct (valid_date_jackpot r V) as [Hd _].
  pose proof (sort_perm ascending (numbers r)) as P.
  apply (valid_intro _ g).
  - cbn [cleanLotteryResult gameName]. now rewrite (own_trim _ _ Eg).
  - cbn [cleanLotteryResult numbers]. now rewrite sort_length.
  - cbn [cleanLotteryResult numbers].
    exact (Permutation_Forall (Permutation_sym P) Er).
  - cbn [cleanLotteryResult numbers].
    eapply (PermutationA_preserves_NoDupA Q_Setoid); [|exact Ed].
    apply (Permutation_PermutationA Q_Setoid). now symmetry.
  - exact Hd.
  - intros j Ej. now apply notNegative_ltb, (clean_jackpot_notNegative r V).
Qed.

Lemma clean_no_order_warning (r : LotteryResultData) :
  ~ In NotAscending (warnings (validateLotteryResult (cleanLotteryResult r))).
Proof.
  unfold validateLotteryResult. cbn [warnings]. intros Hin.
  apply in_app_or in Hin. destruct Hin as [Hin|Hin].
  - unfold drawDateWarnings in Hin.
    destruct (new_Date (drawDate (cleanLotteryResult r))) as [t|]; [|contradiction].
    apply in_app_or in Hin. destruct Hin as [Hin|Hin].
    + destruct (Date_now <? t); [destruct Hin as [Hin|[]]; discriminate | contradiction].
    + destruct (Date_parse "1995-01-01") as [start|]; [|contradiction].
      destruct (t <? start); [destruct Hin as [Hin|[]]; discriminate | contradiction].
  - unfold numbersWarnings in Hin. cbn [cleanLotteryResult gameName numbers] in Hin.
    destruct (Constants.get (JsString.trim (gameName r))); [|contradiction].
    rewrite (sort_idempotent ascending ascending_total), same_json_refl in Hin.
    contradiction.
Qed.

(** X3. The jackpot a validated record carries after cleaning is never negative,
    and the numbers it carries raise no warning: a cleaned valid record is
    valid again, and its numbers are found in ascending order. *)
Theorem clean_record_revalidates (r : LotteryResultData) :
  isValid (validateLotteryResult r) = true ->
  isValid (validateLotteryResult (cleanLotteryResult r)) = true /\
  ~ In NotAscending (warnings (validateLotteryResult (cleanLotteryResult r))) /\
  (forall j, jackpot (cleanLotteryResult r) = Some j -> Facts.notNegative j).
Proof.
  intros V. split; [now apply clean_valid|].
  split; [apply clean_no_order_warning | now apply clean_jackpot_notNegative].
Qed.

(** *** The per-number check *)

Lemma checkNumber_length (max : option Z) (index : nat) (q : Q) :
  List.length (checkNumber max index q)
  = if Facts.offending max q then 1%nat else 0%nat.
Proof.
  unfold checkNumber, Facts.offending.
  destruct (Number_isInteger q); cbn [negb orb]; [|reflexivity].
  destruct (Qltb q 1 || match max with Some m => Qltb (inject_Z m) q | None => false end);
    reflexivity.
Qed.

Lemma checkNumbers_In (max : option Z) (l : list Q) (start : nat) (e : ValidationError) :
  In e (checkNumbers max start l) <->
  exists i q, nth_error l i = Some q /\ Facts.offending max q = true /\
    e = if Number_isInteger q then OutOfRange q (start + i) max
        else NotAnInteger (start + i) q.
Proof.
  revert start. induction l as [|x l IH]; intros start; cbn [checkNumbers].
  - split; [contradiction|]. intros (i & q & Hi & _). destruct i; discriminate.
  - rewrite in_app_iff, IH. split.
    + intros [Hin | (i & q & Hi & Ho & ->)].
      * exists 0%nat, x. split; [reflexivity|].
        unfold checkNumber, Facts.offending in *. rewrite Nat.add_0_r.
        destruct (Number_isInteger x); cbn [negb orb] in *.
        -- destruct (Qltb x 1 || _); [|contradiction].
           destruct Hin as [<-|[]]. now split.
        -- destruct Hin as [<-|[]]. now split.
      * exists (S i), q. split; [exact Hi|]. split; [exact Ho|].
        now rewrite Nat.add_succ_r.
    + intros (i & q & Hi & Ho & ->). destruct i as [|i].
      * left. injection Hi as ->. rewrite Nat.add_0_r.
        unfold checkNumber, Facts.offending in *.
        destruct (Number_isInteger q); cbn [negb orb] in *; [|now left].
        rewrite Ho. now left.
      * right. exists i, q. split; [exact Hi|]. split; [exact Ho|].
        now rewrite Nat.add_succ_r.
Qed.

Lemma checkNumbers_length (max : option Z) (l : list Q) (start : nat) :
  List.length (checkNumbers max start l)
  = List.length (filter (Facts.offending max) l).
Proof.
  revert start. induction l as [|x l IH]; intros start; cbn [checkNumbers filter];
    [reflexivity|].
  rewrite length_app, checkNumber_length, IH.
  destruct (Facts.offending max x); reflexivity.
Qed.

Lemma checkNumbers_perNumber (max : option Z) (l : list Q) (start : nat) :
  filter Facts.isPerNumberError (checkNumbers max start l) = checkNumbers max start l.
Proof.
  revert start. induction l as [|x l IH]; intros start; cbn [checkNumbers];
    [reflexivity|].
  rewrite filter_app, IH. f_equal. unfold checkNumber.
  destruct (negb (Number_isInteger x)); [reflexivity|].
  destruct (Qltb x 1 || _); reflexivity.
Qed.

Lemma perNumber_errors (r : LotteryResultData) (g : Constants.GameConfig) :
  Constants.own (gameName r) = Some g ->
  filter Facts.isPerNumberError (errors (validateLotteryResult r))
  = checkNumbers (Some (Constants.maxNumber g)) 0 (numbers r).
Proof.
  intros Eg. unfold validateLotteryResult. cbn [errors].
  rewrite !filter_app.
  assert (E1 : filter Facts.isPerNumberError (gameNameErrors r) = []).
  { unfold gameNameErrors. destruct (String.eqb (gameName r) ""); [reflexivity|].
    destruct (negb (Constants.has (gameName r))); reflexivity. }
  assert (E2 : filter Facts.isPerNumberError (drawDateErrors r) = []).
  { unfold drawDateErrors. destruct (new_Date (drawDate r)); reflexivity. }
  assert (E4 : filter Facts.isPerNumberError (jackpotErrors r) = []).
  { unfold jackpotErrors. destruct (jackpot r) as [j|]; [|reflexivity].
    destruct (JsNumber.ltb j (JsNumber.of_Z 0)); reflexivity. }
  rewrite E1, E2, E4, app_nil_r. cbn [app].
  unfold numbersErrors, Constants.get. rewrite Eg. cbn [Constants.view_maxNumber].
  rewrite !filter_app, checkNumbers_perNumber.
  assert (E5 : forall cfg, filter Facts.isPerNumberError (lengthErrors cfg (numbers r)) = []).
  { intros cfg. unfold lengthErrors. destruct (Constants.view_numberCount cfg);
      [destruct (_ =? _)%nat|]; reflexivity. }
  assert (E6 : filter Facts.isPerNumberError (duplicateErrors (numbers r)) = []).
  { unfold duplicateErrors. destruct (_ =? _)%nat; reflexivity. }
  now rewrite E5, E6, app_nil_r.
Qed.

Lemma offending_false (m : Z) (q : Q) :
  Facts.offending (Some m) q = false <->
  Number_isInteger q = true /\ (1 <= q <= inject_Z m)%Q.
Proof.
  unfold Facts.offending, Qltb.
  destruct (Number_isInteger q); cbn [negb orb].
  - rewrite orb_false_iff, !negb_false_iff, !Qle_bool_iff. tauto.
  - split; [discriminate | intros [E _]; discriminate].
Qed.

(** X4. Against a game of the catalog, the validator reports exactly one error
    for each element of [numbers] that is not an integer or lies outside
    [1, maxNumber], naming its index and value, and none for the others. *)
Theorem one_error_per_bad_number (r : LotteryResultData) (g : Constants.GameConfig) :
  Constants.own (gameName r) = Some g ->
  let reported := filter Facts.isPerNumberError (errors (validateLotteryResult r)) in
  let max := Constants.maxNumber g in
  List.length reported
  = List.length (filter (Facts.offending (Some max)) (numbers r)) /\
  (forall e, In e reported <->
     exists i q, nth_error (numbers r) i = Some q /\
       Facts.offending (Some max) q = true /\
       e = if Number_isInteger q then OutOfRange q i (Some max)
           else NotAnInteger i q) /\
  (forall q, Facts.offending (Some max) q = false <->
     Number_isInteger q = true /\ (1 <= q <= inject_Z max)%Q).
Proof.
  intros Eg reported max. unfold reported. rewrite (perNumber_errors r g Eg).
  split; [apply checkNumbers_length|]. split; [|apply offending_false].
  intros e. apply (checkNumbers_In (Some max) (numbers r) 0).
Qed.

(** X5. A record without a game name is rejected for that, and its numbers are
    not looked at: the only other errors it can get are about the date and
    the jackpot, and no warning about the order of the numbers is given. *)
Theorem missing_game_name (r : LotteryResultData) :
  gameName r = ""%string ->
  In GameNameRequired (errors (validateLotteryResult r)) /\
  isValid (validateLotteryResult r) = false /\
  Forall (fun e => e = GameNameRequired \/ e = InvalidDrawDateFormat \/
                   e = JackpotMustBePositive)
         (errors (validateLotteryResult r)) /\
  ~ In NotAscending (warnings (validateLotteryResult r)).
Proof.
  intros E. unfold validateLotteryResult. cbn [errors isValid warnings].
  assert (Eg : gameNameErrors r = [GameNameRequired])
    by (unfold gameNameErrors; now rewrite E).
  assert (En : numbersErrors r = [])
    by (unfold numbersErrors; now rewrite E).
  rewrite Eg, En. cbn [app List.length Nat.eqb].
  split; [now left|]. split; [reflexivity|]. split.
  - constructor; [now left|]. apply Forall_app. split.
    + unfold drawDateErrors. destruct (new_Date (drawDate r)); [constructor|].
      constructor; [right; left; reflexivity | constructor].
    + unfold jackpotErrors. destruct (jackpot r) as [j|]; [|constructor].
      destruct (JsNumber.ltb j (JsNumber.of_Z 0)); [|constructor].
      constructor; [right; right; reflexivity | constructor].
  - intros Hin. apply in_app_or in Hin. destruct Hin as [Hin|Hin].
    + unfold drawDateWarnings in Hin.
      destruct (new_Date (drawDate r)) as [t|]; [|contradiction].
      apply in_app_or in Hin. destruct Hin as [Hin|Hin].
      * destruct (Date_now <? t); [destruct Hin as [Hin|[]]; discriminate | contradiction].
      * destruct (Date_parse "1995-01-01") as [start|]; [|contradiction].
        destruct (t <? start); [destruct Hin as [Hin|[]]; discriminate | contradiction].
    + unfold numbersWarnings in Hin. rewrite E in Hin. contradiction.
Qed.
End RevalidationFacts.

(** ** More on the deduplicator *)

Section DeduplicatorMore.
Import Validation.
Context `{JsHost}.

Lemma group_length (k : string) (l : list LotteryResultData) :
  List.length (filter (fun r => String.eqb (duplicateKey r) k) l)
  = count_occ string_dec (map duplicateKey l) k.
Proof.
  induction l as [|r l IH]; cbn [filter map count_occ]; [reflexivity|].
  destruct (String.eqb_spec (duplicateKey r) k) as [E|E];
    destruct (string_dec (duplicateKey r) k) as [E'|E']; try contradiction;
    cbn [List.length]; now rewrite IH.
Qed.

(** X6. [detectDuplicates] reports nothing exactly when no two records of the
    input have the same key. *)
Theorem no_duplicates_iff (results : list LotteryResultData) :
  detectDuplicates results = [] <-> NoDup (map duplicateKey results).
Proof.
  rewrite (NoDup_count_occ string_dec). split.
  - intros E k. rewrite <- group_length.
    destruct (le_lt_dec 2 (List.length
                (filter (fun r => String.eqb (duplicateKey r) k) results))) as [Hl|Hl];
      [|lia].
    exfalso.
    assert (Hin : In (filter (fun r => String.eqb (duplicateKey r) k) results)
                     (detectDuplicates results))
      by (apply detectDuplicates_spec; split; [exact Hl | now exists k]).
    rewrite E in Hin. contradiction.
  - intros C. destruct (detectDuplicates results) as [|g gs] eqn:E; [reflexivity|].
    exfalso.
    assert (Hin : In g (detectDuplicates results)) by (rewrite E; now left).
    apply detectDuplicates_spec in Hin. destruct Hin as [Hl [k ->]].
    rewrite group_length in Hl. specialize (C k). lia.
Qed.

Lemma seen_groups (results : list LotteryResultData) (k : string)
    (g : list LotteryResultData) :
  In (k, g) (fold_left seenStep results []) ->
  g = filter (fun r => String.eqb (duplicateKey r) k) results /\ g <> [].
Proof.
  intros Hin. apply Map_In_get in Hin; [|apply seen_NoDup; constructor].
  rewrite seen_get in Hin. cbn [Map_get] in Hin.
  destruct (filter _ results) eqn:E; [discriminate|].
  injection Hin as <-. split; [reflexivity | discriminate].
Qed.

Lemma groups_NoDup (seen : list (string * list LotteryResultData)) :
  NoDup (map fst seen) ->
  (forall k g, In (k, g) seen ->
     g <> [] /\ Forall (fun r => duplicateKey r = k) g) ->
  NoDup (map snd seen).
Proof.
  induction seen as [|[k g] seen IH]; cbn [map fst snd]; intros ND P; [constructor|].
  inversion ND as [|? ? Hk ND']; subst. constructor.
  - intros Hin. apply in_map_iff in Hin. destruct Hin as ([k' g'] & E & Hin).
    cbn [snd] in E. subst g'.
    destruct (P k g (or_introl eq_refl)) as [Hne Fk].
    destruct (P k' g (or_intror Hin)) as [_ Fk'].
    destruct g as [|r g]; [contradiction|].
    inversion Fk; inversion Fk'; subst.
    apply Hk. apply in_map_iff. exists (duplicateKey r, r :: g). split; [reflexivity|].
    congruence.
  - apply IH; [exact ND'|]. intros k' g' Hin. apply P. now right.
Qed.

(** X7. The reported groups do not overlap and none is listed twice: a record
    lies in at most one group, the one of its key. *)
Theorem groups_disjoint (results : list LotteryResultData) :
  NoDup (detectDuplicates results) /\
  (forall g1 g2 r, In g1 (detectDuplicates results) ->
     In g2 (detectDuplicates results) -> In r g1 -> In r g2 -> g1 = g2) /\
  (forall g r, In g (detectDuplicates results) -> In r g ->
     g = filter (fun r' => String.eqb (duplicateKey r') (duplicateKey r)) results).
Proof.
  assert (K : forall g r, In g (detectDuplicates results) -> In r g ->
     g = filter (fun r' => String.eqb (duplicateKey r') (duplicateKey r)) results).
  { intros g r Hg Hr. apply detectDuplicates_spec in Hg. destruct Hg as [_ [k ->]].
    apply filter_In in Hr. destruct Hr as [_ Hr]. apply String.eqb_eq in Hr.
    now rewrite Hr. }
  split; [|split; [|exact K]].
  - unfold detectDuplicates. apply NoDup_filter. apply groups_NoDup.
    + apply seen_NoDup. constructor.
    + intros k g Hin. destruct (seen_groups results k g Hin) as [-> Hne].
      split; [exact Hne|]. apply Forall_forall. intros r Hr.
      apply filter_In in Hr. now apply String.eqb_eq.
  - intros g1 g2 r H1 H2 R1 R2. now rewrite (K g1 r H1 R1), (K g2 r H2 R2).
Qed.

Lemma filter_Permutation {A : Type} (f : A -> bool) (l l' : list A) :
  Permutation l l' -> Permutation (filter f l) (filter f l').
Proof.
  induction 1 as [|x l l' P IH|x y l|l l' l'' P1 IH1 P2 IH2]; cbn [filter].
  - constructor.
  - destruct (f x); [now constructor | exact IH].
  - destruct (f x), (f y); try reflexivity. apply perm_swap.
  - now transitivity (filter f l').
Qed.

(** X8. Reordering the input changes at most the order of the records inside a
    group: every group reported for a list has, for any rearrangement of the
    list, a reported group with the same members. *)
Theorem groups_order_independent (results results' : list LotteryResultData) :
  Permutation results results' ->
  forall g, In g (detectDuplicates results) ->
    exists g', In g' (detectDuplicates results') /\ Permutation g g'.
Proof.
  intros P g Hg. apply detectDuplicates_spec in Hg. destruct Hg as [Hl [k ->]].
  pose proof (filter_Permutation (fun r => String.eqb (duplicateKey r) k) _ _ P) as Pg.
  exists (filter (fun r => String.eqb (duplicateKey r) k) results').
  split; [|exact Pg]. apply detectDuplicates_spec.
  split; [|now exists k]. now rewrite <- (Permutation_length Pg).
Qed.
End DeduplicatorMore.

(** ** More on the frequency table and on hot and cold numbers *)

Section StatisticsMore.
Import DataManager.

Lemma Object_replace_sum (k : Z) (v old : nat) (o : list (Z * nat)) :
  Object_get k o = Some old ->
  (list_sum (map snd (Object_replace k v o)) + old
   = list_sum (map snd o) + v)%nat.
Proof.
  induction o as [|[k0 v0] o IH]; cbn [Object_get Object_replace]; [discriminate|].
  destruct (Z.eqb_spec k0 k); intros E.
  - injection E as ->. cbn [map snd list_sum fold_right]. unfold list_sum. lia.
  - specialize (IH E). cbn [map snd]. unfold list_sum in *. cbn [fold_right]. lia.
Qed.

Lemma Object_addIndex_sum (k : Z) (v : nat) (o : list (Z * nat)) :
  list_sum (map snd (Object_addIndex k v o)) = (list_sum (map snd o) + v)%nat.
Proof.
  induction o as [|[k0 v0] o IH]; cbn [Object_addIndex map snd].
  - unfold list_sum. cbn [fold_right]. lia.
  - destruct (isArrayIndex k0 && (k0 <? k)); cbn [map snd]; unfold list_sum in *;
      cbn [fold_right]; lia.
Qed.

Lemma countNumber_sum (n : Z) (o : list (Z * nat)) :
  list_sum (map snd (countNumber o n)) = S (list_sum (map snd o)).
Proof.
  unfold countNumber, Object_set. destruct (Object_get n o) as [old|] eqn:E.
  - pose proof (Object_replace_sum n (old + 1) old o E). lia.
  - destruct (isArrayIndex n).
    + rewrite Object_addIndex_sum. lia.
    + rewrite map_app, list_sum_app. cbn [map snd list_sum fold_right]. lia.
Qed.

Lemma count_sum (ns : list Z) (o : list (Z * nat)) :
  list_sum (map snd (fold_left countNumber ns o))
  = (list_sum (map snd o) + List.length ns)%nat.
Proof.
  revert o. induction ns as [|n ns IH]; intros o; cbn [fold_left List.length]; [lia|].
  rewrite IH, countNumber_sum. lia.
Qed.

Lemma statistics_frequency (game : LotteryGame) :
  numberFrequency (calculateGameStatistics game) = numberFrequencyOf (results game).
Proof.
  unfold calculateGameStatistics. destruct (results game); reflexivity.
Qed.

(** X9. The frequency table of the statistics holds, for every number, how often
    it was drawn, and nothing for a number that never was; its counts add up
    to the number of numbers drawn. *)
Theorem frequency_table (game : LotteryGame) :
  (forall n,
     Object_get n (numberFrequency (calculateGameStatistics game)) =
     match Spec.occurrences (results game) n with
     | O => None
     | c => Some c
     end) /\
  NoDup (map fst (numberFrequency (calculateGameStatistics game))) /\
  list_sum (map snd (numberFrequency (calculateGameStatistics game)))
  = List.length (Spec.drawn (results game)).
Proof.
  rewrite statistics_frequency. unfold numberFrequencyOf.
  rewrite numberFrequencyOf_drawn. split; [|split].
  - intros n. rewrite count_get. unfold Spec.occurrences. cbn [Object_get].
    destruct (count_occ Z.eq_dec (Spec.drawn (results game)) n); reflexivity.
  - apply count_NoDup. constructor.
  - now rewrite count_sum.
Qed.
End StatisticsMore.

Section HotColdMore.
Import DataManager.







End HotColdMore.

(** ** More on the batch importer *)

Section ImporterMore.
Import Validation DataImport.
Context `{JsHost} {Db : Type} `{Prisma Db}.

Lemma mergeBatch_assoc (a b c : BatchResult) :
  Facts.mergeBatch (Facts.mergeBatch a b) c = Facts.mergeBatch a (Facts.mergeBatch b c).
Proof.
  unfold Facts.mergeBatch. cbn [batch_imported batch_skipped batch_errors].
  now rewrite !Nat.add_assoc, app_assoc.
Qed.

Lemma mergeBatch_empty_l (a : BatchResult) :
  Facts.mergeBatch Facts.emptyBatch a = a.
Proof. destruct a. reflexivity. Qed.

Lemma processOne_merge (options : ImportOptions) (acc : BatchResult)
    (result : LotteryResultData) (db : Db) :
  processOne options acc result db =
  (Facts.mergeBatch acc (fst (processOne options Facts.emptyBatch result db)),
   snd (processOne options Facts.emptyBatch result db)).
Proof.
  unfold processOne.
  destruct (importOne options result db) as [[message|[| |]] db']; cbn [fst snd];
    unfold Facts.mergeBatch, Facts.emptyBatch;
    cbn [batch_imported batch_skipped batch_errors app];
    rewrite ?Nat.add_0_r, ?Nat.add_1_r, ?app_nil_r; reflexivity.
Qed.

Lemma processRecords_merge (options : ImportOptions) (batch : list LotteryResultData)
    (acc : BatchResult) (db : Db) :
  processRecords options acc batch db =
  (Facts.mergeBatch acc (fst (processRecords options Facts.emptyBatch batch db)),
   snd (processRecords options Facts.emptyBatch batch db)).
Proof.
  revert acc db. induction batch as [|r batch IH]; intros acc db; cbn [processRecords].
  - unfold Facts.mergeBatch, Facts.emptyBatch.
    cbn [fst snd batch_imported batch_skipped batch_errors].
    rewrite !Nat.add_0_r, app_nil_r. now destruct acc.
  - rewrite (processOne_merge options acc).
    destruct (processOne options Facts.emptyBatch r db) as [a1 db1]. cbn [fst snd].
    rewrite (IH (Facts.mergeBatch acc a1)), (IH a1). cbn [fst snd].
    now rewrite mergeBatch_assoc.
Qed.

Lemma processRecords_app (options : ImportOptions) (l1 l2 : list LotteryResultData)
    (acc : BatchResult) (db : Db) :
  processRecords options acc (l1 ++ l2) db =
  processRecords options (fst (processRecords options acc l1 db)) l2
                 (snd (processRecords options acc l1 db)).
Proof.
  revert acc db. induction l1 as [|r l1 IH]; intros acc db; cbn [app processRecords];
    [reflexivity|].
  destruct (processOne options acc r db) as [acc1 db1]. apply IH.
Qed.

(** With a positive [batchSize] the loop over the chunks does what one pass
    over all the records from index [i] on does. *)
Lemma batchLoop_sequential (opts : ImportOptions)
    (validResults : list LotteryResultData) (fuel : nat) :
  (0 < batchSize opts)%nat ->
  forall (i imported skipped : nat) (errors : list ImportError) (db : Db),
    (List.length validResults - i < fuel)%nat ->
    batchLoop fuel opts validResults i (imported, skipped, errors) db =
    let done := processRecords opts Facts.emptyBatch (skipn i validResults) db in
    Some ((imported + batch_imported (fst done))%nat,
          (skipped + batch_skipped (fst done))%nat,
          errors ++ batch_errors (fst done), snd done).
Proof.
  intros Hbs. induction fuel as [|fuel IH]; intros i imported skipped errors db Hfuel;
    [lia|].
  cbn [batchLoop]. destruct (Nat.ltb_spec i (List.length validResults)) as [Hi|Hi].
  - unfold processBatch. fold Facts.emptyBatch.
    assert (E : processRecords opts Facts.emptyBatch (skipn i validResults) db =
                processRecords opts
                  (fst (processRecords opts Facts.emptyBatch
                          (firstn (batchSize opts) (skipn i validResults)) db))
                  (skipn (i + batchSize opts) validResults)
                  (snd (processRecords opts Facts.emptyBatch
                          (firstn (batchSize opts) (skipn i validResults)) db))).
    { rewrite <- (firstn_skipn (batchSize opts) (skipn i validResults)) at 1.
      now rewrite processRecords_app, skipn_skipn, (Nat.add_comm (batchSize opts) i). }
    cbn zeta. rewrite E.
    destruct (processRecords opts Facts.emptyBatch
                (firstn (batchSize opts) (skipn i validResults)) db) as [br db1].
    cbn [fst snd]. rewrite IH by lia. cbn zeta.
    rewrite (processRecords_merge opts _ br). cbn [fst snd].
    unfold Facts.mergeBatch. cbn [batch_imported batch_skipped batch_errors].
    now rewrite !Nat.add_assoc, app_assoc.
  - rewrite skipn_all2 by lia. cbn [processRecords fst snd Facts.emptyBatch
      batch_imported batch_skipped batch_errors].
    now rewrite !Nat.add_0_r, app_nil_r.
Qed.

Lemma importOne_options (o1 o2 : ImportOptions) (result : LotteryResultData) :
  skipDuplicates o1 = skipDuplicates o2 -> importOne o1 result = importOne o2 result.
Proof. unfold importOne. now intros ->. Qed.

Lemma processRecords_options (o1 o2 : ImportOptions) (batch : list LotteryResultData)
    (acc : BatchResult) (db : Db) :
  skipDuplicates o1 = skipDuplicates o2 ->
  processRecords o1 acc batch db = processRecords o2 acc batch db.
Proof.
  intros E. revert acc db. induction batch as [|r batch IH]; intros acc db;
    cbn [processRecords]; [reflexivity|].
  unfold processOne. rewrite (importOne_options o1 o2 r E).
  destruct (importOne o2 r db) as [[message|[| |]] db']; apply IH.
Qed.

(** X12. The size of the chunks does not matter: two runs on the same candidates
    and the same store that differ only in a positive [batchSize] return the
    same result and leave the same store. *)
Theorem batch_size_irrelevant (fuel1 fuel2 : nat) (results : list LotteryResultData)
    (options1 options2 : PartialImportOptions) (db : Db) :
  given_skipDuplicates options1 = given_skipDuplicates options2 ->
  given_validateData options1 = given_validateData options2 ->
  (0 < batchSize (mergeOptions options1))%nat ->
  (0 < batchSize (mergeOptions options2))%nat ->
  (List.length results < fuel1)%nat ->
  (List.length results < fuel2)%nat ->
  importLotteryResults fuel1 results options1 db
  = importLotteryResults fuel2 results options2 db /\
  importLotteryResults fuel1 results options1 db <> None.
Proof.
  intros Es Ev B1 B2 F1 F2. unfold importLotteryResults.
  pose proof (validateLotteryResults_lengths results) as L.
  assert (Ev' : validateData (mergeOptions options1) = validateData (mergeOptions options2))
    by (unfold mergeOptions; cbn [validateData]; now rewrite Ev).
  assert (Es' : skipDuplicates (mergeOptions options1) = skipDuplicates (mergeOptions options2))
    by (unfold mergeOptions; cbn [skipDuplicates]; now rewrite Es).
  rewrite <- Ev'.
  set (valids := if validateData (mergeOptions options1)
                 then validResults (validateLotteryResults results) else results).
  assert (Lv : (List.length valids <= List.length results)%nat)
    by (unfold valids; destruct (validateData (mergeOptions options1)); lia).
  rewrite !batchLoop_sequential by (assumption || lia). cbn zeta.
  rewrite (processRecords_options _ _ _ _ _ Es'). cbn [skipn].
  destruct (processRecords (mergeOptions options2) Facts.emptyBatch valids db).
  split; [reflexivity | discriminate].
Qed.

Lemma processOne_no_lookup (opts : ImportOptions) (acc : BatchResult)
    (r : LotteryResultData) (db : Db) :
  skipDuplicates opts = false ->
  batch_skipped (fst (processOne opts acc r db)) = batch_skipped acc.
Proof.
  intros E. unfold processOne, importOne, bind, ret. rewrite E.
  destruct (lotteryGame_findUnique (gameName r) db) as [[message|[gameId|]] db1];
    try reflexivity.
  destruct (lotteryResult_create _ db1) as [[message|[]] db2]; reflexivity.
Qed.

Lemma processRecords_no_lookup (opts : ImportOptions) (batch : list LotteryResultData)
    (acc : BatchResult) (db : Db) :
  skipDuplicates opts = false ->
  batch_skipped (fst (processRecords opts acc batch db)) = batch_skipped acc.
Proof.
  intros E. revert acc db. induction batch as [|r batch IH]; intros acc db;
    cbn [processRecords]; [reflexivity|].
  pose proof (processOne_no_lookup opts acc r db E) as S.
  destruct (processOne opts acc r db) as [acc1 db1]. cbn [fst] in S.
  now rewrite IH.
Qed.

(** X13. When duplicates are not looked up ([skipDuplicates = false]), nothing is
    counted as skipped, whatever the store holds: every valid candidate is
    imported or reported with a reference or persistence error. *)
Theorem no_lookup_no_skip (fuel : nat) (results : list LotteryResultData)
    (options : PartialImportOptions) (db : Db) :
  given_skipDuplicates options = Some false ->
  (0 < batchSize (mergeOptions options))%nat ->
  (List.length results < fuel)%nat ->
  exists r db',
    importLotteryResults fuel results options db = Some (r, db') /\
    skipped r = 0%nat /\ duplicates (details r) = 0%nat /\
    (imported r + Spec.recordErrors (errors r) = valid (details r))%nat.
Proof.
  intros Es Hbs Hfuel.
  destruct (import_run fuel results options db Hbs Hfuel)
    as (r & db' & n & ex & E & _ & Eerr & R & _ & _ & _ & C).
  exists r, db'. split; [exact E|].
  assert (S0 : skipped r = 0%nat /\ duplicates (details r) = 0%nat).
  { unfold importLotteryResults in E.
    pose proof (validateLotteryResults_lengths results) as L.
    set (valids := if validateData (mergeOptions options)
                   then validResults (validateLotteryResults results) else results) in *.
    assert (Lv : (List.length valids <= List.length results)%nat)
      by (unfold valids; destruct (validateData (mergeOptions options)); lia).
    rewrite batchLoop_sequential in E by (assumption || lia). cbn zeta in E.
    injection E as <- _. cbn [skipped details duplicates skipn].
    rewrite processRecords_no_lookup; [now split|].
    unfold mergeOptions. cbn [skipDuplicates]. now rewrite Es. }
  destruct S0 as [S0 D0]. split; [exact S0|]. split; [exact D0|].
  assert (RE : Spec.recordErrors (errors r) = List.length ex).
  { rewrite Eerr. unfold Spec.recordErrors. rewrite filter_app, length_app.
    fold (Spec.recordErrors ex). rewrite (recordErrors_all ex R).
    destruct (0 <? n)%nat; reflexivity. }
  rewrite RE. lia.
Qed.

(** A [batchSize] of 0 makes no progress: with a record to process, the loop
    over the chunks never ends. *)
Lemma batchLoop_stuck (opts : ImportOptions) (validResults : list LotteryResultData)
    (fuel : nat) :
  batchSize opts = 0%nat ->
  forall (i : nat) (st : nat * nat * list ImportError) (db : Db),
    (i < List.length validResults)%nat ->
    batchLoop fuel opts validResults i st db = None.
Proof.
  intros Hbs. induction fuel as [|fuel IH]; intros i [[imported skipped] errors] db Hi;
    [reflexivity|].
  cbn [batchLoop]. destruct (Nat.ltb_spec i (List.length validResults)); [|lia].
  rewrite Hbs. cbn [firstn]. unfold processBatch. cbn [processRecords].
  rewrite Nat.add_0_r. now apply IH.
Qed.

(** X14. With [batchSize] 0 and at least one candidate to process, the loop over
    the chunks never advances: the import does not return, however long it
    is left to run. *)
Theorem zero_batch_size_never_returns (fuel : nat) (results : list LotteryResultData)
    (options : PartialImportOptions) (db : Db) (r : LotteryResultData) :
  given_batchSize options = Some 0%nat ->
  In r results ->
  (validateData (mergeOptions options) = true ->
   isValid (validateLotteryResult r) = true) ->
  importLotteryResults fuel results options db = None.
Proof.
  intros Eb Hin Hv. unfold importLotteryResults.
  rewrite batchLoop_stuck; [reflexivity | | ].
  - unfold mergeOptions. cbn [batchSize]. now rewrite Eb.
  - destruct (validateData (mergeOptions options)).
    + unfold validateLotteryResults. rewrite validateStep_fold. cbn [app validResults].
      rewrite length_map.
      assert (Hf : In r (filter (fun r => isValid (validateLotteryResult r)) results))
        by (apply filter_In; split; [exact Hin | now apply Hv]).
      destruct (filter _ results); [contradiction | cbn [List.length]; lia].
    + destruct results; [contradiction | cbn [List.length]; lia].
Qed.
End ImporterMore.

(** ** Pattern analysis: ratios and gaps *)

Section PatternFacts.
Import DataManager Patterns.

Lemma nested_fold {S : Type} (f : S -> Z -> S) (results : list LotteryResult) (s : S) :
  fold_left (fun st result => fold_left f (numbers result) st) results s
  = fold_left f (Spec.drawn results) s.
Proof.
  unfold Spec.drawn. revert s.
  induction results as [|r results IH]; intros s; cbn [fold_left map List.concat];
    [reflexivity|].
  now rewrite fold_left_app, IH.
Qed.

Lemma rem2_even (n : Z) : (Z.rem n 2 =? 0) = Z.even n.
Proof.
  destruct (Z.eqb_spec (Z.rem n 2) 0) as [E|E]; symmetry.
  - apply Z.even_spec. apply Z.rem_divide in E; [|lia].
    destruct E as [k ->]. exists k. lia.
  - destruct (Z.even n) eqn:Ev; [|reflexivity].
    exfalso. apply E. apply Z.even_spec in Ev. apply Z.rem_divide; [lia|].
    destruct Ev as [k ->]. exists k. lia.
Qed.

Lemma evenOdd_fold (ns : list Z) (e o : nat) :
  fold_left evenOddStep ns (e, o)
  = ((e + List.length (filter Z.even ns))%nat,
     (o + List.length (filter (fun n => negb (Z.even n)) ns))%nat).
Proof.
  revert e o. induction ns as [|n ns IH]; intros e o; cbn [fold_left filter List.length].
  - now rewrite !Nat.add_0_r.
  - unfold evenOddStep at 2. rewrite rem2_even.
    destruct (Z.even n); cbn [negb List.length]; rewrite IH; f_equal; lia.
Qed.

Lemma filter_complement {A : Type} (f : A -> bool) (l : list A) :
  (List.length (filter f l) + List.length (filter (fun x => negb (f x)) l)
   = List.length l)%nat.
Proof.
  induction l as [|x l IH]; cbn [filter List.length]; [reflexivity|].
  destruct (f x); cbn [negb List.length]; lia.
Qed.

(** X15. The even share is that of the even numbers among all numbers of the
    window and the odd share that of the others, so the two counts add up to
    the number of numbers; with no number at all both are the number 0. *)
Theorem even_odd_shares (window : list LotteryResult) :
  let all := Spec.drawn window in
  let evens := List.length (filter Z.even all) in
  even (calculateEvenOddRatio window) = shareOrZero evens (List.length all) /\
  odd (calculateEvenOddRatio window)
  = shareOrZero (List.length all - evens) (List.length all) /\
  (all = [] ->
   even (calculateEvenOddRatio window) = NumberValue (JsNumber.of_Z 0) /\
   odd (calculateEvenOddRatio window) = NumberValue (JsNumber.of_Z 0)).
Proof.
  cbn zeta. unfold calculateEvenOddRatio.
  rewrite nested_fold, evenOdd_fold. cbn [Nat.add even odd].
  pose proof (filter_complement Z.even (Spec.drawn window)) as C.
  replace (List.length (filter Z.even (Spec.drawn window)) +
           List.length (filter (fun n => negb (Z.even n)) (Spec.drawn window)))%nat
    with (List.length (Spec.drawn window)) by lia.
  replace (List.length (filter (fun n => negb (Z.even n)) (Spec.drawn window)))
    with (List.length (Spec.drawn window) -
          List.length (filter Z.even (Spec.drawn window)))%nat by lia.
  split; [reflexivity|]. split; [reflexivity|].
  intros ->. split; reflexivity.
Qed.

Lemma highLow_fold (mid : Z) (ns : list Z) (h l : nat) :
  fold_left (highLowStep mid) ns (h, l)
  = ((h + List.length (filter (fun n => (mid <? n)%Z) ns))%nat,
     (l + List.length (filter (fun n => negb (mid <? n)%Z) ns))%nat).
Proof.
  revert h l. induction ns as [|n ns IH]; intros h l; cbn [fold_left filter List.length].
  - now rewrite !Nat.add_0_r.
  - unfold highLowStep at 2.
    destruct (mid <? n); cbn [negb List.length]; rewrite IH; f_equal; lia.
Qed.

(** X16. The high share is that of the numbers strictly above the midpoint, the
    integer ceiling of [maxNumber / 2], among all numbers of the window, and
    the low share that of the others. *)
Theorem high_low_shares (window : list LotteryResult) (maxNumber : Z) :
  let all := Spec.drawn window in
  let mid := midpointOf maxNumber in
  let highs := List.length (filter (fun n => (mid <? n)%Z) all) in
  (maxNumber <= 2 * mid <= maxNumber + 1) /\
  high (calculateHighLowRatio window maxNumber) = shareOrZero highs (List.length all) /\
  low (calculateHighLowRatio window maxNumber)
  = shareOrZero (List.length all - highs) (List.length all).
Proof.
  cbn zeta. split.
  - unfold midpointOf. pose proof (Z.div_mod (maxNumber + 1) 2 ltac:(lia)).
    pose proof (Z.mod_pos_bound (maxNumber + 1) 2 ltac:(lia)). lia.
  - unfold calculateHighLowRatio. cbn zeta.
    rewrite nested_fold, highLow_fold. cbn [Nat.add high low].
    pose proof (filter_complement (fun n => (midpointOf maxNumber <? n)%Z)
                  (Spec.drawn window)) as C.
    cbn beta in C.
    replace (List.length (filter (fun n => (midpointOf maxNumber <? n)%Z) (Spec.drawn window)) +
             List.length (filter (fun n => negb (midpointOf maxNumber <? n)%Z)
                            (Spec.drawn window)))%nat
      with (List.length (Spec.drawn window)) by lia.
    replace (List.length (filter (fun n => negb (midpointOf maxNumber <? n)%Z)
                            (Spec.drawn window)))
      with (List.length (Spec.drawn window) -
            List.length (filter (fun n => (midpointOf maxNumber <? n)%Z)
                           (Spec.drawn window)))%nat by lia.
    split; reflexivity.
Qed.

Lemma Set_add_In (s : list Z) (x y : Z) :
  In y (Patterns.Set_add s x) <-> In y s \/ y = x.
Proof.
  unfold Patterns.Set_add. destruct (existsb (Z.eqb x) s) eqn:E.
  - apply existsb_exists in E. destruct E as (z & Hz & Ez). apply Z.eqb_eq in Ez.
    subst z. split; [tauto | intros [Hy|Hy]; [assumption | now subst]].
  - rewrite in_app_iff. cbn [In]. split.
    + intros [Hy|[Hy|[]]]; [now left | right; now subst].
    + intros [Hy|Hy]; [now left | right; left; now subst].
Qed.

Lemma Set_fold_In (ns s : list Z) (y : Z) :
  In y (fold_left Patterns.Set_add ns s) <-> In y s \/ In y ns.
Proof.
  revert s. induction ns as [|n ns IH]; intros s; cbn [fold_left In]; [tauto|].
  rewrite IH, Set_add_In. split.
  - intros [[Hy|Hy]|Hy]; [now left | right; left; now subst | right; now right].
  - intros [Hy|[Hy|Hy]]; [left; now left | left; right; now subst | now right].
Qed.

Lemma Set_has_In (s : list Z) (x : Z) : Set_has s x = true <-> In x s.
Proof.
  unfold Set_has. rewrite existsb_exists. split.
  - intros (z & Hz & E). apply Z.eqb_eq in E. now subst.
  - intros Hx. exists x. split; [exact Hx | apply Z.eqb_refl].
Qed.

Lemma allNumbersTo_In (maxNumber n : Z) :
  In n (allNumbersTo maxNumber) <-> 1 <= n <= maxNumber.
Proof.
  unfold allNumbersTo. rewrite in_map_iff. split.
  - intros (i & <- & Hi). apply in_seq in Hi. lia.
  - intros Hn. exists (Z.to_nat (n - 1)). split; [lia|]. apply in_seq. lia.
Qed.

Lemma range_sorted (a k : nat) :
  StronglySorted Z.lt (map (fun i => Z.of_nat i + 1) (seq a k)).
Proof.
  revert a. induction k as [|k IH]; intros a; cbn [seq map]; constructor; [apply IH|].
  rewrite Forall_map. apply Forall_forall. intros i Hi. apply in_seq in Hi. lia.
Qed.

Lemma StronglySorted_filter {A : Type} (R : A -> A -> Prop) (f : A -> bool) (l : list A) :
  StronglySorted R l -> StronglySorted R (filter f l).
Proof.
  induction 1 as [|x l S IH F]; cbn [filter]; [constructor|].
  destruct (f x); [|exact IH]. constructor; [exact IH|].
  rewrite Forall_forall in *. intros y Hy. apply F. now apply filter_In in Hy.
Qed.

(** X17. The missing numbers are exactly the numbers from 1 to [maxNumber] that
    no draw of the window holds, in ascending order; [missingCount] is how
    many they are, at most [maxNumber], and none is missing exactly when every
    number of the range has been drawn. *)
Theorem number_gaps (window : list LotteryResult) (maxNumber : Z) :
  let gaps := calculateNumberGaps window maxNumber in
  (forall n, In n (missingNumbers gaps) <->
             1 <= n <= maxNumber /\ ~ In n (Spec.drawn window)) /\
  StronglySorted Z.lt (missingNumbers gaps) /\
  missingCount gaps = List.length (missingNumbers gaps) /\
  Z.of_nat (missingCount gaps) <= Z.max 0 maxNumber /\
  (missingCount gaps = 0%nat <->
   forall n, 1 <= n <= maxNumber -> In n (Spec.drawn window)).
Proof.
  cbn zeta. unfold calculateNumberGaps. cbn [missingNumbers missingCount].
  rewrite nested_fold.
  assert (M : forall n,
             In n (filter (fun num => negb (Set_has
                      (fold_left Patterns.Set_add (Spec.drawn window) []) num))
                     (allNumbersTo maxNumber)) <->
             1 <= n <= maxNumber /\ ~ In n (Spec.drawn window)).
  { intros n. rewrite filter_In, allNumbersTo_In, negb_true_iff.
    rewrite <- not_true_iff_false, Set_has_In, Set_fold_In. cbn [In]. tauto. }
  split; [exact M|]. split; [apply StronglySorted_filter, range_sorted|].
  split; [reflexivity|]. split.
  - pose proof (filter_length_le
                  (fun num => negb (Set_has
                     (fold_left Patterns.Set_add (Spec.drawn window) []) num))
                  (allNumbersTo maxNumber)) as L.
    unfold allNumbersTo in L at 2. rewrite length_map, length_seq in L. lia.
  - rewrite length_zero_iff_nil. split.
    + intros E n Hn.
      destruct (in_dec Z.eq_dec n (Spec.drawn window)) as [Hin|Hout]; [exact Hin|].
      exfalso. assert (Hg : In n []) by (rewrite <- E; apply M; tauto). contradiction.
    + intros All.
      destruct (filter _ (allNumbersTo maxNumber)) as [|n rest] eqn:E; [reflexivity|].
      exfalso. assert (Hn : In n (n :: rest)) by now left.
      apply M in Hn. destruct Hn as [Hr Hout]. now apply Hout, All.
Qed.

(** *** The date range *)

Lemma sorted_hd_last (l : list Z) (d : Z) :
  StronglySorted Z.le l ->
  forall x, In x l -> hd d l <= x <= last l d.
Proof.
  induction 1 as [|a l S IH F]; intros x Hx; [contradiction|].
  cbn [hd]. rewrite Forall_forall in F.
  assert (La : a <= last (a :: l) d).
  { destruct l as [|b l]; [cbn; lia|].
    change (last (a :: b :: l) d) with (last (b :: l) d).
    specialize (IH (last (b :: l) d)).
    assert (Hl : In (last (b :: l) d) (b :: l)).
    { clear. revert b. induction l as [|c l IHl]; intros b; [now left|].
      right. apply IHl. }
    now apply F. }
  destruct Hx as [->|Hx]; [lia|].
  split; [now apply F|].
  destruct l as [|b l]; [contradiction|].
  change (last (a :: b :: l) d) with (last (b :: l) d). now apply IH.
Qed.

(** X18. For a history with a draw, [earliest] and [latest] are draw dates of the
    history, and every draw date lies between them. *)
Theorem date_range_bounds (results : list LotteryResult) :
  results <> [] ->
  exists e l,
    earliest (dateRangeOf results) = Some e /\
    latest (dateRangeOf results) = Some l /\
    In e (map drawDate results) /\ In l (map drawDate results) /\
    forall r, In r results -> e <= drawDate r <= l.
Proof.
  intros Hne. destruct results as [|r0 rs]; [contradiction|].
  unfold dateRangeOf. cbn [earliest latest].
  set (dates := JsArray.sort Z.compare (map drawDate (r0 :: rs))).
  pose proof (sort_perm Z.compare (map drawDate (r0 :: rs))) as P. fold dates in P.
  assert (S : StronglySorted Z.le dates).
  { assert (T : forall a b, Z.compare a b = Gt -> Z.compare b a <> Gt).
    { intros a b Hab Hba. apply Z.compare_gt_iff in Hab, Hba. lia. }
    pose proof (sort_sorted Z.compare T (map drawDate (r0 :: rs))) as S.
    fold dates in S. apply Sorted_StronglySorted in S.
    - clear - S. induction S as [|x l S IH F]; constructor; [exact IH|].
      eapply Forall_impl; [|exact F]. intros y Hy. exact Hy.
    - intros x y z Hxy Hyz Hxz. apply Z.compare_gt_iff in Hxz.
      change (x <= y) in Hxy. change (y <= z) in Hyz. lia. }
  assert (Hne' : dates <> []).
  { intros E. rewrite E in P. apply Permutation_nil in P. discriminate. }
  exists (hd (drawDate r0) dates), (last dates (drawDate r0)).
  split; [reflexivity|]. split; [reflexivity|]. split; [|split].
  - apply (Permutation_in _ P). destruct dates; [contradiction | now left].
  - apply (Permutation_in _ P). clear - Hne'.
    induction dates as [|a [|b l] IH]; [contradiction | now left |].
    right. apply IH. discriminate.
  - intros r Hr. apply sorted_hd_last; [exact S|].
    apply (Permutation_in _ (Permutation_sym P)). now apply in_map.
Qed.
End PatternFacts.

(** ** The mock scraper *)

Section RandomNumbers.
Import Scraper.

Lemma fillNumbers_eq (count : nat) (maxNumber : Z) (numbers : list Z)
    (random : list JsNumber.float64) :
  fillNumbers count maxNumber numbers random
  = if (List.length numbers <? count)%nat
    then match random with
         | [] => None
         | r :: rest =>
             fillNumbers count maxNumber
               (Patterns.Set_add numbers (randomNumber maxNumber r)) rest
         end
    else Some (numbers, random).
Proof. destruct random; reflexivity. Qed.

Lemma Set_add_NoDup (s : list Z) (x : Z) : NoDup s -> NoDup (Patterns.Set_add s x).
Proof.
  intros ND. unfold Patterns.Set_add. destruct (existsb (Z.eqb x) s) eqn:E; [exact ND|].
  apply (Permutation_NoDup (Permutation_cons_append s x)). constructor; [|exact ND].
  intros Hin. assert (Ex : existsb (Z.eqb x) s = true); [|congruence].
  apply existsb_exists. exists x. split; [exact Hin | apply Z.eqb_refl].
Qed.

Lemma Set_add_grows (s : list Z) (x : Z) :
  (List.length (Patterns.Set_add s x) <= S (List.length s))%nat.
Proof.
  unfold Patterns.Set_add. destruct (existsb (Z.eqb x) s); [lia|].
  rewrite length_app. cbn [List.length]. lia.
Qed.

Lemma fillNumbers_spec (count : nat) (maxNumber : Z)
    (random : list JsNumber.float64) (numbers l : list Z)
    (rest : list JsNumber.float64) :
  fillNumbers count maxNumber numbers random = Some (l, rest) ->
  (List.length numbers <= count)%nat -> NoDup numbers ->
  List.length l = count /\ NoDup l /\
  exists used, random = used ++ rest /\
    forall n, In n l <-> In n numbers \/ In n (map (randomNumber maxNumber) used).
Proof.
  revert numbers. induction random as [|r random IH]; intros numbers E Hlen ND;
    rewrite fillNumbers_eq in E.
  - destruct (List.length numbers <? count)%nat eqn:C; [discriminate|].
    apply Nat.ltb_ge in C. injection E as <- <-.
    split; [lia|]. split; [exact ND|]. exists []. split; [reflexivity|].
    intros n. cbn [map In]. tauto.
  - destruct (List.length numbers <? count)%nat eqn:C.
    + apply Nat.ltb_lt in C.
      pose proof (Set_add_grows numbers (randomNumber maxNumber r)) as L.
      destruct (IH _ E) as (El & NDl & used & Eu & Hin);
        [lia | now apply Set_add_NoDup |].
      split; [exact El|]. split; [exact NDl|].
      exists (r :: used). split; [now rewrite Eu|].
      intros n. rewrite Hin, Set_add_In. cbn [map In]. split.
      * intros [[Hn|Hn]|Hn]; [now left | right; left; now subst | right; now right].
      * intros [Hn|[Hn|Hn]]; [left; now left | left; right; now subst | now right].
    + apply Nat.ltb_ge in C. injection E as <- <-.
      split; [lia|]. split; [exact ND|]. exists []. split; [reflexivity|].
      intros n. cbn [map In]. tauto.
Qed.

Lemma fillNumbers_returns (count : nat) (maxNumber : Z)
    (random : list JsNumber.float64) (numbers : list Z) :
  (count <= List.length
              (fold_left Patterns.Set_add (map (randomNumber maxNumber) random) numbers))%nat ->
  exists l rest, fillNumbers count maxNumber numbers random = Some (l, rest).
Proof.
  revert numbers. induction random as [|r random IH]; intros numbers Hc;
    rewrite fillNumbers_eq; cbn [map fold_left] in Hc.
  - destruct (List.length numbers <? count)%nat eqn:C; [|now eauto].
    apply Nat.ltb_lt in C. lia.
  - destruct (List.length numbers <? count)%nat eqn:C; [|now eauto].
    now apply IH.
Qed.

Lemma range_length (maxNumber : Z) (l : list Z) :
  NoDup l -> Forall (fun n => 1 <= n <= maxNumber) l ->
  Z.of_nat (List.length l) <= Z.max 0 maxNumber.
Proof.
  intros ND F.
  assert (I : incl l (Patterns.allNumbersTo maxNumber)).
  { intros n Hn. apply allNumbersTo_In. exact (proj1 (Forall_forall _ _) F n Hn). }
  pose proof (NoDup_incl_length ND I) as L.
  unfold Patterns.allNumbersTo in L. rewrite length_map, length_seq in L. lia.
Qed.

Lemma fillNumbers_none (count : nat) (maxNumber : Z)
    (random : list JsNumber.float64) (numbers : list Z) :
  0 <= maxNumber < Z.of_nat count ->
  Forall (fun r => 1 <= randomNumber maxNumber r <= maxNumber) random ->
  NoDup numbers -> Forall (fun n => 1 <= n <= maxNumber) numbers ->
  fillNumbers count maxNumber numbers random = None.
Proof.
  intros Hc F. revert numbers. induction F as [|r random Hr F IH]; intros numbers ND R;
    rewrite fillNumbers_eq;
    pose proof (range_length maxNumber numbers ND R) as L;
    assert (C : (List.length numbers <? count)%nat = true)
      by (apply Nat.ltb_lt; lia);
    rewrite C; [reflexivity|].
  apply IH; [now apply Set_add_NoDup|].
  apply Forall_forall. intros n Hn. apply Set_add_In in Hn.
  destruct Hn as [Hn|Hn]; [exact (proj1 (Forall_forall _ _) R n Hn) | now subst].
Qed.

Lemma sorted_distinct (l : list Z) :
  Sorted (fun a b => Z.compare a b <> Gt) l -> NoDup l -> StronglySorted Z.lt l.
Proof.
  intros S ND. apply Sorted_StronglySorted in S.
  - induction S as [|x l S IH F]; constructor.
    + apply IH. now inversion ND.
    + inversion ND as [|? ? Hx _]; subst.
      apply Forall_forall. intros y Hy.
      pose proof (proj1 (Forall_forall _ _) F y Hy) as Hxy. cbv beta in Hxy.
      assert (x <> y) by (intros ->; contradiction).
      change (x <= y) in Hxy. lia.
  - intros a b c Hab Hbc. change (a <= c). change (a <= b) in Hab.
    change (b <= c) in Hbc. lia.
Qed.

Lemma compare_total (a b : Z) : Z.compare a b = Gt -> Z.compare b a <> Gt.
Proof. intros E1 E2. apply Z.compare_gt_iff in E1, E2. lia. Qed.

Lemma generateRandomNumbers_spec (count : nat) (maxNumber : Z)
    (random : list JsNumber.float64) (l : list Z) (rest : list JsNumber.float64) :
  generateRandomNumbers count maxNumber random = Some (l, rest) ->
  List.length l = count /\ StronglySorted Z.lt l /\
  exists used, random = used ++ rest /\
    forall n, In n l <-> In n (map (randomNumber maxNumber) used).
Proof.
  unfold generateRandomNumbers.
  destruct (fillNumbers count maxNumber [] random) as [[numbers rest']|] eqn:E;
    [|discriminate].
  intros [= <- <-].
  destruct (fillNumbers_spec _ _ _ _ _ _ E) as (El & ND & used & Eu & Hin);
    [cbn [List.length]; lia | constructor |].
  pose proof (sort_perm Z.compare numbers) as P.
  split; [now rewrite sort_length|]. split.
  - apply sorted_distinct; [apply sort_sorted, compare_total|].
    exact (Permutation_NoDup (Permutation_sym P) ND).
  - exists used. split; [exact Eu|]. intros n. split; intros Hn.
    + apply (Permutation_in _ P), Hin in Hn. destruct Hn as [[]|Hn]. exact Hn.
    + apply (Permutation_in _ (Permutation_sym P)), Hin. now right.
Qed.

(** X19. When the values that [Math.random] returns lead to at least [count]
    distinct numbers, [generateRandomNumbers] returns [count] numbers in
    strictly ascending order, each of them computed from one of the values
    it consumed. *)
Theorem random_numbers_drawn (count : nat) (maxNumber : Z)
    (random : list JsNumber.float64) :
  (count <= List.length
              (fold_left Patterns.Set_add (map (randomNumber maxNumber) random) []))%nat ->
  exists l used rest,
    generateRandomNumbers count maxNumber random = Some (l, rest) /\
    random = used ++ rest /\
    List.length l = count /\ StronglySorted Z.lt l /\
    forall n, In n l <-> In n (map (randomNumber maxNumber) used).
Proof.
  intros Hc. destruct (fillNumbers_returns _ _ _ _ Hc) as (numbers & rest & E).
  assert (G : generateRandomNumbers count maxNumber random
              = Some (JsArray.sort Z.compare numbers, rest))
    by (unfold generateRandomNumbers; now rewrite E).
  destruct (generateRandomNumbers_spec _ _ _ _ _ G) as (El & S & used & Eu & Hin).
  exists (JsArray.sort Z.compare numbers), used, rest. now repeat split; try apply Hin.
Qed.

(** X20. Asked for more numbers than the range [1..maxNumber] holds,
    [generateRandomNumbers] does not return, whatever in-range values
    [Math.random] leads to. *)
Theorem random_numbers_never_return (count : nat) (maxNumber : Z)
    (random : list JsNumber.float64) :
  0 <= maxNumber < Z.of_nat count ->
  Forall (fun r => 1 <= randomNumber maxNumber r <= maxNumber) random ->
  generateRandomNumbers count maxNumber random = None.
Proof.
  intros Hc F. unfold generateRandomNumbers.
  now rewrite (fillNumbers_none count maxNumber random [] Hc F (NoDup_nil _) (Forall_nil _)).
Qed.
End RandomNumbers.

Section MockData.
Import Validation Scraper.
Context `{JsHost} `{CalendarHost}.

Lemma add_half_notNegative (y : JsNumber.float64) :
  Facts.notNegative y -> Facts.notNegative (add half y).
Proof.
  unfold add, half. destruct y as [sy|sy| |sy my ey];
    cbn [Facts.notNegative SFadd]; intros Hy; subst; try reflexivity; try exact I.
  cbn [cond_Zopp]. cbn [Z.add].
  unfold binary_normalize.
  match goal with
  | |- context [binary_round _ _ false ?m ?e] =>
      pose proof (binary_round_sign false m e) as S;
      destruct (binary_round JsNumber.prec JsNumber.emax false m e); auto
  end.
Qed.

Lemma baseAmounts_positive (gameType : string) (amount : Z) :
  lookup baseAmounts gameType = Own amount -> 0 <= amount.
Proof.
  unfold lookup, baseAmounts, Constants.assoc.
  repeat match goal with
         | |- context [String.eqb gameType ?s] =>
             destruct (String.eqb gameType s); [intros [= <-]; lia|]
         end.
  destruct (Constants.inherited gameType); discriminate.
Qed.

Lemma jackpot_notNegative (gameType : string) (random rest : list JsNumber.float64)
    (j : JsNumber.float64) :
  generateRandomJackpot gameType random = Some (j, rest) ->
  match random with
  | r :: rest' => rest = rest' /\ (Facts.notNegative r -> Facts.notNegative j)
  | [] => False
  end.
Proof.
  unfold generateRandomJackpot. destruct random as [|r rest']; [discriminate|].
  intros [= <- <-]. split; [reflexivity|]. intros Hr.
  apply Math_round_notNegative, mul_notNegative.
  - destruct (lookup baseAmounts gameType) as [amount| |] eqn:E.
    + apply of_Z_notNegative. now apply (baseAmounts_positive gameType).
    + exact I.
    + refine (of_Z_notNegative 10000000 _). lia.
  - apply add_half_notNegative, mul_notNegative; [exact Hr|].
    refine (of_Z_notNegative 2 _). lia.
Qed.

(** The scraper's table and the catalog agree on every game. *)
Lemma configs_agree (gameType : string) (config : Config) :
  getGameConfig gameType = Own config ->
  exists g, Constants.own gameType = Some g /\
    Constants.numberCount g = numberCount config /\
    Constants.maxNumber g = maxNumber config.
Proof.
  unfold getGameConfig, lookup, configs, Constants.own, Constants.LOTTERY_GAMES,
    Constants.assoc.
  repeat match goal with
         | |- context [String.eqb gameType ?s] =>
             destruct (String.eqb gameType s);
             [intros [= <-]; eexists; split; [reflexivity|]; split; reflexivity|]
         end.
  destruct (Constants.inherited gameType); discriminate.
Qed.

Lemma inject_Z_integer (n : Z) : Number_isInteger (inject_Z n) = true.
Proof.
  unfold Number_isInteger. apply Qeq_bool_iff.
  now rewrite Qfloor_Z.
Qed.

Lemma inject_Z_NoDupA (l : list Z) : NoDup l -> NoDupA Qeq (map inject_Z l).
Proof.
  induction 1 as [|x l Hx ND IH]; cbn [map]; constructor; [|exact IH].
  intros Hin. apply InA_alt in Hin. destruct Hin as (q & Eq & Hq).
  apply in_map_iff in Hq. destruct Hq as (y & <- & Hy).
  apply (proj1 (inject_Z_injective x y)) in Eq. subst y. contradiction.
Qed.

Lemma StronglySorted_lt_NoDup (l : list Z) : StronglySorted Z.lt l -> NoDup l.
Proof.
  induction 1 as [|x l S IH F]; constructor; [|exact IH].
  intros Hx. pose proof (proj1 (Forall_forall _ _) F x Hx). lia.
Qed.

(** A record made of generated numbers and a generated jackpot is valid. *)
Lemma generated_valid (gameType : string) (config : Config) (t : Z)
    (random rest1 rest2 : list JsNumber.float64) (l : list Z) (j : JsNumber.float64) :
  getGameConfig gameType = Own config ->
  Forall (Facts.usable (maxNumber config)) random ->
  generateRandomNumbers (numberCount config) (maxNumber config) random
  = Some (l, rest1) ->
  generateRandomJackpot gameType rest1 = Some (j, rest2) ->
  isValid (validateLotteryResult
             {| gameName := gameType; drawDate := DateObject (Some t);
                numbers := map inject_Z l; jackpot := Some j |}) = true /\
  List.length l = numberCount config /\
  Forall (Facts.usable (maxNumber config)) rest2.
Proof.
  intros Hc F En Ej.
  destruct (configs_agree _ _ Hc) as (g & Eg & Ecount & Emax).
  destruct (generateRandomNumbers_spec _ _ _ _ _ En) as (El & S & used & Eu & Hin).
  subst random. apply Forall_app in F. destruct F as [Fu F1].
  pose proof (jackpot_notNegative _ _ _ _ Ej) as J.
  destruct rest1 as [|r rest1']; [contradiction|]. destruct J as [-> J].
  inversion F1 as [|? ? [Hr _] F2]; subst. split; [|split; [exact El | exact F2]].
  apply (valid_intro _ g); cbn [gameName drawDate numbers jackpot].
  - exact Eg.
  - rewrite length_map. congruence.
  - apply Forall_forall. intros q Hq. apply in_map_iff in Hq.
    destruct Hq as (n & <- & Hn). split; [apply inject_Z_integer|].
    apply Hin, in_map_iff in Hn. destruct Hn as (r0 & <- & Hr0).
    destruct (proj1 (Forall_forall _ _) Fu r0 Hr0) as [_ R].
    rewrite Emax. change 1%Q with (inject_Z 1). rewrite <- !Zle_Qle. exact R.
  - now apply inject_Z_NoDupA, StronglySorted_lt_NoDup.
  - discriminate.
  - intros j0 [= <-]. now apply notNegative_ltb, J.
Qed.

Lemma isDrawDay_own (gameType : string) (config : Config) (date : option Z) :
  getGameConfig gameType = Own config ->
  exists b, isDrawDay date gameType = inr b.
Proof. intros E. unfold isDrawDay. rewrite E. eauto. Qed.

Lemma mockLoop_valid (gameType : string) (config : Config) (endDate : option Z)
    (fuel : nat) :
  getGameConfig gameType = Own config ->
  forall (current : option Z) (results : list LotteryResultData)
         (random rest : list JsNumber.float64)
         (out : string + list LotteryResultData),
  Forall (Facts.usable (maxNumber config)) random ->
  Forall (fun r => isValid (validateLotteryResult r) = true /\
                   gameName r = gameType /\
                   List.length (numbers r) = numberCount config) results ->
  mockLoop fuel gameType (Own config) endDate current results random
  = Some (out, rest) ->
  exists l, out = inr l /\
    Forall (fun r => isValid (validateLotteryResult r) = true /\
                     gameName r = gameType /\
                     List.length (numbers r) = numberCount config) l.
Proof.
  intros Hc. induction fuel as [|fuel IH]; intros current results random rest out F V E;
    cbn [mockLoop] in E; [discriminate|].
  destruct (notAfter current endDate) eqn:N.
  - destruct (isDrawDay_own gameType config current Hc) as [b Eb]. rewrite Eb in E.
    destruct b; [|exact (IH _ _ _ _ _ F V E)].
    destruct (generateRandomNumbers (numberCount config) (maxNumber config) random)
      as [[l rest1]|] eqn:En; [|discriminate].
    destruct (generateRandomJackpot gameType rest1) as [[j rest2]|] eqn:Ej;
      [|discriminate].
    destruct current as [t|]; [|discriminate].
    destruct (generated_valid gameType config t _ _ _ _ _ Hc F En Ej) as (Vr & Len & F2).
    apply (IH _ _ _ _ _ F2) in E; [exact E|].
    apply Forall_app. split; [exact V|]. constructor; [|constructor].
    split; [exact Vr|]. split; [reflexivity|].
    cbn [numbers]. now rewrite length_map.
  - injection E as <- <-. now exists results.
Qed.

Lemma scrapeStep_fold (l : list LotteryResultData)
    (vs : list LotteryResultData) (es : list ScrapeError) :
  fold_left scrapeStep l (vs, es)
  = (vs ++ map cleanLotteryResult
             (filter (fun r => isValid (validateLotteryResult r)) l),
     es ++ map (fun r => InvalidResult (drawDate r)
                           (Validation.errors (validateLotteryResult r)))
             (filter (fun r => negb (isValid (validateLotteryResult r))) l)).
Proof.
  revert vs es. induction l as [|r l IH]; intros vs es; cbn [fold_left filter map].
  - now rewrite !app_nil_r.
  - unfold scrapeStep at 2.
    destruct (isValid (validateLotteryResult r)) eqn:V; cbn [negb]; rewrite IH;
      cbn [map]; now rewrite <- app_assoc.
Qed.

Lemma filter_all {A : Type} (f : A -> bool) (l : list A) :
  Forall (fun x => f x = true) l -> filter f l = l /\ filter (fun x => negb (f x)) l = [].
Proof.
  induction 1 as [|x l Hx F [IH1 IH2]]; cbn [filter]; [now split|].
  rewrite Hx. cbn [negb]. now rewrite IH1, IH2.
Qed.

(** What a call of the scraper returns. *)
Lemma scrape_run (fuel : nat) (gameType : string) (startDate endDate : option Z)
    (random rest : list JsNumber.float64) (sr : ScrapingResult) :
  scrapePCSOResults fuel gameType startDate endDate random = Some (sr, rest) ->
  (exists message,
     generateMockHistoricalData fuel gameType startDate endDate random
     = Some (inl message, rest) /\
     success sr = false /\ data sr = [] /\ errors sr = [ScrapingFailed message]) \/
  (exists mockResults,
     generateMockHistoricalData fuel gameType startDate endDate random
     = Some (inr mockResults, rest) /\
     success sr = true /\
     data sr = map cleanLotteryResult
                 (filter (fun r => isValid (validateLotteryResult r)) mockResults) /\
     errors sr = map (fun r => InvalidResult (drawDate r)
                                 (Validation.errors (validateLotteryResult r)))
                   (filter (fun r => negb (isValid (validateLotteryResult r)))
                           mockResults)).
Proof.
  unfold scrapePCSOResults.
  destruct (generateMockHistoricalData fuel gameType startDate endDate random)
    as [[[message|mockResults] rest']|]; [| |discriminate].
  - intros [= <- <-]. left. exists message. now repeat split.
  - rewrite scrapeStep_fold. cbn [app]. intros [= <- <-]. right.
    exists mockResults. now repeat split.
Qed.

(** X21. For a game of its table, and with values of [Math.random] in [0, 1) that
    lead to numbers of the game's range, the scraper reports success and no
    error, and every record it delivers is valid: none of the generated
    records is turned down by the validator. *)
Theorem mock_data_passes (fuel : nat) (gameType : string) (config : Config)
    (startDate endDate : option Z) (random rest : list JsNumber.float64)
    (sr : ScrapingResult) :
  getGameConfig gameType = Own config ->
  Forall (Facts.usable (maxNumber config)) random ->
  scrapePCSOResults fuel gameType startDate endDate random = Some (sr, rest) ->
  success sr = true /\ errors sr = [] /\
  Forall (fun r => isValid (validateLotteryResult r) = true /\
                   gameName r = gameType /\
                   List.length (numbers r) = numberCount config) (data sr).
Proof.
  intros Hc F E.
  destruct (configs_agree _ _ Hc) as (g & Eg & _).
  destruct (scrape_run _ _ _ _ _ _ _ E) as [(m & Em & _)|(l & El & Es & Ed & Ee)];
    unfold generateMockHistoricalData in *; rewrite Hc in *.
  - destruct (mockLoop_valid gameType config endDate fuel Hc _ _ _ _ _ F
                (Forall_nil _) Em) as (l & [=] & _).
  - destruct (mockLoop_valid gameType config endDate fuel Hc _ _ _ _ _ F
                (Forall_nil _) El) as (l' & [= <-] & V).
    assert (V' : Forall (fun r => isValid (validateLotteryResult r) = true) l)
      by (apply (Forall_impl _ (P := _) (fun r Hr => proj1 Hr) V)).
    destruct (filter_all _ l V') as [F1 F2].
    rewrite F1 in Ed. rewrite F2 in Ee.
    split; [exact Es|]. split; [exact Ee|]. rewrite Ed.
    apply Forall_forall. intros r' Hr'. apply in_map_iff in Hr'.
    destruct Hr' as (r & <- & Hr).
    destruct (proj1 (Forall_forall _ _) V r Hr) as (Vr & Gr & Lr).
    split; [now apply clean_valid|]. cbn [cleanLotteryResult gameName numbers].
    split; [rewrite Gr; exact (own_trim _ _ Eg) | now rewrite sort_length].
Qed.
End MockData.

(** ** Historical import *)

Section HistoricalFacts.
Import Validation DataImport.
Context `{JsHost} `{CalendarHost} {Db : Type} `{Prisma Db}.

Lemma all_valid (results : list LotteryResultData) :
  Forall (fun r => isValid (validateLotteryResult r) = true) results ->
  validResults (validateLotteryResults results) = map cleanLotteryResult results /\
  invalidResults (validateLotteryResults results) = [].
Proof.
  intros V. unfold validateLotteryResults. rewrite validateStep_fold.
  cbn [validResults invalidResults app].
  destruct (filter_all _ results V) as [-> ->]. now split.
Qed.

Lemma import_details (fuel : nat) (results : list LotteryResultData) (db db' : Db)
    (r : ImportResult) :
  importLotteryResults fuel results no_options db = Some (r, db') ->
  valid (details r) = List.length (validResults (validateLotteryResults results)) /\
  invalid (details r)
  = (List.length results
     - List.length (validResults (validateLotteryResults results)))%nat.
Proof.
  unfold importLotteryResults.
  change (validateData (mergeOptions no_options)) with true. cbv iota.
  destruct (batchLoop _ _ _ _ _ _) as [[[[im sk] ex] db1]|]; [|discriminate].
  intros [= <- <-]. now split.
Qed.

(** X22. Every record the scraper delivers passes the validation of the import
    again: a historical import whose scraping succeeded counts no record
    as invalid, and each delivered record is imported, skipped as already
    stored, or named in an error of the store. *)
Theorem scraped_data_import (fuel1 fuel2 : nat) (gameType : string)
    (startDate endDate : option Z) (random rest : list JsNumber.float64)
    (sr : Scraper.ScrapingResult) (db : Db) :
  Scraper.scrapePCSOResults fuel1 gameType startDate endDate random = Some (sr, rest) ->
  Scraper.success sr = true ->
  (List.length (Scraper.data sr) < fuel2)%nat ->
  exists r db',
    @HistoricalImport.importHistoricalData _ Db _ _ (HistoricalImport.mockSource fuel1) fuel2 gameType startDate endDate
      random db = Some (HistoricalImport.ofImport r, rest, db') /\
    total (details r) = List.length (Scraper.data sr) /\
    valid (details r) = total (details r) /\
    invalid (details r) = 0%nat /\
    (imported r + skipped r + List.length (errors r) = total (details r))%nat /\
    forallb Spec.isRecordError (errors r) = true.
Proof.
  intros E S Hfuel.
  assert (V : Forall (fun r => isValid (validateLotteryResult r) = true) (Scraper.data sr)).
  { destruct (scrape_run _ _ _ _ _ _ _ E) as [(m & _ & S' & _)|(l & _ & _ & Ed & _)];
      [congruence|].
    rewrite Ed. apply Forall_forall. intros r' Hr'. apply in_map_iff in Hr'.
    destruct Hr' as (r & <- & Hr). apply filter_In in Hr. now apply clean_valid. }
  destruct (import_run fuel2 (Scraper.data sr) no_options db) as
    (r & db' & n & ex & Ei & _ & Eerr & R & En & T & VI & C);
    [cbn; lia | exact Hfuel |].
  destruct (import_details _ _ _ _ _ Ei) as [Ev Einv].
  destruct (all_valid _ V) as [Evs _].
  rewrite Evs, length_map in Ev, Einv.
  assert (N0 : n = 0%nat) by lia.
  rewrite N0 in Eerr. cbn [Nat.ltb Nat.leb app] in Eerr.
  exists r, db'. unfold HistoricalImport.importHistoricalData.
  cbn [HistoricalImport.scrape HistoricalImport.mockSource].
  rewrite E, S. cbn [negb]. rewrite Ei.
  split; [reflexivity|]. split; [exact T|]. split; [lia|]. split; [lia|].
  rewrite Eerr. split; [lia | exact R].
Qed.

(** X23. For a game that the scraper's table does not hold (and that is no
    property every object inherits), a historical import reports success
    with nothing imported and no error, and leaves the store and the random
    source untouched. *)
Theorem unknown_game_imports_nothing (fuel1 fuel2 : nat) (gameType : string)
    (startDate endDate : option Z) (random : list JsNumber.float64) (db : Db) :
  Scraper.getGameConfig gameType = Scraper.Missing ->
  (0 < fuel2)%nat ->
  @HistoricalImport.importHistoricalData _ Db _ _ (HistoricalImport.mockSource fuel1) fuel2 gameType startDate endDate
    random db
  = Some ({| HistoricalImport.success := true;
             HistoricalImport.imported := 0;
             HistoricalImport.skipped := 0;
             HistoricalImport.errors := [];
             HistoricalImport.details :=
               {| total := 0; valid := 0; invalid := 0; duplicates := 0 |} |},
          random, db).
Proof.
  intros E Hfuel. unfold HistoricalImport.importHistoricalData.
  cbn [HistoricalImport.scrape HistoricalImport.mockSource].
  unfold Scraper.scrapePCSOResults, Scraper.generateMockHistoricalData.
  rewrite E. cbn [fold_left Scraper.success Scraper.data negb].
  destruct fuel2 as [|fuel2]; [lia|]. reflexivity.
Qed.

(** X24. For a game name that is a property every object inherits, such as
    [toString], and a date range that is not empty, the scraper's test for
    a draw day throws; the error is caught, and the historical import fails
    with that one error, nothing imported and the store untouched. *)
Theorem inherited_name_fails_scraping (fuel1 fuel2 : nat) (gameType : string)
    (startDate endDate : option Z) (random : list JsNumber.float64) (db : Db) :
  Scraper.getGameConfig gameType = Scraper.Inherited ->
  Scraper.notAfter startDate endDate = true ->
  (0 < fuel1)%nat ->
  @HistoricalImport.importHistoricalData _ Db _ _ (HistoricalImport.mockSource fuel1) fuel2 gameType startDate endDate
    random db
  = Some (HistoricalImport.failed
            [HistoricalImport.FromAdapter
               (Scraper.ScrapingFailed Scraper.includes_of_undefined)],
          random, db).
Proof.
  intros E N Hfuel. unfold HistoricalImport.importHistoricalData.
  cbn [HistoricalImport.scrape HistoricalImport.mockSource].
  unfold Scraper.scrapePCSOResults, Scraper.generateMockHistoricalData.
  rewrite E. destruct fuel1 as [|fuel1]; [lia|].
  cbn [Scraper.mockLoop]. rewrite N. unfold Scraper.isDrawDay. rewrite E.
  reflexivity.
Qed.
End HistoricalFacts.

Section AllGames.
Import Validation DataImport.
Context `{JsHost} {Db : Type} `{Prisma Db} {W : Type} `{HistoricalImport.DataSource W}.

Lemma Map_set_fresh {V : Type} (k : string) (v : V) (m : list (string * V)) :
  ~ In k (map fst m) -> Map_set k v m = m ++ [(k, v)].
Proof.
  induction m as [|[k' v'] m IH]; cbn [Map_set map fst In app]; [reflexivity|].
  intros Hout. destruct (String.eqb_spec k' k); [tauto|].
  rewrite IH; [reflexivity | tauto].
Qed.

Lemma importHistoricalData_returns (fuel : nat) (gameType : string)
    (startDate endDate : option Z) (w : W) (db : Db) :
  match HistoricalImport.scrape gameType startDate endDate w with
  | Some (inr sr, _) => (List.length (Scraper.data sr) < fuel)%nat
  | Some (inl _, _) => True
  | None => False
  end ->
  exists r w' db',
    HistoricalImport.importHistoricalData fuel gameType startDate endDate w db
    = Some (r, w', db').
Proof.
  unfold HistoricalImport.importHistoricalData.
  destruct (HistoricalImport.scrape gameType startDate endDate w) as [[[m|sr] w']|];
    [now eauto | | contradiction].
  intros Hfuel. destruct (negb (Scraper.success sr)); [now eauto|].
  destruct (import_run fuel (Scraper.data sr) no_options db) as (r & db' & _ & _ & E & _);
    [cbn; lia | exact Hfuel |].
  rewrite E. eauto.
Qed.

Lemma importGames_keys (fuel : nat) (startDate endDate : option Z)
    (gameTypes : list string) :
  (forall gameType w,
     match HistoricalImport.scrape gameType startDate endDate w with
     | Some (inr sr, _) => (List.length (Scraper.data sr) < fuel)%nat
     | Some (inl _, _) => True
     | None => False
     end) ->
  NoDup gameTypes ->
  forall (results : list (string * HistoricalImport.HistoricalResult)) (w : W) (db : Db),
  (forall k, In k gameTypes -> ~ In k (map fst results)) ->
  exists out w' db',
    HistoricalImport.importGames fuel gameTypes startDate endDate results w db
    = Some (out, w', db') /\
    map fst out = map fst results ++ gameTypes.
Proof.
  intros R ND. induction ND as [|k ks Hk ND IH]; intros results w db Hout;
    cbn [HistoricalImport.importGames].
  - exists results, w, db. now rewrite app_nil_r.
  - destruct (importHistoricalData_returns fuel k startDate endDate w db (R k w))
      as (r & w1 & db1 & E).
    rewrite E. rewrite Map_set_fresh by (apply Hout; now left).
    destruct (IH (results ++ [(k, r)]) w1 db1) as (out & w' & db' & Eo & Ek).
    + intros k0 Hk0. rewrite map_app, in_app_iff. cbn [map fst In].
      intros [Hin|[<-|[]]]; [|contradiction].
      apply (Hout k0); [now right | exact Hin].
    + exists out, w', db'. split; [exact Eo|].
      rewrite Ek, map_app, <- app_assoc. reflexivity.
Qed.

(** X25. When the data source answers every call, and the fuel covers the
    records it delivers, [importAllHistoricalData] returns a result for
    each game of the catalog, in the catalog's order, and for nothing else:
    a game whose scraping or import failed is reported like the others and
    does not stop the run. *)
Theorem all_games_reported (fuel : nat) (startDate endDate : option (option Z))
    (w : W) (db : Db) :
  (forall gameType start finish w,
     match HistoricalImport.scrape gameType start finish w with
     | Some (inr sr, _) => (List.length (Scraper.data sr) < fuel)%nat
     | Some (inl _, _) => True
     | None => False
     end) ->
  exists results w' db',
    HistoricalImport.importAllHistoricalData fuel startDate endDate w db
    = Some (results, w', db') /\
    map fst results = Constants.keys.
Proof.
  intros R. unfold HistoricalImport.importAllHistoricalData.
  apply (importGames_keys fuel _ _ Constants.keys (fun g w0 => R g _ _ w0)).
  - unfold Constants.keys, Constants.LOTTERY_GAMES. cbn [map fst].
    repeat constructor; cbn [In]; intros Hin;
      repeat (destruct Hin as [Hin|Hin]; [discriminate|]); exact Hin.
  - intros k _ [].
Qed.
End AllGames.

(** ** Import from CSV *)

Section CsvFacts.
Import Validation DataImport.
Context `{JsHost} `{NumberHost} {Db : Type} `{Prisma Db}.

Lemma findIndex_Some {A : Type} (p : A -> bool) (l : list A) (i : nat) :
  CsvImport.findIndex p l = Some i -> (i < List.length l)%nat.
Proof.
  revert i. induction l as [|x l IH]; intros i; cbn [CsvImport.findIndex List.length];
    [discriminate|].
  destruct (p x); [intros [= <-]; lia|].
  destruct (CsvImport.findIndex p l) as [j|]; [|discriminate].
  intros [= <-]. specialize (IH j eq_refl). lia.
Qed.

Lemma headerMap_get (headers : list string) (header : string) :
  In header CsvImport.expectedHeaders ->
  Map_get header (CsvImport.headerMapOf headers) = CsvImport.columnOf headers header.
Proof.
  unfold CsvImport.headerMapOf, CsvImport.expectedHeaders. cbn [fold_left In].
  intros Hin.
  destruct (CsvImport.columnOf headers "gameName") as [a|] eqn:Ea;
  destruct (CsvImport.columnOf headers "drawDate") as [b|] eqn:Eb;
  destruct (CsvImport.columnOf headers "numbers") as [c|] eqn:Ec;
  destruct (CsvImport.columnOf headers "jackpot") as [d|] eqn:Ed;
  repeat (destruct Hin as [<-|Hin]; [now rewrite ?Ea, ?Eb, ?Ec, ?Ed|]);
  contradiction.
Qed.

Lemma field_found (headers values : list string) (header : string) (i : nat) :
  CsvImport.columnOf headers header = Some i ->
  (List.length values <? List.length headers)%nat = false ->
  exists text, CsvImport.field values (Some i) = Some text.
Proof.
  intros E L. apply findIndex_Some in E. apply Nat.ltb_ge in L.
  cbn [CsvImport.field].
  destruct (nth_error values i) as [text|] eqn:N; [now eauto|].
  apply nth_error_None in N. lia.
Qed.

Lemma parseRow_some (headers : list string) (line : string) :
  CsvImport.columnOf headers "gameName" <> None ->
  CsvImport.columnOf headers "drawDate" <> None ->
  CsvImport.columnOf headers "numbers" <> None ->
  (exists result,
     CsvImport.parseRow headers (CsvImport.headerMapOf headers) line = Some result)
  <-> (List.length headers <= List.length (CsvImport.split "," line))%nat.
Proof.
  intros Hg Hd Hn. unfold CsvImport.parseRow.
  rewrite !headerMap_get by (cbn; tauto). rewrite length_map.
  destruct (List.length (CsvImport.split "," line) <? List.length headers)%nat eqn:L.
  - apply Nat.ltb_lt in L. split; [intros [? [=]] | lia].
  - split; [intros _; apply Nat.ltb_ge in L; lia | intros _].
    assert (L' : (List.length (map JsString.trim (CsvImport.split "," line))
                  <? List.length headers)%nat = false) by now rewrite length_map.
    destruct (CsvImport.columnOf headers "numbers") as [c|] eqn:Ec; [|contradiction].
    destruct (CsvImport.columnOf headers "gameName") as [a|] eqn:Ea; [|contradiction].
    destruct (CsvImport.columnOf headers "drawDate") as [b|] eqn:Eb; [|contradiction].
    destruct (field_found headers _ _ _ Ec L') as [tc ->].
    destruct (field_found headers _ _ _ Ea L') as [ta ->].
    destruct (field_found headers _ _ _ Eb L') as [tb ->].
    eauto.
Qed.

Lemma parseRow_none (headers : list string) (line : string) :
  CsvImport.columnOf headers "gameName" = None \/
  CsvImport.columnOf headers "drawDate" = None \/
  CsvImport.columnOf headers "numbers" = None ->
  CsvImport.parseRow headers (CsvImport.headerMapOf headers) line = None.
Proof.
  intros Hmiss. unfold CsvImport.parseRow.
  rewrite !headerMap_get by (cbn; tauto).
  destruct (_ <? _)%nat; [reflexivity|].
  destruct Hmiss as [E|[E|E]]; rewrite E; cbn [CsvImport.field].
  - now destruct (CsvImport.field _ (CsvImport.columnOf headers "numbers")).
  - destruct (CsvImport.field _ (CsvImport.columnOf headers "numbers")); [|reflexivity].
    now destruct (CsvImport.field _ (CsvImport.columnOf headers "gameName")).
  - reflexivity.
Qed.

Lemma parseRows_length (headers rows : list string) :
  CsvImport.columnOf headers "gameName" <> None ->
  CsvImport.columnOf headers "drawDate" <> None ->
  CsvImport.columnOf headers "numbers" <> None ->
  List.length (CsvImport.parseRows headers rows)
  = List.length
      (filter (fun line => (List.length headers
                            <=? List.length (CsvImport.split "," line))%nat) rows).
Proof.
  intros Hg Hd Hn. unfold CsvImport.parseRows.
  induction rows as [|line rows IH]; cbn [flat_map filter]; [reflexivity|].
  rewrite length_app, IH.
  pose proof (parseRow_some headers line Hg Hd Hn) as P.
  destruct (List.length headers <=? List.length (CsvImport.split "," line))%nat eqn:L.
  - apply Nat.leb_le in L. destruct (proj2 P L) as [result ->]. reflexivity.
  - apply Nat.leb_gt in L.
    destruct (CsvImport.parseRow headers (CsvImport.headerMapOf headers) line)
      as [result|] eqn:E; [|reflexivity].
    assert (List.length headers <= List.length (CsvImport.split "," line))%nat
      by (apply P; eauto). lia.
Qed.

Lemma parseRows_bound (headers rows : list string) :
  (List.length (CsvImport.parseRows headers rows) <= List.length rows)%nat.
Proof.
  unfold CsvImport.parseRows.
  induction rows as [|line rows IH]; cbn [flat_map List.length]; [lia|].
  rewrite length_app.
  destruct (CsvImport.parseRow headers (CsvImport.headerMapOf headers) line);
    cbn [List.length]; lia.
Qed.

(** X26. [importFromCSV] answers with the error [CSV parsing failed] exactly when
    the text has no line that is not blank; the result then has
    [success = false] and all counts 0, and the store is untouched.  Rows
    that cannot be read never lead to this error. *)
Theorem csv_parsing_fails_iff_blank (fuel : nat) (csvContent : string) (db : Db) :
  (CsvImport.linesOf csvContent = [] ->
   CsvImport.importFromCSV fuel csvContent db
   = Some ({| CsvImport.success := false;
              CsvImport.imported := 0;
              CsvImport.skipped := 0;
              CsvImport.errors :=
                [CsvImport.CsvParsingFailed CsvImport.split_of_undefined];
              CsvImport.details :=
                {| total := 0; valid := 0; invalid := 0; duplicates := 0 |} |},
           db)) /\
  (forall r db' message,
     CsvImport.importFromCSV fuel csvContent db = Some (r, db') ->
     In (CsvImport.CsvParsingFailed message) (CsvImport.errors r) ->
     CsvImport.linesOf csvContent = []) /\
  (CsvImport.linesOf csvContent = [] <->
   Forall (fun line => JsString.trim line = EmptyString)
          (CsvImport.split (ascii_of_nat 10) csvContent)).
Proof.
  split; [|split].
  - intros E. unfold CsvImport.importFromCSV. now rewrite E.
  - intros r db' message. unfold CsvImport.importFromCSV.
    destruct (CsvImport.linesOf csvContent) as [|first rows]; [reflexivity|].
    destruct (importLotteryResults _ _ _ _) as [[r0 db0]|]; [|discriminate].
    intros [= <- <-]. cbn [CsvImport.errors CsvImport.ofImport].
    intros Hin. apply in_map_iff in Hin. destruct Hin as (e & [=] & _).
  - unfold CsvImport.linesOf.
    induction (CsvImport.split (ascii_of_nat 10) csvContent) as [|line l IH];
      cbn [filter]; [split; [constructor | reflexivity]|].
    destruct (JsString.trim line) eqn:T.
    + rewrite IH. split; [now constructor | now inversion 1].
    + split; [discriminate | inversion 1; congruence].
Qed.

(** X27. When no header of the first line contains [gamename], [drawdate] or
    [numbers] (letter case aside), every row is passed over: the import
    reports success with nothing imported, no error and all counts 0, and
    leaves the store untouched. *)
Theorem csv_missing_column (fuel : nat) (csvContent first : string)
    (rows : list string) (db : Db) :
  CsvImport.linesOf csvContent = first :: rows ->
  (let headers := map JsString.trim (CsvImport.split "," first) in
   CsvImport.columnOf headers "gameName" = None \/
   CsvImport.columnOf headers "drawDate" = None \/
   CsvImport.columnOf headers "numbers" = None) ->
  (0 < fuel)%nat ->
  CsvImport.importFromCSV fuel csvContent db
  = Some ({| CsvImport.success := true;
             CsvImport.imported := 0;
             CsvImport.skipped := 0;
             CsvImport.errors := [];
             CsvImport.details :=
               {| total := 0; valid := 0; invalid := 0; duplicates := 0 |} |},
          db).
Proof.
  intros E Hmiss Hfuel. unfold CsvImport.importFromCSV. rewrite E.
  cbv zeta in Hmiss.
  assert (R : CsvImport.parseRows (map JsString.trim (CsvImport.split "," first)) rows
              = []).
  { unfold CsvImport.parseRows. induction rows as [|line rows' IH] in |- *;
      cbn [flat_map]; [reflexivity|].
    now rewrite (parseRow_none _ line Hmiss), IH. }
  rewrite R. destruct fuel as [|fuel]; [lia|]. reflexivity.
Qed.

(** X28. When the first line names the three columns [gameName], [drawDate] and
    [numbers], every row with at least as many values as there are headers
    becomes a candidate, whatever it holds, and the rows with fewer values
    are dropped without a trace: [details.total] counts the former only. *)
Theorem csv_rows_counted (fuel : nat) (csvContent first : string)
    (rows : list string) (db : Db) :
  CsvImport.linesOf csvContent = first :: rows ->
  let headers := map JsString.trim (CsvImport.split "," first) in
  CsvImport.columnOf headers "gameName" <> None ->
  CsvImport.columnOf headers "drawDate" <> None ->
  CsvImport.columnOf headers "numbers" <> None ->
  (List.length rows < fuel)%nat ->
  exists r db',
    CsvImport.importFromCSV fuel csvContent db = Some (CsvImport.ofImport r, db') /\
    total (details r)
    = List.length
        (filter (fun line => (List.length headers
                              <=? List.length (CsvImport.split "," line))%nat) rows) /\
    (imported r + skipped r + invalid (details r) + Spec.recordErrors (errors r)
     = total (details r))%nat.
Proof.
  intros E headers Hg Hd Hn Hfuel. unfold CsvImport.importFromCSV. rewrite E.
  fold headers.
  pose proof (parseRows_bound headers rows) as B.
  destruct (import_run fuel (CsvImport.parseRows headers rows) no_options db)
    as (r & db' & n & ex & Ei & _ & Eerr & R & En & T & VI & C); [cbn; lia | lia |].
  rewrite Ei. exists r, db'. split; [reflexivity|].
  split; [now rewrite T, parseRows_length|].
  assert (RE : Spec.recordErrors (errors r) = List.length ex).
  { rewrite Eerr. unfold Spec.recordErrors. rewrite filter_app, length_app.
    fold (Spec.recordErrors ex). rewrite (recordErrors_all ex R).
    destruct (0 <? n)%nat; reflexivity. }
  lia.
Qed.
End CsvFacts.

(** ** The properties at the sample data *)

Lemma clean_record_revalidates_witness :
  Validation.isValid
    (@Validation.validateLotteryResult Samples.host
       (@Validation.cleanLotteryResult Samples.host Samples.draw642_unsorted)) = true.
Proof.
  refine (proj1 (@clean_record_revalidates Samples.host Samples.draw642_unsorted _)).
  vm_compute. reflexivity.
Defined.

Lemma one_error_per_bad_number_witness :
  List.length
    (filter Facts.isPerNumberError
       (Validation.errors (@Validation.validateLotteryResult Samples.host Samples.outOfRange)))
  = List.length (filter (Facts.offending (Some 45)) (Validation.numbers Samples.outOfRange)).
Proof.
  refine (proj1 (@one_error_per_bad_number Samples.host Samples.outOfRange
                   MoreSamples.game645 _)).
  reflexivity.
Defined.

Lemma missing_game_name_witness :
  Validation.isValid (@Validation.validateLotteryResult Samples.host MoreSamples.nameless)
  = false.
Proof.
  refine (proj1 (proj2 (@missing_game_name Samples.host MoreSamples.nameless _))).
  reflexivity.
Defined.

Lemma groups_order_independent_witness :
  exists g',
    In g' (@Validation.detectDuplicates Samples.host
             [Samples.draw642_again; Samples.draw642]) /\
    Permutation [Samples.draw642; Samples.draw642_again] g'.
Proof.
  refine (@groups_order_independent Samples.host
            [Samples.draw642; Samples.draw642_again]
            [Samples.draw642_again; Samples.draw642]
            (perm_swap _ _ _)
            [Samples.draw642; Samples.draw642_again] _).
  vm_compute. left. reflexivity.
Defined.

Lemma batch_size_irrelevant_witness :
  @DataImport.importLotteryResults Samples.host _ MemoryStore.prisma 4
    [Samples.draw642; Samples.draw645; Samples.draw642_again]
    DataImport.no_options MemoryStore.seeded
  = @DataImport.importLotteryResults Samples.host _ MemoryStore.prisma 4
      [Samples.draw642; Samples.draw645; Samples.draw642_again]
      {| DataImport.given_skipDuplicates := None;
         DataImport.given_validateData := None;
         DataImport.given_batchSize := Some 1%nat |}
      MemoryStore.seeded.
Proof.
  refine (proj1 (@batch_size_irrelevant Samples.host _ MemoryStore.prisma 4 4
                   [Samples.draw642; Samples.draw645; Samples.draw642_again]
                   DataImport.no_options
                   {| DataImport.given_skipDuplicates := None;
                      DataImport.given_validateData := None;
                      DataImport.given_batchSize := Some 1%nat |}
                   MemoryStore.seeded eq_refl eq_refl _ _ _ _));
    cbn; lia.
Defined.

Lemma no_lookup_no_skip_witness :
  exists r db',
    @DataImport.importLotteryResults Samples.host _ MemoryStore.prisma 4
      [Samples.draw642; Samples.draw645; Samples.draw642_again]
      {| DataImport.given_skipDuplicates := Some false;
         DataImport.given_validateData := None;
         DataImport.given_batchSize := None |}
      MemoryStore.seeded = Some (r, db') /\
    DataImport.skipped r = 0%nat /\
    DataImport.duplicates (DataImport.details r) = 0%nat /\
    (DataImport.imported r + Spec.recordErrors (DataImport.errors r)
     = DataImport.valid (DataImport.details r))%nat.
Proof.
  refine (@no_lookup_no_skip Samples.host _ MemoryStore.prisma 4
            [Samples.draw642; Samples.draw645; Samples.draw642_again]
            {| DataImport.given_skipDuplicates := Some false;
               DataImport.given_validateData := None;
               DataImport.given_batchSize := None |}
            MemoryStore.seeded eq_refl _ _); cbn; lia.
Defined.

Lemma zero_batch_size_never_returns_witness :
  @DataImport.importLotteryResults Samples.host _ MemoryStore.prisma 1000
    [Samples.draw642]
    {| DataImport.given_skipDuplicates := None;
       DataImport.given_validateData := None;
       DataImport.given_batchSize := Some 0%nat |}
    MemoryStore.seeded = None.
Proof.
  refine (@zero_batch_size_never_returns Samples.host _ MemoryStore.prisma 1000
            [Samples.draw642]
            {| DataImport.given_skipDuplicates := None;
               DataImport.given_validateData := None;
               DataImport.given_batchSize := Some 0%nat |}
            MemoryStore.seeded Samples.draw642 eq_refl _ _).
  - left. reflexivity.
  - intros _. vm_compute. reflexivity.
Defined.

Lemma date_range_bounds_witness :
  exists e l,
    Patterns.earliest (Patterns.dateRangeOf MoreSamples.history) = Some e /\
    Patterns.latest (Patterns.dateRangeOf MoreSamples.history) = Some l /\
    In e (map DataManager.drawDate MoreSamples.history) /\
    In l (map DataManager.drawDate MoreSamples.history) /\
    forall r, In r MoreSamples.history ->
              e <= DataManager.drawDate r <= l.
Proof.
  refine (date_range_bounds MoreSamples.history _). discriminate.
Defined.

Lemma random_numbers_drawn_witness :
  exists l used rest,
    Scraper.generateRandomNumbers 6 42 MoreSamples.randoms = Some (l, rest) /\
    MoreSamples.randoms = used ++ rest /\
    List.length l = 6%nat /\ StronglySorted Z.lt l /\
    forall n, In n l <-> In n (map (Scraper.randomNumber 42) used).
Proof.
  refine (random_numbers_drawn 6 42 MoreSamples.randoms _).
  vm_compute. lia.
Defined.

Lemma random_numbers_never_return_witness :
  Scraper.generateRandomNumbers 43 42 MoreSamples.randoms = None.
Proof.
  refine (random_numbers_never_return 43 42 MoreSamples.randoms _ _); [lia|].
  repeat constructor; vm_compute; discriminate.
Defined.

Lemma mock_data_passes_witness :
  exists sr rest,
    @Scraper.scrapePCSOResults Samples.host UtcCalendar.calendar 5 "6/42"
      MoreSamples.monday MoreSamples.tuesday MoreSamples.randoms = Some (sr, rest) /\
    Scraper.success sr = true /\ Scraper.errors sr = [] /\
    Forall (fun r =>
              Validation.isValid (@Validation.validateLotteryResult Samples.host r) = true /\
              Validation.gameName r = "6/42"%string /\
              List.length (Validation.numbers r) = 6%nat) (Scraper.data sr).
Proof.
  assert (E : exists sr rest,
             @Scraper.scrapePCSOResults Samples.host UtcCalendar.calendar 5 "6/42"
               MoreSamples.monday MoreSamples.tuesday MoreSamples.randoms
             = Some (sr, rest))
    by (vm_compute; eauto).
  destruct E as (sr & rest & E). exists sr, rest. split; [exact E|].
  refine (@mock_data_passes Samples.host UtcCalendar.calendar 5 "6/42"
            MoreSamples.config642 MoreSamples.monday MoreSamples.tuesday
            MoreSamples.randoms rest sr eq_refl _ E).
  repeat constructor; vm_compute; discriminate.
Defined.

Lemma scraped_data_import_witness :
  exists sr rest r db',
    @Scraper.scrapePCSOResults Samples.host UtcCalendar.calendar 5 "6/42"
      MoreSamples.monday MoreSamples.tuesday MoreSamples.randoms = Some (sr, rest) /\
    @HistoricalImport.importHistoricalData Samples.host _ MemoryStore.prisma _
      (@HistoricalImport.mockSource Samples.host UtcCalendar.calendar 5) 5 "6/42"
      MoreSamples.monday MoreSamples.tuesday MoreSamples.randoms MemoryStore.seeded
    = Some (HistoricalImport.ofImport r, rest, db') /\
    DataImport.invalid (DataImport.details r) = 0%nat.
Proof.
  assert (E : exists sr rest,
             @Scraper.scrapePCSOResults Samples.host UtcCalendar.calendar 5 "6/42"
               MoreSamples.monday MoreSamples.tuesday MoreSamples.randoms
             = Some (sr, rest) /\
             Scraper.success sr = true /\
             (List.length (Scraper.data sr) < 5)%nat).
  { vm_compute. eexists. eexists. split; [reflexivity|]. split; [reflexivity|]. lia. }
  destruct E as (sr & rest & E & S & L).
  destruct (@scraped_data_import Samples.host UtcCalendar.calendar _ MemoryStore.prisma
              5 5 "6/42" MoreSamples.monday MoreSamples.tuesday MoreSamples.randoms
              rest sr MemoryStore.seeded E S L)
    as (r & db' & Ei & _ & _ & Einv & _).
  exists sr, rest, r, db'. split; [exact E|]. split; [exact Ei | exact Einv].
Defined.

Lemma unknown_game_imports_nothing_witness :
  @HistoricalImport.importHistoricalData Samples.host _ MemoryStore.prisma _
    (@HistoricalImport.mockSource Samples.host UtcCalendar.calendar 5) 1 "4D"
    MoreSamples.monday MoreSamples.tuesday MoreSamples.randoms MemoryStore.seeded
  = Some ({| HistoricalImport.success := true;
             HistoricalImport.imported := 0;
             HistoricalImport.skipped := 0;
             HistoricalImport.errors := [];
             HistoricalImport.details :=
               {| DataImport.total := 0; DataImport.valid := 0;
                  DataImport.invalid := 0; DataImport.duplicates := 0 |} |},
          MoreSamples.randoms, MemoryStore.seeded).
Proof.
  refine (@unknown_game_imports_nothing Samples.host UtcCalendar.calendar _
            MemoryStore.prisma 5 1 "4D" MoreSamples.monday MoreSamples.tuesday
            MoreSamples.randoms MemoryStore.seeded eq_refl _).
  lia.
Defined.

Lemma inherited_name_fails_scraping_witness :
  @HistoricalImport.importHistoricalData Samples.host _ MemoryStore.prisma _
    (@HistoricalImport.mockSource Samples.host UtcCalendar.calendar 5) 1 "toString"
    MoreSamples.monday MoreSamples.tuesday MoreSamples.randoms MemoryStore.seeded
  = Some (HistoricalImport.failed
            [HistoricalImport.FromAdapter
               (Scraper.ScrapingFailed Scraper.includes_of_undefined)],
          MoreSamples.randoms, MemoryStore.seeded).
Proof.
  refine (@inherited_name_fails_scraping Samples.host UtcCalendar.calendar _
            MemoryStore.prisma 5 1 "toString" MoreSamples.monday MoreSamples.tuesday
            MoreSamples.randoms MemoryStore.seeded eq_refl eq_refl _).
  lia.
Defined.

Lemma all_games_reported_witness :
  exists results w' db',
    @HistoricalImport.importAllHistoricalData Samples.host _ MemoryStore.prisma _
      MoreSamples.feed 2 None None tt MemoryStore.seeded = Some (results, w', db') /\
    map fst results = Constants.keys.
Proof.
  refine (@all_games_reported Samples.host _ MemoryStore.prisma _ MoreSamples.feed
            2 None None tt MemoryStore.seeded _).
  intros gameType start finish w. cbn. lia.
Defined.

Lemma csv_parsing_fails_iff_blank_witness :
  @CsvImport.importFromCSV Samples.host MoreSamples.numerals _ MemoryStore.prisma 1
    MoreSamples.newline MemoryStore.seeded
  = Some ({| CsvImport.success := false;
             CsvImport.imported := 0;
             CsvImport.skipped := 0;
             CsvImport.errors :=
               [CsvImport.CsvParsingFailed CsvImport.split_of_undefined];
             CsvImport.details :=
               {| DataImport.total := 0; DataImport.valid := 0;
                  DataImport.invalid := 0; DataImport.duplicates := 0 |} |},
          MemoryStore.seeded).
Proof.
  refine (proj1 (@csv_parsing_fails_iff_blank Samples.host MoreSamples.numerals _
                   MemoryStore.prisma 1 MoreSamples.newline MemoryStore.seeded) _).
  reflexivity.
Defined.

Lemma csv_missing_column_witness :
  @CsvImport.importFromCSV Samples.host MoreSamples.numerals _ MemoryStore.prisma 1
    MoreSamples.sheetWithoutNumbers MemoryStore.seeded
  = Some ({| CsvImport.success := true;
             CsvImport.imported := 0;
             CsvImport.skipped := 0;
             CsvImport.errors := [];
             CsvImport.details :=
               {| DataImport.total := 0; DataImport.valid := 0;
                  DataImport.invalid := 0; DataImport.duplicates := 0 |} |},
          MemoryStore.seeded).
Proof.
  refine (@csv_missing_column Samples.host MoreSamples.numerals _ MemoryStore.prisma 1
            MoreSamples.sheetWithoutNumbers "gameName,drawDate" ["6/42,2025-09-01"%string]
            MemoryStore.seeded _ _ _).
  - vm_compute. reflexivity.
  - right. right. vm_compute. reflexivity.
  - lia.
Defined.

Lemma csv_rows_counted_witness :
  exists r db',
    @CsvImport.importFromCSV Samples.host MoreSamples.numerals _ MemoryStore.prisma 3
      MoreSamples.sheet MemoryStore.seeded = Some (CsvImport.ofImport r, db') /\
    DataImport.total (DataImport.details r) = 1%nat.
Proof.
  destruct (@csv_rows_counted Samples.host MoreSamples.numerals _ MemoryStore.prisma 3
              MoreSamples.sheet "gameName,drawDate,numbers,jackpot"
              ["6/42,2025-09-01,5;12;23;31;38;42,5500000"%string; "6/42,2025-09-02"%string]
              MemoryStore.seeded)
    as (r & db' & E & T & _).
  - vm_compute. reflexivity.
  - vm_compute. discriminate.
  - vm_compute. discriminate.
  - vm_compute. discriminate.
  - cbn. lia.
  - exists r, db'. split; [exact E|]. rewrite T. vm_compute. reflexivity.
Defined.
